(** * Life Intelligence: the day-keyed log store and the dashboard engine

    A shallow embedding of the two halves of the application:

    - the Express server, whose POST handlers upsert one row per natural
      key into SQLite tables and whose GET handlers read them back
      most-recent-first;
    - the [DashboardView] component of [App.tsx], which derives the four
      domain scores, the overall score and the correlation insights from
      the [/api/dashboard] payload.

    Conventions.  A JavaScript number is a rational ([Q]): every finite
    double is one.  The sums, differences, quotients and products of the
    view's scores, the literal 2.4 and the quotient of SQLite's AVG are
    rounded to the nearest double ([Double.nearest]); the thresholds of
    the insight rules compare the correlation as it is returned.
    [None] stands for [undefined]/[NaN] where a number may be absent.
    Request bodies are duck-typed in the server, so their fields are JSON
    scalars ([Js.value]); arrays and nested objects are outside the model.
    A column keeps what the driver binds after the affinity of its
    declared type was applied ([Sql.store]); the two conversions this
    rests on, reading a text as a number and writing a number as text,
    are SQLite's own and are taken as given ([Sql.Engine]). *)

From Stdlib Require Import ZArith QArith Qround Qabs Qpower Bool List.
From Stdlib Require Import Ascii String.
From Stdlib Require Import Lia.
From Stdlib Require Import DecimalString.
From Stdlib Require Reals Lra Qreals Permutation Sorted.
From Stdlib Require Import Lqa.
Import ListNotations.

(** ** Double-precision numbers *)

Module Double.

(** The integer nearest to [x], a tie going to the even one. *)
Definition round_even (x : Q) : Z :=
  let f := Qfloor x in
  match Qcompare (x - inject_Z f) (1 # 2) with
  | Lt => f
  | Gt => (f + 1)%Z
  | Eq => if Z.even f then f else (f + 1)%Z
  end.

(** [floor (log2 x)] for a positive [x]. *)
Definition log2 (x : Q) : Z :=
  let k := (Z.log2 (Qnum x) - Z.log2 (Zpos (Qden x)))%Z in
  if Qle_bool (2 ^ k) x then k else (k - 1)%Z.

(** The distance between neighbouring doubles around a positive [x]: 52
    bits below its leading bit, and never below the subnormals'. *)
Definition ulp (x : Q) : Q := 2 ^ (Z.max (log2 x) (-1022) - 52).

Definition magnitude (x : Q) : Q :=
  inject_Z (round_even (x / ulp x)) * ulp x.

(** The double nearest to [x], a tie going to the even significand: the
    rounding of every arithmetic operation on doubles.  The exponent is
    not bounded above: a result beyond the largest double, which
    JavaScript turns into an infinity, keeps its finite value here. *)
Definition nearest (x : Q) : Q :=
  if Qle_bool 0 x then magnitude x else - magnitude (- x).

Definition div (a b : Q) : Q := nearest (a / b).

Definition mul (a b : Q) : Q := nearest (a * b).
Definition add (a b : Q) : Q := nearest (a + b).
Definition sub (a b : Q) : Q := nearest (a - b).

End Double.

(** ** JavaScript values carried by a JSON request body *)

Module Js.

Inductive value : Type :=
| Undefined                (* the field is missing from the body *)
| Null
| Bool (b : bool)
| Num (q : Q)
| Str (s : string).

(** [ToBoolean]: the test behind [v ? a : b] and [v || d]. *)
Definition truthy (v : value) : bool :=
  match v with
  | Undefined | Null => false
  | Bool b => b
  | Num q => negb (Qeq_bool q 0)
  | Str s => negb (String.eqb s "")
  end.

(** [typeof v === 'number'] and [typeof v === 'boolean']. *)
Definition is_number (v : value) : bool :=
  match v with Num _ => true | _ => false end.

Definition is_boolean (v : value) : bool :=
  match v with Bool _ => true | _ => false end.

End Js.

(** ** SQLite values, and tables with a UNIQUE natural key *)

Module Sql.

Inductive val : Type :=
| Null
| Num (q : Q)
| Text (s : string).

(** Equality as a UNIQUE index sees it: NULL is distinct from every value,
    itself included. *)
Definition eqb (a b : val) : bool :=
  match a, b with
  | Num p, Num q => Qeq_bool p q
  | Text s, Text t => String.eqb s t
  | _, _ => false
  end.

(** The order of ORDER BY: NULL, then numbers, then text (bytewise). *)
Definition leb (a b : val) : bool :=
  match a, b with
  | Null, _ => true
  | Num _, Null => false
  | Num p, Num q => Qle_bool p q
  | Num _, Text _ => true
  | Text _, (Null | Num _) => false
  | Text s, Text t => String.leb s t
  end.

(** What the driver binds for a statement parameter: numbers and strings
    as they are, [null] and [undefined] as NULL; a boolean is refused with
    a TypeError, which is why the body handler converts [training_done]. *)
Definition bind (v : Js.value) : option val :=
  match v with
  | Js.Undefined | Js.Null => Some Null
  | Js.Bool _ => None
  | Js.Num q => Some (Num q)
  | Js.Str s => Some (Text s)
  end.

Fixpoint bind_all (vs : list Js.value) : option (list val) :=
  match vs with
  | [] => Some []
  | v :: rest =>
      match bind v, bind_all rest with
      | Some x, Some xs => Some (x :: xs)
      | _, _ => None
      end
  end.

(** SQLite's two conversions between text and numbers: [numeric s] is the
    number a text is read as where a number is wanted, when the whole of
    it is a numeric literal (spaces around it, a sign, a fraction and an
    exponent are allowed), and [text_of q] is the text a number is written
    as.  They belong to the engine and are taken as given.  Numbers are
    finite throughout: a literal beyond the range of the doubles, in a
    text or in the JSON of a request, is outside the model. *)
Class Engine : Type := {
  numeric : string -> option Q;
  text_of : Q -> string }.

(** The affinity of a column, from its declared type. *)
Inductive affinity : Type := TEXT | INTEGER | REAL.

(** What a column keeps of a value it is given.  A TEXT column turns a
    number into text.  An INTEGER or REAL column turns a text that reads
    as a number into that number and keeps any other text as it is; a
    REAL column holds the number as a double.  (An INTEGER column holds a
    double without a fractional part as an integer: the same number.) *)
Definition store {sqlite : Engine} (a : affinity) (v : val) : val :=
  match a, v with
  | TEXT, Num q => Text (text_of q)
  | INTEGER, Text s =>
      match numeric s with Some q => Num q | None => v end
  | REAL, Text s =>
      match numeric s with Some q => Num (Double.nearest q) | None => v end
  | _, _ => v
  end.

(** What a column keeps of a field of a request body: the field as the
    driver binds it, then as the column stores it. *)
Definition keep {sqlite : Engine} (a : affinity) (v : Js.value)
  : option val :=
  option_map (store a) (bind v).

Section Table.

Variables K F : Type.

(** A row: the AUTOINCREMENT [id], the natural key and the other columns. *)
Record row : Type := Row { id : Z; key : K; cols : F }.

(** A table: its rows in insertion order and the last id handed out. *)
Record table : Type := Table { rows : list row; seq : Z }.

Definition empty : table := {| rows := []; seq := 0 |}.

Variable conflict : K -> K -> bool.

(** INSERT ... ON CONFLICT(key) DO UPDATE SET col = excluded.col, ...:
    the row whose key collides keeps its id and key and takes every other
    column from the new values; without a collision a fresh row is added.
    Either way the statement draws an id, so the counter behind
    AUTOINCREMENT moves on. *)
Fixpoint upsert_rows (k : K) (f : F) (fresh : Z) (rs : list row) : list row :=
  match rs with
  | [] => [ {| id := fresh; key := k; cols := f |} ]
  | r :: rest =>
      if conflict (key r) k
      then {| id := id r; key := key r; cols := f |} :: rest
      else r :: upsert_rows k f fresh rest
  end.

Definition upsert (k : K) (f : F) (t : table) : table :=
  {| rows := upsert_rows k f (seq t + 1) (rows t);
     seq := (seq t + 1)%Z |}.

(** The UNIQUE constraint: no two rows collide on the key. *)
Fixpoint unique_keys (rs : list row) : bool :=
  match rs with
  | [] => true
  | r :: rest =>
      forallb (fun r' => negb (conflict (key r) (key r'))) rest
      && unique_keys rest
  end.

(** The rows a key selects. *)
Definition select (k : K) (t : table) : list row :=
  filter (fun r => conflict (key r) k) (rows t).

(** ORDER BY c DESC, then LIMIT n.  SQL leaves the order of rows with
    equal values open, and SQLite's depends on how it reads the table
    (backwards through an index, or through a sort); here they stay in
    table order, and nothing below depends on it. *)
Variable col : row -> val.

Fixpoint insert_desc (r : row) (l : list row) : list row :=
  match l with
  | [] => [r]
  | x :: rest =>
      if leb (col x) (col r) then r :: l else x :: insert_desc r rest
  end.

Definition order_by_desc (rs : list row) : list row :=
  fold_right insert_desc [] rs.

Definition order_by_desc_limit (n : nat) (rs : list row) : list row :=
  firstn n (order_by_desc rs).

End Table.

Arguments Row {K F}.
Arguments id {K F}.
Arguments key {K F}.
Arguments cols {K F}.
Arguments Table {K F}.
Arguments rows {K F}.
Arguments seq {K F}.
Arguments empty {K F}.
Arguments upsert_rows {K F}.
Arguments upsert {K F}.
Arguments unique_keys {K F}.
Arguments select {K F}.
Arguments insert_desc {K F}.
Arguments order_by_desc {K F}.
Arguments order_by_desc_limit {K F}.

(** UNIQUE(date, project_id): both columns must collide. *)
Definition eqb2 (a b : val * val) : bool :=
  eqb (fst a) (fst b) && eqb (snd a) (snd b).

End Sql.

(** ** The server: schema, request bodies and route handlers *)

Module Server.

(** The non-key columns of each table, as the schema lists them. *)

Module BodyCols.
Record t : Type := Make {
  sleep_hours : Sql.val;
  sleep_quality : Sql.val;
  training_done : Sql.val;
  training_type : Sql.val;
  energy_level : Sql.val;
  activity_level : Sql.val }.
End BodyCols.

Module MindCols.
Record t : Type := Make {
  mood : Sql.val;
  anxiety : Sql.val;
  stress : Sql.val;
  focus : Sql.val;
  journal : Sql.val }.
End MindCols.

Module FinanceCols.
Record t : Type := Make {
  income : Sql.val;
  expenses : Sql.val;
  debts : Sql.val;
  installments : Sql.val }.
End FinanceCols.

Module ProjectCols.
Record t : Type := Make {
  name : Sql.val;
  weekly_goal_hours : Sql.val;
  created_at : Sql.val }.
End ProjectCols.

Module DisciplineCols.
Record t : Type := Make {
  minutes_invested : Sql.val;
  focus_level : Sql.val }.
End DisciplineCols.

(** [body_logs], [mind_logs] and [finance_logs] are keyed by [date];
    [discipline_logs] by [(date, project_id)]; [projects] has no natural
    key.  The [mental_inbox] table takes no part in the dashboard and is
    left out. *)
Record Db : Type := {
  body_logs : Sql.table Sql.val BodyCols.t;
  mind_logs : Sql.table Sql.val MindCols.t;
  finance_logs : Sql.table Sql.val FinanceCols.t;
  projects : Sql.table unit ProjectCols.t;
  discipline_logs : Sql.table (Sql.val * Sql.val) DisciplineCols.t }.

Definition empty_db : Db :=
  {| body_logs := Sql.empty;
     mind_logs := Sql.empty;
     finance_logs := Sql.empty;
     projects := Sql.empty;
     discipline_logs := Sql.empty |}.

(** The destructured [req.body] of each POST route. *)

Module BodyReq.
Record t : Type := Make {
  date : Js.value;
  sleep_hours : Js.value;
  sleep_quality : Js.value;
  training_done : Js.value;
  training_type : Js.value;
  energy_level : Js.value;
  activity_level : Js.value }.
End BodyReq.

Module MindReq.
Record t : Type := Make {
  date : Js.value;
  mood : Js.value;
  anxiety : Js.value;
  stress : Js.value;
  focus : Js.value;
  journal : Js.value }.
End MindReq.

Module FinanceReq.
Record t : Type := Make {
  date : Js.value;
  income : Js.value;
  expenses : Js.value;
  debts : Js.value;
  installments : Js.value }.
End FinanceReq.

Module ProjectReq.
Record t : Type := Make {
  name : Js.value;
  weekly_goal_hours : Js.value }.
End ProjectReq.

Module DisciplineReq.
Record t : Type := Make {
  date : Js.value;
  project_id : Js.value;
  minutes_invested : Js.value;
  focus_level : Js.value }.
End DisciplineReq.

(** A handler either answers [{ success: true }] or lets the driver's
    exception escape, in which case nothing was written. *)
Inductive Response : Type := Success | ServerError.

(** [training_done ? 1 : 0] *)
Definition flag (v : Js.value) : Js.value :=
  Js.Num (if Js.truthy v then 1 else 0).

Section Handlers.

Context {sqlite : Sql.Engine}.

(** The values of each INSERT: the statement parameters, bound in the
    order of [stmt.run(...)], each as the column it goes to keeps it (the
    CREATE TABLE statements give the types); the natural key and the
    other columns, or nothing when the driver refuses a value. *)

Definition body_params (req : BodyReq.t) : option (Sql.val * BodyCols.t) :=
  match Sql.bind_all
          [ BodyReq.date req; BodyReq.sleep_hours req;
            BodyReq.sleep_quality req; flag (BodyReq.training_done req);
            BodyReq.training_type req; BodyReq.energy_level req;
            BodyReq.activity_level req ] with
  | Some [d; sh; sq; td; ty; el; al] =>
      Some (Sql.store Sql.TEXT d,
            BodyCols.Make (Sql.store Sql.REAL sh) (Sql.store Sql.INTEGER sq)
                          (Sql.store Sql.INTEGER td) (Sql.store Sql.TEXT ty)
                          (Sql.store Sql.INTEGER el)
                          (Sql.store Sql.INTEGER al))
  | _ => None
  end.

Definition mind_params (req : MindReq.t) : option (Sql.val * MindCols.t) :=
  match Sql.bind_all
          [ MindReq.date req; MindReq.mood req; MindReq.anxiety req;
            MindReq.stress req; MindReq.focus req; MindReq.journal req ] with
  | Some [d; mo; an; st; fo; jo] =>
      Some (Sql.store Sql.TEXT d,
            MindCols.Make (Sql.store Sql.INTEGER mo)
                          (Sql.store Sql.INTEGER an)
                          (Sql.store Sql.INTEGER st)
                          (Sql.store Sql.INTEGER fo) (Sql.store Sql.TEXT jo))
  | _ => None
  end.

Definition finance_params (req : FinanceReq.t)
  : option (Sql.val * FinanceCols.t) :=
  match Sql.bind_all
          [ FinanceReq.date req; FinanceReq.income req;
            FinanceReq.expenses req; FinanceReq.debts req;
            FinanceReq.installments req ] with
  | Some [d; inc; ex; de; ins] =>
      Some (Sql.store Sql.TEXT d,
            FinanceCols.Make (Sql.store Sql.REAL inc) (Sql.store Sql.REAL ex)
                             (Sql.store Sql.REAL de)
                             (Sql.store Sql.REAL ins))
  | _ => None
  end.

Definition project_params (now : string) (req : ProjectReq.t)
  : option ProjectCols.t :=
  match Sql.bind_all
          [ ProjectReq.name req; ProjectReq.weekly_goal_hours req;
            Js.Str now ] with
  | Some [na; wg; ca] =>
      Some (ProjectCols.Make (Sql.store Sql.TEXT na) (Sql.store Sql.REAL wg)
                             (Sql.store Sql.TEXT ca))
  | _ => None
  end.

Definition discipline_params (req : DisciplineReq.t)
  : option ((Sql.val * Sql.val) * DisciplineCols.t) :=
  match Sql.bind_all
          [ DisciplineReq.date req; DisciplineReq.project_id req;
            DisciplineReq.minutes_invested req;
            DisciplineReq.focus_level req ] with
  | Some [d; p; mi; fl] =>
      Some ((Sql.store Sql.TEXT d, Sql.store Sql.INTEGER p),
            DisciplineCols.Make (Sql.store Sql.INTEGER mi)
                                (Sql.store Sql.INTEGER fl))
  | _ => None
  end.

(** POST /api/body *)
Definition post_body (req : BodyReq.t) (db : Db) : Response * Db :=
  match body_params req with
  | Some (d, c) =>
      (Success,
       {| body_logs := Sql.upsert Sql.eqb d c (body_logs db);
          mind_logs := mind_logs db;
          finance_logs := finance_logs db;
          projects := projects db;
          discipline_logs := discipline_logs db |})
  | None => (ServerError, db)
  end.

(** POST /api/mind *)
Definition post_mind (req : MindReq.t) (db : Db) : Response * Db :=
  match mind_params req with
  | Some (d, c) =>
      (Success,
       {| body_logs := body_logs db;
          mind_logs := Sql.upsert Sql.eqb d c (mind_logs db);
          finance_logs := finance_logs db;
          projects := projects db;
          discipline_logs := discipline_logs db |})
  | None => (ServerError, db)
  end.

(** POST /api/finance *)
Definition post_finance (req : FinanceReq.t) (db : Db) : Response * Db :=
  match finance_params req with
  | Some (d, c) =>
      (Success,
       {| body_logs := body_logs db;
          mind_logs := mind_logs db;
          finance_logs := Sql.upsert Sql.eqb d c (finance_logs db);
          projects := projects db;
          discipline_logs := discipline_logs db |})
  | None => (ServerError, db)
  end.

(** POST /api/projects; [now] is [new Date().toISOString()].  A plain
    INSERT: no key ever collides. *)
Definition post_projects (now : string) (req : ProjectReq.t) (db : Db)
  : Response * Db :=
  match project_params now req with
  | Some c =>
      (Success,
       {| body_logs := body_logs db;
          mind_logs := mind_logs db;
          finance_logs := finance_logs db;
          projects := Sql.upsert (fun _ _ => false) tt c (projects db);
          discipline_logs := discipline_logs db |})
  | None => (ServerError, db)
  end.

(** POST /api/discipline *)
Definition post_discipline (req : DisciplineReq.t) (db : Db)
  : Response * Db :=
  match discipline_params req with
  | Some (k, c) =>
      (Success,
       {| body_logs := body_logs db;
          mind_logs := mind_logs db;
          finance_logs := finance_logs db;
          projects := projects db;
          discipline_logs := Sql.upsert Sql.eqb2 k c (discipline_logs db) |})
  | None => (ServerError, db)
  end.

End Handlers.

(** SELECT * FROM t ORDER BY date DESC LIMIT 30: the query of
    GET /api/body, /api/mind, /api/finance and of the three log windows of
    GET /api/dashboard. *)
Definition last30 {F : Type} (t : Sql.table Sql.val F)
  : list (Sql.row Sql.val F) :=
  Sql.order_by_desc_limit Sql.key 30 (Sql.rows t).

Definition get_body (db : Db) := last30 (body_logs db).
Definition get_mind (db : Db) := last30 (mind_logs db).
Definition get_finance (db : Db) := last30 (finance_logs db).

(** GET /api/dashboard: the three log windows of the payload.  Its fourth
    part, the per-date SUM/AVG aggregate of [discipline_logs], reaches the
    view as [DashboardData.discipline] and is not computed here. *)
Record DashboardWindows : Type := {
  body : list (Sql.row Sql.val BodyCols.t);
  mind : list (Sql.row Sql.val MindCols.t);
  finance : list (Sql.row Sql.val FinanceCols.t) }.

Definition get_dashboard (db : Db) : DashboardWindows :=
  {| body := last30 (body_logs db);
     mind := last30 (mind_logs db);
     finance := last30 (finance_logs db) |}.

(** GET /api/projects *)
Definition get_projects (db : Db) := Sql.rows (projects db).

(** GET /api/discipline: the inner join with [projects] on
    [d.project_id = p.id], each log with its [project_name]. *)
Definition join_projects (db : Db)
  : list (Sql.row (Sql.val * Sql.val) (DisciplineCols.t * Sql.val)) :=
  flat_map
    (fun d =>
       map (fun p =>
              Sql.Row (Sql.id d) (Sql.key d)
                      (Sql.cols d, ProjectCols.name (Sql.cols p)))
           (filter (fun p => Sql.eqb (snd (Sql.key d))
                                     (Sql.Num (inject_Z (Sql.id p))))
                   (Sql.rows (projects db))))
    (Sql.rows (discipline_logs db)).

Definition get_discipline (db : Db) :=
  Sql.order_by_desc_limit (fun r => fst (Sql.key r)) 100 (join_projects db).

(** The write requests of the API, and the store after a history of them
    (the projects' timestamps come with the request). *)
Inductive Request : Type :=
| PostBody (r : BodyReq.t)
| PostMind (r : MindReq.t)
| PostFinance (r : FinanceReq.t)
| PostProjects (now : string) (r : ProjectReq.t)
| PostDiscipline (r : DisciplineReq.t).

Definition handle {sqlite : Sql.Engine} (rq : Request) (db : Db)
  : Response * Db :=
  match rq with
  | PostBody r => post_body r db
  | PostMind r => post_mind r db
  | PostFinance r => post_finance r db
  | PostProjects now r => post_projects now r db
  | PostDiscipline r => post_discipline r db
  end.

(** The UNIQUE constraints of the schema. *)
Definition well_keyed (db : Db) : bool :=
  Sql.unique_keys Sql.eqb (Sql.rows (body_logs db))
  && Sql.unique_keys Sql.eqb (Sql.rows (mind_logs db))
  && Sql.unique_keys Sql.eqb (Sql.rows (finance_logs db))
  && Sql.unique_keys Sql.eqb2 (Sql.rows (discipline_logs db)).

Definition serve {sqlite : Sql.Engine} (history : list Request) (db : Db)
  : Db :=
  fold_left (fun d rq => snd (handle rq d)) history db.

End Server.

(** ** The client's view of the data (types.ts) *)

Module Types.

Module BodyLog.
Record t : Type := Make {
  id : Q;
  date : string;
  sleep_hours : Q;
  sleep_quality : Q;
  training_done : Q;
  training_type : string;
  energy_level : Q;
  activity_level : Q }.
End BodyLog.

Module MindLog.
Record t : Type := Make {
  id : Q;
  date : string;
  mood : Q;
  anxiety : Q;
  stress : Q;
  focus : Q;
  journal : string }.
End MindLog.

(** [income] is [None] for a log that carries no income ([null], as a
    row written without one reaches the client): the view guards its
    division against it. *)
Module FinanceLog.
Record t : Type := Make {
  id : Q;
  date : string;
  income : option Q;
  expenses : Q;
  debts : Q;
  installments : Q }.
End FinanceLog.

(** One entry of [DashboardData.discipline]. *)
Module DisciplineDay.
Record t : Type := Make {
  date : string;
  total_minutes : Q;
  avg_focus : Q }.
End DisciplineDay.

Record DashboardData : Type := {
  body : list BodyLog.t;
  mind : list MindLog.t;
  finance : list FinanceLog.t;
  discipline : list DisciplineDay.t }.

End Types.

(** ** The numeric primitives of JavaScript the view relies on *)

Module Math.

(** [Math.round]: the nearest integer, halves going up. *)
Definition round (x : Q) : Z := Qfloor (x + (1 # 2)).

Definition min (a b : Z) : Z := Z.min a b.

Definition abs (x : option Q) : option Q := option_map Qabs x.

End Math.

(** [a > b] on numbers, false as soon as the left side is [NaN]. *)
Definition gt (a : option Q) (b : Q) : bool :=
  match a with
  | Some x => negb (Qle_bool x b)
  | None => false
  end.

(** [x || d] on a number: [d] replaces a zero and a missing one. *)
Definition or_else (x : option Q) (d : Q) : Q :=
  match x with
  | Some q => if Qeq_bool q 0 then d else q
  | None => d
  end.

(** A number inside a template literal. *)
Definition show (n : option Z) : string :=
  match n with
  | Some z => NilZero.string_of_int (Z.to_int z)
  | None => "NaN"
  end.

(** ** DashboardView (App.tsx) *)

Module App.

Import Types.

Inductive Polarity : Type := positive | negative.

Record Insight : Type := {
  title : string;
  text : string;
  type : Polarity }.

(** What the component renders: the spinner while [data] is null, the
    "no data" placeholder, or the dashboard proper, of which the scores
    and the insight cards are kept (the chart and the two averages under
    it do not depend on them). *)
Record Scores : Type := {
  overall : Z;
  body_score : Q;
  mind_score : Q;
  finance_score : Z;
  discipline_score : Z }.

Inductive View : Type :=
| Loading
| NoData
| Dashboard (scores : Scores) (insights : list Insight).

Section DashboardView.

(** [calculateScore] and [getCorrelation] are imported from [./lib/utils],
    which is not among the sources: the view is modelled for any such pair
    of functions. *)
Variable calculateScore : Q -> Q.
Variable getCorrelation : list Q -> list Q -> option Q.

Definition hasData (data : DashboardData) : bool :=
  Nat.ltb 0 (List.length (body data)) || Nat.ltb 0 (List.length (mind data))
  || Nat.ltb 0 (List.length (finance data))
  || Nat.ltb 0 (List.length (discipline data)).

Definition bodyScore (data : DashboardData) : Q :=
  match body data with
  | latestBody :: _ =>
      calculateScore
        (Double.div
           (Double.add
              (Double.add (BodyLog.sleep_quality latestBody)
                          (BodyLog.energy_level latestBody))
              (if Qeq_bool (BodyLog.training_done latestBody) 0 then 0 else 5))
           3)
  | [] => 0
  end.

Definition mindScore (data : DashboardData) : Q :=
  match mind data with
  | latestMind :: _ =>
      calculateScore
        (Double.div
           (Double.add
              (Double.add
                 (Double.add (MindLog.mood latestMind)
                             (Double.sub 6 (MindLog.anxiety latestMind)))
                 (Double.sub 6 (MindLog.stress latestMind)))
              (MindLog.focus latestMind))
           4)
  | [] => 0
  end.

Definition financialPressure (data : DashboardData) : Z :=
  match finance data with
  | latestFinance :: _ =>
      Math.min 100
        (Math.round
           (Double.mul
              (Double.div (FinanceLog.debts latestFinance)
                          (or_else (FinanceLog.income latestFinance) 1))
              100))
  | [] => 0
  end.

Definition financeScore (data : DashboardData) : Z :=
  Qfloor (Double.sub 100 (inject_Z (financialPressure data))).

Definition disciplineScore (data : DashboardData) : Z :=
  match discipline data with
  | latest :: _ =>
      Math.min 100
        (Math.round
           (Double.div (DisciplineDay.total_minutes latest)
                       (Double.nearest 2.4)))
  | [] => 0
  end.

Definition overallScore (data : DashboardData) : Z :=
  Math.round
    (Double.div
       (Double.add
          (Double.add (Double.add (bodyScore data) (mindScore data))
                      (inject_Z (financeScore data)))
          (inject_Z (disciplineScore data)))
       4).

Definition sleepFocusInsight (corr : option Q) : Insight :=
  {| title := "Padrão de Foco Detectado";
     text :=
       String.append "Sua qualidade de sono tem uma correlação de "
         (String.append
            (show (option_map (fun c => Math.round (Double.mul c 100)) corr))
            "% com seu nível de foco diário.");
     type := if gt corr 0 then positive else negative |}.

Definition debtAnxietyInsight : Insight :=
  {| title := "Pressão Financeira";
     text := "Detectamos que aumentos em suas dívidas estão diretamente ligados ao seu nível de ansiedade.";
     type := negative |}.

(** The first rule, as written: it is gated on the body and the
    discipline windows and correlates the body and the mind series. *)
Definition sleepFocusRule (data : DashboardData) : list Insight :=
  if Nat.ltb 5 (List.length (body data)) && Nat.ltb 5 (List.length (discipline data))
  then
    let sleep := map BodyLog.sleep_hours (body data) in
    let focus := map MindLog.focus (mind data) in
    let corr := getCorrelation sleep focus in
    if gt (Math.abs corr) 0.4 then [sleepFocusInsight corr] else []
  else [].

Definition debtAnxietyRule (data : DashboardData) : list Insight :=
  if Nat.ltb 5 (List.length (finance data)) && Nat.ltb 5 (List.length (mind data))
  then
    let debts := map FinanceLog.debts (finance data) in
    let anxiety := map MindLog.anxiety (mind data) in
    let corr := getCorrelation debts anxiety in
    if gt corr 0.3 then [debtAnxietyInsight] else []
  else [].

Definition insights (data : DashboardData) : list Insight :=
  sleepFocusRule data ++ debtAnxietyRule data.

Definition DashboardView (data : option DashboardData) : View :=
  match data with
  | None => Loading
  | Some data =>
      if negb (hasData data) then NoData
      else
        Dashboard
          {| overall := overallScore data;
             body_score := bodyScore data;
             mind_score := mindScore data;
             finance_score := financeScore data;
             discipline_score := disciplineScore data |}
          (insights data)
  end.

End DashboardView.

End App.

(** ** The correlation engine (lib/utils) *)

Module Utils.

Import Reals.
Local Open Scope R_scope.

Definition sum (l : list R) : R := fold_right Rplus 0 l.

Definition mean (l : list R) : R := sum l / INR (List.length l).

(** The products of the paired deviations from the two means, index by
    index. *)
Definition deviations (a b : list R) : list R :=
  map (fun p => (fst p - mean a) * (snd p - mean b)) (combine a b).

Definition covariance (a b : list R) : R :=
  sum (deviations a b) / INR (List.length a).

Definition variance (a : list R) : R := covariance a a.

Definition stdev (a : list R) : R := sqrt (variance a).

(** Modelled from the spec: [getCorrelation] of [src/lib/utils], which is
    not among the sources.  "Standard Pearson formula: covariance(A,B) /
    (stdev(A) * stdev(B)).  If either series has zero variance, result is
    undefined".  The series are real-valued and paired positionally. *)
Definition pearson (seriesA seriesB : list R) : option R :=
  if Req_dec_T (variance seriesA) 0 then None
  else if Req_dec_T (variance seriesB) 0 then None
  else Some (covariance seriesA seriesB / (stdev seriesA * stdev seriesB)).

End Utils.

(** ** The scoring formulas as the specification words them *)

Module Spec.

(** "Financial pressure = min(100, round(debts / max(income, 1) * 100))",
    in the arithmetic of the doubles. *)
Definition financial_pressure (debts income : Q) : Z :=
  Z.min 100
    (Math.round
       (Double.mul
          (Double.div debts (if Qle_bool 1 income then income else 1))
          100)).

(** "Discipline score = min(100, round(total_minutes / 2.4))", in the
    arithmetic of the doubles. *)
Definition discipline_score (total_minutes : Q) : Z :=
  Z.min 100 (Math.round (Double.div total_minutes (Double.nearest 2.4))).

End Spec.

(** ** Sample submissions and datasets *)

Module Examples.

Import Server.

(** The body form as it opens, and a later correction for the same day. *)
Definition body_first : BodyReq.t :=
  BodyReq.Make (Js.Str "2024-01-01") (Js.Num 7) (Js.Num 3) (Js.Bool false)
               (Js.Str "") (Js.Num 3) (Js.Num 3).

Definition body_second : BodyReq.t :=
  BodyReq.Make (Js.Str "2024-01-01") (Js.Num 8) (Js.Num 4) (Js.Bool true)
               (Js.Str "corrida") (Js.Num 5) (Js.Num 4).

Definition mind_first : MindReq.t :=
  MindReq.Make (Js.Str "2024-01-01") (Js.Num 3) (Js.Num 1) (Js.Num 1)
               (Js.Num 3) (Js.Str "").

Definition mind_second : MindReq.t :=
  MindReq.Make (Js.Str "2024-01-01") (Js.Num 4) (Js.Num 2) (Js.Num 2)
               (Js.Num 5) (Js.Str "melhor").

Definition finance_first : FinanceReq.t :=
  FinanceReq.Make (Js.Str "2024-01-01") (Js.Num 3000) (Js.Num 1200)
                  (Js.Num 500) (Js.Num 100).

Definition finance_second : FinanceReq.t :=
  FinanceReq.Make (Js.Str "2024-01-01") (Js.Num 3200) (Js.Num 1000)
                  (Js.Num 400) (Js.Num 100).

(** A finance log submitted without its income. *)
Definition finance_no_income : FinanceReq.t :=
  FinanceReq.Make (Js.Str "2024-01-03") Js.Undefined (Js.Num 1200)
                  (Js.Num 500) (Js.Num 100).

(** The body form after its "hours of sleep" input was cleared
    ([parseFloat("")] is NaN, which JSON carries as null), with a text in
    place of the sleep quality. *)
Definition body_not_numeric : BodyReq.t :=
  BodyReq.Make (Js.Str "2024-01-02") Js.Null (Js.Str "abc") (Js.Bool false)
               (Js.Str "") (Js.Num 3) (Js.Num 3).

(** The discipline form before any project exists: [project_id] is still
    its initial 0. *)
Definition discipline_no_project : DisciplineReq.t :=
  DisciplineReq.Make (Js.Str "2024-01-01") (Js.Num 0) (Js.Num 60) (Js.Num 3).

Import Types.

(** Six days of body and mind logs, most recent first: sleep and focus
    both rise from day to day; nothing else is logged. *)
Definition six_body : list BodyLog.t :=
  [ BodyLog.Make 6 "2024-01-06" 9 5 1 "corrida" 5 4;
    BodyLog.Make 5 "2024-01-05" 8.5 4 0 "" 4 3;
    BodyLog.Make 4 "2024-01-04" 8 4 1 "corrida" 4 3;
    BodyLog.Make 3 "2024-01-03" 7 3 0 "" 3 3;
    BodyLog.Make 2 "2024-01-02" 6 2 0 "" 2 2;
    BodyLog.Make 1 "2024-01-01" 5 2 0 "" 2 2 ].

Definition six_mind : list MindLog.t :=
  [ MindLog.Make 6 "2024-01-06" 4 1 1 5 "";
    MindLog.Make 5 "2024-01-05" 4 1 2 5 "";
    MindLog.Make 4 "2024-01-04" 3 2 2 4 "";
    MindLog.Make 3 "2024-01-03" 3 2 3 3 "";
    MindLog.Make 2 "2024-01-02" 2 3 3 2 "";
    MindLog.Make 1 "2024-01-01" 2 3 4 1 "" ].

Definition six_days : DashboardData :=
  {| body := six_body; mind := six_mind; finance := []; discipline := [] |}.

(** A finance log with an income between 0 and 1. *)
Definition small_income : DashboardData :=
  {| body := []; mind := [];
     finance := [ FinanceLog.Make 1 "2024-01-01" (Some 0.5) 0 0.25 0 ];
     discipline := [] |}.

(** Six days of finance and mind logs. *)
Definition six_finance : list FinanceLog.t :=
  [ FinanceLog.Make 6 "2024-01-06" (Some 3000) 1000 900 100;
    FinanceLog.Make 5 "2024-01-05" (Some 3000) 1000 800 100;
    FinanceLog.Make 4 "2024-01-04" (Some 3000) 1000 700 100;
    FinanceLog.Make 3 "2024-01-03" (Some 3000) 1000 600 100;
    FinanceLog.Make 2 "2024-01-02" (Some 3000) 1000 500 100;
    FinanceLog.Make 1 "2024-01-01" (Some 3000) 1000 400 100 ].

Definition debt_days : DashboardData :=
  {| body := []; mind := six_mind; finance := six_finance;
     discipline := [] |}.

End Examples.

(** ** Invariants of the store *)

Module Inv.

(** AUTOINCREMENT: the ids of a table are positive, pairwise distinct and
    bounded by the last id handed out. *)
Definition ids_ok {K F : Type} (t : Sql.table K F) : Prop :=
  (0 <= Sql.seq t)%Z
  /\ Forall (fun r => (0 < Sql.id r <= Sql.seq t)%Z) (Sql.rows t)
  /\ NoDup (map Sql.id (Sql.rows t)).

Definition all_ids_ok (db : Server.Db) : Prop :=
  ids_ok (Server.body_logs db) /\ ids_ok (Server.mind_logs db)
  /\ ids_ok (Server.finance_logs db) /\ ids_ok (Server.projects db)
  /\ ids_ok (Server.discipline_logs db).

(** What a row is known by: its id and its natural key. *)
Definition id_key {K F : Type} (r : Sql.row K F) : Z * K :=
  (Sql.id r, Sql.key r).

End Inv.

(** ** The App component: loading the dashboard and choosing the view *)

Module Main.

Import Types.

(** The component's state hooks. *)
Record State : Type := {
  activeTab : string;
  data : option DashboardData;
  loading : bool;
  error : option string }.

Definition initial : State :=
  {| activeTab := "dashboard"; data := None; loading := true;
     error := None |}.

Definition setActiveTab (tab : string) (st : State) : State :=
  {| activeTab := tab; data := data st; loading := loading st;
     error := error st |}.

(** How [fetch('/api/dashboard')] and [res.json()] can end: the request
    is rejected with an error (whose message may be missing), or a
    response arrives with its [ok] flag, status, content type and a body
    that parses to the payload or fails to parse. *)
Inductive Body : Type :=
| Parsed (json : DashboardData)
| Unparsable (message : option string).

Inductive Outcome : Type :=
| Rejected (message : option string)
| Response (ok : bool) (status : Z) (contentType : option string)
           (body : Body).

(** [s.includes(part)] *)
Definition includes (part s : string) : bool :=
  match String.index 0 part s with
  | Some _ => true
  | None => false
  end.

(** Truthiness of a string that may be null. *)
Definition present (s : option string) : bool :=
  match s with
  | Some t => negb (String.eqb t "")
  | None => false
  end.

(** [e.message || "Erro ao carregar dados"] *)
Definition message_of (message : option string) : string :=
  match message with
  | Some t => if String.eqb t "" then "Erro ao carregar dados" else t
  | None => "Erro ao carregar dados"
  end.

(** The [try] block of [fetchData]: the payload, or the message of the
    error that was thrown. *)
Definition attempt (o : Outcome) : DashboardData + option string :=
  match o with
  | Rejected message => inr message
  | Response ok status contentType body =>
      if negb ok
      then inr (Some (String.append "Erro do servidor: "
                                    (show (Some status))))
      else if negb (present contentType)
              || negb (match contentType with
                       | Some t => includes "application/json" t
                       | None => false
                       end)
      then inr (Some "O servidor não retornou JSON. Verifique se o backend está rodando corretamente."%string)
      else match body with
           | Parsed json => inl json
           | Unparsable message => inr message
           end
  end.

(** [fetchData], from its first line to the end of its [finally]. *)
Definition fetchData (o : Outcome) (st : State) : State :=
  let st1 :=
    {| activeTab := activeTab st; data := data st; loading := true;
       error := None |} in
  let st2 :=
    match attempt o with
    | inl json =>
        {| activeTab := activeTab st1; data := Some json;
           loading := loading st1; error := error st1 |}
    | inr message =>
        {| activeTab := activeTab st1; data := data st1;
           loading := loading st1; error := Some (message_of message) |}
    end in
  {| activeTab := activeTab st2; data := data st2; loading := false;
     error := error st2 |}.

(** What [renderContent] puts on the page. *)
Inductive Content : Type :=
| ErrorScreen (message : string)
| ShowDashboard (view : App.View)
| ShowBody
| ShowMind
| ShowFinance
| ShowDiscipline
| ShowInbox.

Section Render.

Variable calculateScore : Q -> Q.
Variable getCorrelation : list Q -> list Q -> option Q.

Definition renderContent (st : State) : Content :=
  if present (error st)
  then ErrorScreen (match error st with Some t => t | None => "" end)
  else if String.eqb (activeTab st) "dashboard"
  then ShowDashboard (App.DashboardView calculateScore getCorrelation
                        (data st))
  else if String.eqb (activeTab st) "body" then ShowBody
  else if String.eqb (activeTab st) "mind" then ShowMind
  else if String.eqb (activeTab st) "finance" then ShowFinance
  else if String.eqb (activeTab st) "discipline" then ShowDiscipline
  else if String.eqb (activeTab st) "inbox" then ShowInbox
  else ShowDashboard (App.DashboardView calculateScore getCorrelation
                        (data st)).

End Render.

End Main.

(** ** GET /api/dashboard: the per-date aggregate and the typed payload *)

Module Dashboard.

(** GROUP BY puts two values in one group as a UNIQUE index equates them,
    except that all NULLs form one group. *)
Definition same_group (a b : Sql.val) : bool :=
  match a, b with
  | Sql.Null, Sql.Null => true
  | _, _ => Sql.eqb a b
  end.

(** SUM and AVG skip NULL.  Their result is exact, and the same in every
    version of SQLite, as long as the values they count are integers whose
    magnitudes add up to at most 2^53: the sum is then that integer, and
    the average its quotient by the count, rounded to a double.  Outside
    this range SQLite adds in floating point, reads a text through its
    numeric prefix, or raises "integer overflow" (the route then answers
    500); none of this is modelled, and the result is [None]. *)

Definition integer (q : Q) : bool := Qeq_bool q (inject_Z (Qfloor q)).

(** NULL, or a number without a fractional part. *)
Definition countable (v : Sql.val) : bool :=
  match v with
  | Sql.Null => true
  | Sql.Num q => integer q
  | Sql.Text _ => false
  end.

(** The values that count, as a sum and a count. *)
Fixpoint tally (vs : list Sql.val) : option (Q * nat) :=
  match vs with
  | [] => Some (0, O)
  | v :: rest =>
      match v, tally rest with
      | Sql.Null, t => t
      | Sql.Num q, Some (s, n) =>
          if integer q then Some (q + s, S n) else None
      | _, _ => None
      end
  end.

(** The magnitudes of the numbers of a column, added up. *)
Fixpoint weight (vs : list Sql.val) : Q :=
  match vs with
  | [] => 0
  | Sql.Num q :: rest => Qabs q + weight rest
  | _ :: rest => weight rest
  end.

(** 2^53 *)
Definition safe : Q := 9007199254740992.

Definition counted (vs : list Sql.val) : option (Q * nat) :=
  if Qle_bool (weight vs) safe then tally vs else None.

(** SUM(c) and AVG(c): NULL when no value counts. *)
Definition SUM (vs : list Sql.val) : option Sql.val :=
  match counted vs with
  | Some (_, O) => Some Sql.Null
  | Some (s, S _) => Some (Sql.Num s)
  | None => None
  end.

Definition AVG (vs : list Sql.val) : option Sql.val :=
  match counted vs with
  | Some (_, O) => Some Sql.Null
  | Some (s, S n) =>
      Some (Sql.Num (Double.div s (inject_Z (Z.of_nat (S n)))))
  | None => None
  end.

(** One row of the aggregate. *)
Record Day : Type := {
  date : Sql.val;
  total_minutes : Sql.val;
  avg_focus : Sql.val }.

Definition log : Type :=
  Sql.row (Sql.val * Sql.val) Server.DisciplineCols.t.

(** The dates of a table, each once, in order of first appearance. *)
Fixpoint groups (dates : list Sql.val) : list Sql.val :=
  match dates with
  | [] => []
  | d :: rest =>
      d :: filter (fun x => negb (same_group x d)) (groups rest)
  end.

Definition members (d : Sql.val) (logs : list log) : list log :=
  filter (fun r => same_group (fst (Sql.key r)) d) logs.

Definition day (logs : list log) (d : Sql.val) : option Day :=
  match SUM (map (fun r => Server.DisciplineCols.minutes_invested
                             (Sql.cols r)) (members d logs)),
        AVG (map (fun r => Server.DisciplineCols.focus_level
                             (Sql.cols r)) (members d logs)) with
  | Some s, Some a =>
      Some {| date := d; total_minutes := s; avg_focus := a |}
  | _, _ => None
  end.

Fixpoint all {A B : Type} (f : A -> option B) (l : list A)
  : option (list B) :=
  match l with
  | [] => Some []
  | x :: rest =>
      match f x, all f rest with
      | Some y, Some ys => Some (y :: ys)
      | _, _ => None
      end
  end.

(** ORDER BY date DESC *)
Fixpoint insert_desc (d : Day) (l : list Day) : list Day :=
  match l with
  | [] => [d]
  | x :: rest =>
      if Sql.leb (date x) (date d) then d :: l else x :: insert_desc d rest
  end.

Definition order_by_date_desc (l : list Day) : list Day :=
  fold_right insert_desc [] l.

(** SELECT date, SUM(minutes_invested) as total_minutes,
    AVG(focus_level) as avg_focus FROM discipline_logs
    GROUP BY date ORDER BY date DESC LIMIT 30 *)
Definition discipline (db : Server.Db) : option (list Day) :=
  let logs := Sql.rows (Server.discipline_logs db) in
  option_map (fun days => firstn 30 (order_by_date_desc days))
             (all (day logs) (groups (map (fun r => fst (Sql.key r)) logs))).

(** The payload as [types.ts] describes it.  A row that holds NULL or text
    where the interface says [number], or anything but text where it says
    [string], has no such reading; the income of a finance log apart,
    which may be NULL. *)
Definition number (v : Sql.val) : option Q :=
  match v with Sql.Num q => Some q | _ => None end.

Definition text (v : Sql.val) : option string :=
  match v with Sql.Text s => Some s | _ => None end.

(** A number that may be missing: NULL reaches the client as [null]. *)
Definition nullable (v : Sql.val) : option (option Q) :=
  match v with
  | Sql.Null => Some None
  | Sql.Num q => Some (Some q)
  | Sql.Text _ => None
  end.

Definition BodyLog (r : Sql.row Sql.val Server.BodyCols.t)
  : option Types.BodyLog.t :=
  match text (Sql.key r),
        number (Server.BodyCols.sleep_hours (Sql.cols r)),
        number (Server.BodyCols.sleep_quality (Sql.cols r)),
        number (Server.BodyCols.training_done (Sql.cols r)),
        text (Server.BodyCols.training_type (Sql.cols r)),
        number (Server.BodyCols.energy_level (Sql.cols r)),
        number (Server.BodyCols.activity_level (Sql.cols r)) with
  | Some d, Some sh, Some sq, Some td, Some ty, Some el, Some al =>
      Some (Types.BodyLog.Make (inject_Z (Sql.id r)) d sh sq td ty el al)
  | _, _, _, _, _, _, _ => None
  end.

Definition MindLog (r : Sql.row Sql.val Server.MindCols.t)
  : option Types.MindLog.t :=
  match text (Sql.key r),
        number (Server.MindCols.mood (Sql.cols r)),
        number (Server.MindCols.anxiety (Sql.cols r)),
        number (Server.MindCols.stress (Sql.cols r)),
        number (Server.MindCols.focus (Sql.cols r)),
        text (Server.MindCols.journal (Sql.cols r)) with
  | Some d, Some mo, Some an, Some st, Some fo, Some jo =>
      Some (Types.MindLog.Make (inject_Z (Sql.id r)) d mo an st fo jo)
  | _, _, _, _, _, _ => None
  end.

Definition FinanceLog (r : Sql.row Sql.val Server.FinanceCols.t)
  : option Types.FinanceLog.t :=
  match text (Sql.key r),
        nullable (Server.FinanceCols.income (Sql.cols r)),
        number (Server.FinanceCols.expenses (Sql.cols r)),
        number (Server.FinanceCols.debts (Sql.cols r)),
        number (Server.FinanceCols.installments (Sql.cols r)) with
  | Some d, Some inc, Some ex, Some de, Some ins =>
      Some (Types.FinanceLog.Make (inject_Z (Sql.id r)) d inc ex de ins)
  | _, _, _, _, _ => None
  end.

Definition DisciplineDay (d : Day) : option Types.DisciplineDay.t :=
  match text (date d), number (total_minutes d), number (avg_focus d) with
  | Some dt, Some tm, Some af => Some (Types.DisciplineDay.Make dt tm af)
  | _, _, _ => None
  end.

(** [res.json({ body, mind, finance, discipline })], read by the client as
    [DashboardData]. *)
Definition payload (db : Server.Db) : option Types.DashboardData :=
  match all BodyLog (Server.get_body db),
        all MindLog (Server.get_mind db),
        all FinanceLog (Server.get_finance db),
        discipline db with
  | Some b, Some m, Some f, Some days =>
      match all DisciplineDay days with
      | Some d =>
          Some {| Types.body := b; Types.mind := m; Types.finance := f;
                  Types.discipline := d |}
      | None => None
      end
  | _, _, _, _ => None
  end.

End Dashboard.

(** ** The mental inbox *)

Module Inbox.

Module Cols.
Record t : Type := Make {
  content : Sql.val;
  type : Sql.val;
  created_at : Sql.val }.
End Cols.

Module Req.
Record t : Type := Make {
  content : Js.value;
  type : Js.value }.
End Req.

(** The [mental_inbox] table: no natural key, and no route touches
    another table. *)
Definition table : Type := Sql.table unit Cols.t.

Section Routes.

Context {sqlite : Sql.Engine}.

(** The three columns are declared TEXT. *)
Definition params (now : string) (req : Req.t) : option Cols.t :=
  match Sql.bind_all [ Req.content req; Req.type req; Js.Str now ] with
  | Some [co; ty; ca] =>
      Some (Cols.Make (Sql.store Sql.TEXT co) (Sql.store Sql.TEXT ty)
                      (Sql.store Sql.TEXT ca))
  | _ => None
  end.

(** POST /api/inbox; [now] is [new Date().toISOString()]. *)
Definition post (now : string) (req : Req.t) (t : table)
  : Server.Response * table :=
  match params now req with
  | Some c => (Server.Success, Sql.upsert (fun _ _ => false) tt c t)
  | None => (Server.ServerError, t)
  end.

(** GET /api/inbox: SELECT * FROM mental_inbox ORDER BY created_at DESC *)
Definition get (t : table) : list (Sql.row unit Cols.t) :=
  Sql.order_by_desc (fun r => Cols.created_at (Sql.cols r)) (Sql.rows t).

(** DELETE /api/inbox/:id.  [req.params.id] is a string: in
    [WHERE id = ?] it is compared with the integer column as such a
    column would keep it.  The counter behind AUTOINCREMENT stays. *)
Definition delete (id : string) (t : table) : Server.Response * table :=
  (Server.Success,
   {| Sql.rows :=
        filter (fun r => negb (Sql.eqb (Sql.Num (inject_Z (Sql.id r)))
                                       (Sql.store Sql.INTEGER
                                                  (Sql.Text id))))
               (Sql.rows t);
      Sql.seq := Sql.seq t |}).

Inductive Request : Type :=
| Post (now : string) (req : Req.t)
| Delete (id : string).

Definition handle (rq : Request) (t : table) : Server.Response * table :=
  match rq with
  | Post now req => post now req t
  | Delete id => delete id t
  end.

Definition serve (history : list Request) (t : table) : table :=
  fold_left (fun x rq => snd (handle rq x)) history t.

End Routes.

End Inbox.

(** ** More sample data *)

Module Samples.

Import Server.

(** A body form sent without its date. *)
Definition body_dateless : BodyReq.t :=
  BodyReq.Make Js.Undefined (Js.Num 7) (Js.Num 3) (Js.Bool false)
               (Js.Str "") (Js.Num 3) (Js.Num 3).

(** One project, and an hour spent on it. *)
Definition project_book : ProjectReq.t :=
  ProjectReq.Make (Js.Str "Livro") (Js.Num 10).

Definition discipline_book : DisciplineReq.t :=
  DisciplineReq.Make (Js.Str "2024-01-01") (Js.Num 1) (Js.Num 60)
                     (Js.Num 3).

(** Half an hour on the same project, its id sent as a text. *)
Definition discipline_book_text : DisciplineReq.t :=
  DisciplineReq.Make (Js.Str "2024-01-01") (Js.Str "1") (Js.Num 30)
                     (Js.Num 4).

Definition book_history : list Request :=
  [ PostProjects "2024-01-01T08:00:00.000Z" project_book;
    PostDiscipline discipline_book ].

(** Two projects worked on during one day. *)
Definition two_projects : list Request :=
  [ PostDiscipline
      (DisciplineReq.Make (Js.Str "2024-01-01") (Js.Num 1) (Js.Num 60)
                          (Js.Num 3));
    PostDiscipline
      (DisciplineReq.Make (Js.Str "2024-01-01") (Js.Num 2) (Js.Num 45)
                          (Js.Num 5)) ].

(** The first project logged again, for the same day. *)
Definition relog : DisciplineReq.t :=
  DisciplineReq.Make (Js.Str "2024-01-01") (Js.Num 1) (Js.Num 90)
                     (Js.Num 2).

(** The two conversions of SQLite, for the examples.  [numeric] reads a
    numeric literal: digits with an optional sign, fraction and exponent,
    spaces allowed around it; one written as an integer that fits 64 bits
    is that integer, any other is the nearest double.  [text_of] writes a
    number with 15 significant digits, in the style of [%.15g] with at
    least one decimal. *)
Definition space (c : ascii) : bool :=
  match N_of_ascii c with
  | 9%N | 10%N | 11%N | 12%N | 13%N | 32%N => true
  | _ => false
  end.

Definition digit (c : ascii) : option Z :=
  let n := Z.of_N (N_of_ascii c) in
  if (48 <=? n)%Z && (n <=? 57)%Z then Some (n - 48)%Z else None.

Fixpoint trim (l : list ascii) : list ascii :=
  match l with
  | c :: rest => if space c then trim rest else l
  | [] => []
  end.

(** The digits at the head of [l]: their value on top of [acc], how many
    they are, and what follows them. *)
Fixpoint digits (l : list ascii) (acc : Z) (n : nat)
  : Z * nat * list ascii :=
  match l with
  | c :: rest =>
      match digit c with
      | Some d => digits rest (10 * acc + d)%Z (S n)
      | None => (acc, n, l)
      end
  | [] => (acc, n, [])
  end.

Definition sign (l : list ascii) : bool * list ascii :=
  match l with
  | c :: rest =>
      if Ascii.eqb c "-" then (true, rest)
      else if Ascii.eqb c "+" then (false, rest)
      else (false, l)
  | [] => (false, [])
  end.

(** What may follow the mantissa: nothing, or an exponent to the end. *)
Definition exponent (l : list ascii) : option Z :=
  match l with
  | [] => Some 0%Z
  | c :: rest =>
      if Ascii.eqb c "e" || Ascii.eqb c "E" then
        let (neg, r) := sign rest in
        match digits r 0 0 with
        | (v, S _, []) => Some (if neg then (- v)%Z else v)
        | _ => None
        end
      else None
  end.

(** A numeric literal: whether it is written as an integer, and its
    value. *)
Definition literal (l : list ascii) : option (bool * Q) :=
  let (neg, l1) := sign l in
  let '(i, ni, l2) := digits l1 0 0 in
  let '(f, nf, l3) :=
    match l2 with
    | c :: r => if Ascii.eqb c "." then digits r i 0 else (i, O, l2)
    | [] => (i, O, l2)
    end in
  match (ni + nf)%nat, exponent l3 with
  | S _, Some e =>
      let v := inject_Z f * 10 ^ (e - Z.of_nat nf) in
      Some (match l2 with [] => true | _ => false end,
            if neg then - v else v)
  | _, _ => None
  end.

Definition numeric (s : string) : option Q :=
  match literal (rev (trim (rev (trim (list_ascii_of_string s))))) with
  | Some (whole, v) =>
      Some (if whole && Qle_bool (Qabs v) 9223372036854775807 then v
            else Double.nearest v)
  | None => None
  end.

(** [floor (log10 x)] for a positive [x]. *)
Definition log10 (x : Q) : Z :=
  let len z := Z.of_nat (String.length (show (Some z))) in
  let k := (len (Qnum x) - len (Zpos (Qden x)))%Z in
  if Qle_bool (10 ^ k) x then k else (k - 1)%Z.

(** The 15 significant digits of a positive number, and its exponent. *)
Definition significant (a : Q) : Z * Z :=
  let e := log10 a in
  let n := Double.round_even (a / 10 ^ (e - 14)) in
  if (n =? 10 ^ 15)%Z then (10 ^ 14, e + 1)%Z else (n, e).

Fixpoint drop_zeros (l : list ascii) : list ascii :=
  match l with
  | c :: rest => if Ascii.eqb c "0" then drop_zeros rest else l
  | [] => []
  end.

Definition or_zero (l : list ascii) : list ascii :=
  match l with [] => ["0"%char] | _ => l end.

Definition text_of (q : Q) : string :=
  if Qeq_bool q 0 then "0.0"%string
  else
    let (n, e) := significant (Qabs q) in
    let ds :=
      rev (drop_zeros (rev (list_ascii_of_string (show (Some n))))) in
    let body :=
      if (e <? -4)%Z || (15 <=? e)%Z then
        firstn 1 ds ++ ["."%char] ++ or_zero (skipn 1 ds) ++ ["e"%char]
        ++ [if (e <? 0)%Z then "-"%char else "+"%char]
        ++ (if (Z.abs e <? 10)%Z then ["0"%char] else [])
        ++ list_ascii_of_string (show (Some (Z.abs e)))
      else if (0 <=? e)%Z then
        firstn (Z.to_nat (e + 1)) (ds ++ repeat "0"%char 15)
        ++ ["."%char] ++ or_zero (skipn (Z.to_nat (e + 1)) ds)
      else
        ["0"%char; "."%char] ++ repeat "0"%char (Z.to_nat (- e - 1))
        ++ ds in
    string_of_list_ascii
      ((if Qle_bool 0 q then [] else ["-"%char]) ++ body).

#[global] Instance sqlite : Sql.Engine :=
  {| Sql.numeric := numeric; Sql.text_of := text_of |}.

Definition two_thoughts : list Inbox.Request :=
  [ Inbox.Post "2024-01-01T08:00:00.000Z"
      (Inbox.Req.Make (Js.Str "comprar pão") (Js.Str "task"));
    Inbox.Post "2024-01-01T09:00:00.000Z"
      (Inbox.Req.Make (Js.Str "e se chover") (Js.Str "worry")) ].

End Samples.

(** * Properties *)

(** ** Upsert on a table with a UNIQUE key *)

Section TableFacts.

Variables K F : Type.
Variable conflict : K -> K -> bool.

(** Collision is a partial equivalence: symmetric and transitive, but a
    NULL key collides with nothing. *)
Hypothesis conflict_sym : forall a b, conflict a b = conflict b a.
Hypothesis conflict_trans :
  forall a b c, conflict a b = true -> conflict b c = true ->
                conflict a c = true.

Local Abbreviation row := (Sql.row K F).

Lemma filter_nil_of_unique (k : K) (r : row) (rest : list row) :
  forallb (fun r' => negb (conflict (Sql.key r) (Sql.key r'))) rest = true ->
  conflict (Sql.key r) k = true ->
  filter (fun r' => conflict (Sql.key r') k) rest = [].
Proof.
  intros Hall Hrk.
  induction rest as [|x rest IH]; simpl in *; [reflexivity|].
  apply andb_true_iff in Hall as [Hx Hrest].
  destruct (conflict (Sql.key x) k) eqn:Hxk.
  - assert (conflict (Sql.key r) (Sql.key x) = true) as Hrx.
    { apply conflict_trans with k; [exact Hrk|].
      rewrite conflict_sym; exact Hxk. }
    rewrite Hrx in Hx; discriminate.
  - apply IH; exact Hrest.
Qed.

(** After an upsert under key [k] exactly one row answers to [k], and it
    carries the new columns. *)
Lemma select_upsert_rows (k : K) (f : F) (fresh : Z) (rs : list row) :
  Sql.unique_keys conflict rs = true ->
  conflict k k = true ->
  exists r,
    filter (fun r' => conflict (Sql.key r') k)
           (Sql.upsert_rows conflict k f fresh rs) = [r]
    /\ Sql.cols r = f /\ conflict (Sql.key r) k = true.
Proof.
  intros Huniq Hkk.
  induction rs as [|x rest IH]; simpl in *.
  - rewrite Hkk. exists (Sql.Row fresh k f). auto.
  - apply andb_true_iff in Huniq as [Hx Hrest].
    destruct (conflict (Sql.key x) k) eqn:Hxk; simpl.
    + rewrite Hxk, (filter_nil_of_unique k x rest Hx Hxk).
      exists (Sql.Row (Sql.id x) (Sql.key x) f). auto.
    + rewrite Hxk. apply IH; exact Hrest.
Qed.

(** When one row already answers to [k], the upsert rewrites its columns
    in place: same id, same key, same number of rows. *)
Lemma select_upsert_rows_hit (k : K) (f : F) (fresh : Z) (rs : list row)
      (r0 : row) :
  filter (fun r' => conflict (Sql.key r') k) rs = [r0] ->
  filter (fun r' => conflict (Sql.key r') k)
         (Sql.upsert_rows conflict k f fresh rs)
  = [Sql.Row (Sql.id r0) (Sql.key r0) f]
  /\ List.length (Sql.upsert_rows conflict k f fresh rs) = List.length rs.
Proof.
  revert r0.
  induction rs as [|x rest IH]; simpl; intros r0 Hsel; [discriminate|].
  destruct (conflict (Sql.key x) k) eqn:Hxk; simpl.
  - rewrite Hxk. injection Hsel as Hx Hrest. subst x.
    rewrite Hrest. split; reflexivity.
  - rewrite Hxk. destruct (IH r0 Hsel) as [Hf Hl].
    rewrite Hf, Hl. split; reflexivity.
Qed.

Lemma forallb_upsert_rows (P : K -> bool) (k : K) (f : F) (fresh : Z)
      (rs : list row) :
  forallb (fun r => P (Sql.key r)) rs = true -> P k = true ->
  forallb (fun r => P (Sql.key r)) (Sql.upsert_rows conflict k f fresh rs)
  = true.
Proof.
  intros Hall Hk.
  induction rs as [|x rest IH]; simpl in *.
  - rewrite Hk; reflexivity.
  - apply andb_true_iff in Hall as [Hx Hrest].
    destruct (conflict (Sql.key x) k); simpl.
    + rewrite Hx, Hrest; reflexivity.
    + rewrite Hx, IH by exact Hrest; reflexivity.
Qed.

(** The UNIQUE constraint survives every upsert. *)
Lemma unique_keys_upsert_rows (k : K) (f : F) (fresh : Z) (rs : list row) :
  Sql.unique_keys conflict rs = true ->
  Sql.unique_keys conflict (Sql.upsert_rows conflict k f fresh rs) = true.
Proof.
  induction rs as [|x rest IH]; simpl; intros Huniq; [reflexivity|].
  apply andb_true_iff in Huniq as [Hx Hrest].
  destruct (conflict (Sql.key x) k) eqn:Hxk; simpl.
  - rewrite Hx, Hrest; reflexivity.
  - rewrite IH by exact Hrest. rewrite andb_true_r.
    apply (forallb_upsert_rows
             (fun k' => negb (conflict (Sql.key x) k'))); [exact Hx|].
    rewrite Hxk; reflexivity.
Qed.

(** An upsert never drops a row, and the row it writes is in the table. *)
Lemma upsert_rows_written (k : K) (f : F) (fresh : Z) (rs : list row) :
  exists r, In r (Sql.upsert_rows conflict k f fresh rs) /\ Sql.cols r = f
            /\ (Sql.key r = k \/ conflict (Sql.key r) k = true).
Proof.
  induction rs as [|x rest IH]; simpl.
  - exists (Sql.Row fresh k f). auto.
  - destruct (conflict (Sql.key x) k) eqn:Hxk.
    + exists (Sql.Row (Sql.id x) (Sql.key x) f). simpl. auto.
    + destruct IH as [r [Hin Hr]]. exists r; split; [right; exact Hin|exact Hr].
Qed.

(** Every row after an upsert is an old row or carries the new columns. *)
Lemma upsert_rows_inv (k : K) (f : F) (fresh : Z) (rs : list row) (r : row) :
  In r (Sql.upsert_rows conflict k f fresh rs) ->
  In r rs \/ Sql.cols r = f.
Proof.
  induction rs as [|x rest IH]; simpl.
  - intros [<-|[]]; right; reflexivity.
  - destruct (conflict (Sql.key x) k).
    + intros [<-|Hin]; [right; reflexivity|left; right; exact Hin].
    + intros [<-|Hin]; [left; left; reflexivity|].
      destruct (IH Hin) as [H|H]; [left; right; exact H|right; exact H].
Qed.

End TableFacts.

(** ** Collision on SQL values *)

Lemma eqb_sym (a b : Sql.val) : Sql.eqb a b = Sql.eqb b a.
Proof.
  destruct a, b; simpl; try reflexivity.
  - apply Qeq_bool_comm.
  - apply String.eqb_sym.
Qed.

Lemma eqb_trans (a b c : Sql.val) :
  Sql.eqb a b = true -> Sql.eqb b c = true -> Sql.eqb a c = true.
Proof.
  destruct a, b, c; simpl; try discriminate.
  - apply Qeq_bool_trans.
  - rewrite !String.eqb_eq. congruence.
Qed.

Lemma eqb2_sym (a b : Sql.val * Sql.val) : Sql.eqb2 a b = Sql.eqb2 b a.
Proof.
  unfold Sql.eqb2. rewrite (eqb_sym (fst a)), (eqb_sym (snd a)). reflexivity.
Qed.

Lemma eqb2_trans (a b c : Sql.val * Sql.val) :
  Sql.eqb2 a b = true -> Sql.eqb2 b c = true -> Sql.eqb2 a c = true.
Proof.
  unfold Sql.eqb2. rewrite !andb_true_iff.
  intros [H1 H2] [H3 H4]. split; eapply eqb_trans; eassumption.
Qed.

Lemma eqb_text (v : Sql.val) (d : string) :
  Sql.eqb v (Sql.Text d) = true -> v = Sql.Text d.
Proof.
  destruct v; simpl; try discriminate.
  rewrite String.eqb_eq. congruence.
Qed.

(** Two upserts under one date: a single row, rewritten in place. *)
Lemma upsert_twice (F : Type) (t : Sql.table Sql.val F) (d : string)
      (c1 c2 : F) :
  Sql.unique_keys Sql.eqb (Sql.rows t) = true ->
  exists i,
    Sql.select Sql.eqb (Sql.Text d) (Sql.upsert Sql.eqb (Sql.Text d) c1 t)
    = [Sql.Row i (Sql.Text d) c1]
    /\ Sql.select Sql.eqb (Sql.Text d)
         (Sql.upsert Sql.eqb (Sql.Text d) c2
            (Sql.upsert Sql.eqb (Sql.Text d) c1 t))
       = [Sql.Row i (Sql.Text d) c2]
    /\ List.length
         (Sql.rows (Sql.upsert Sql.eqb (Sql.Text d) c2
                      (Sql.upsert Sql.eqb (Sql.Text d) c1 t)))
       = List.length (Sql.rows (Sql.upsert Sql.eqb (Sql.Text d) c1 t)).
Proof.
  intros Huniq.
  assert (Sql.eqb (Sql.Text d) (Sql.Text d) = true) as Hdd
      by (simpl; apply String.eqb_refl).
  destruct (select_upsert_rows _ _ Sql.eqb eqb_sym eqb_trans
              (Sql.Text d) c1 (Sql.seq t + 1) (Sql.rows t) Huniq Hdd)
    as [r [Hsel [Hcols Hkey]]].
  apply eqb_text in Hkey.
  assert (r = Sql.Row (Sql.id r) (Sql.Text d) c1) as Hr
      by (destruct r; simpl in *; congruence).
  exists (Sql.id r). unfold Sql.select. simpl Sql.rows.
  rewrite Hsel.
  destruct (select_upsert_rows_hit _ _ Sql.eqb (Sql.Text d) c2
              (Sql.seq (Sql.upsert Sql.eqb (Sql.Text d) c1 t) + 1)
              _ r Hsel) as [Hsel2 Hlen].
  rewrite Hkey in Hsel2.
  split; [congruence|]. split; assumption.
Qed.

(** ** The store reached by any history of requests *)

Section ServerFacts.

Import Server.

Context {sqlite : Sql.Engine}.

Lemma unique_upsert_eqb (F : Type) (k : Sql.val) (c : F)
      (t : Sql.table Sql.val F) :
  Sql.unique_keys Sql.eqb (Sql.rows t) = true ->
  Sql.unique_keys Sql.eqb (Sql.rows (Sql.upsert Sql.eqb k c t)) = true.
Proof. apply unique_keys_upsert_rows. Qed.

Lemma unique_upsert_eqb2 (F : Type) (k : Sql.val * Sql.val) (c : F)
      (t : Sql.table (Sql.val * Sql.val) F) :
  Sql.unique_keys Sql.eqb2 (Sql.rows t) = true ->
  Sql.unique_keys Sql.eqb2 (Sql.rows (Sql.upsert Sql.eqb2 k c t)) = true.
Proof. apply unique_keys_upsert_rows. Qed.

Lemma well_keyed_handle (rq : Request) (db : Db) :
  well_keyed db = true -> well_keyed (snd (handle rq db)) = true.
Proof.
  unfold well_keyed. rewrite !andb_true_iff.
  intros [[[Hb Hm] Hf] Hd].
  destruct rq as [r|r|r|now r|r]; simpl.
  - unfold post_body. destruct (body_params r) as [[d c]|]; simpl;
      repeat split; try assumption.
    apply unique_upsert_eqb, Hb.
  - unfold post_mind. destruct (mind_params r) as [[d c]|]; simpl;
      repeat split; try assumption.
    apply unique_upsert_eqb, Hm.
  - unfold post_finance. destruct (finance_params r) as [[d c]|]; simpl;
      repeat split; try assumption.
    apply unique_upsert_eqb, Hf.
  - unfold post_projects. destruct (project_params now r) as [c|]; simpl;
      repeat split; assumption.
  - unfold post_discipline. destruct (discipline_params r) as [[k c]|]; simpl;
      repeat split; try assumption.
    apply unique_upsert_eqb2, Hd.
Qed.

Lemma well_keyed_serve (history : list Request) (db : Db) :
  well_keyed db = true -> well_keyed (serve history db) = true.
Proof.
  revert db. unfold serve.
  induction history as [|rq rest IH]; simpl; intros db Hdb; [exact Hdb|].
  apply IH, well_keyed_handle, Hdb.
Qed.

Lemma well_keyed_reachable (history : list Request) :
  well_keyed (serve history empty_db) = true.
Proof. apply well_keyed_serve. reflexivity. Qed.

(** A handler that fails has written nothing. *)
Lemma handle_error_unchanged (rq : Request) (db : Db) :
  fst (handle rq db) = ServerError -> snd (handle rq db) = db.
Proof.
  destruct rq as [r|r|r|now r|r]; simpl.
  - unfold post_body. destruct (body_params r) as [[d c]|]; simpl;
      [discriminate|reflexivity].
  - unfold post_mind. destruct (mind_params r) as [[d c]|]; simpl;
      [discriminate|reflexivity].
  - unfold post_finance. destruct (finance_params r) as [[d c]|]; simpl;
      [discriminate|reflexivity].
  - unfold post_projects. destruct (project_params now r) as [c|]; simpl;
      [discriminate|reflexivity].
  - unfold post_discipline. destruct (discipline_params r) as [[k c]|]; simpl;
      [discriminate|reflexivity].
Qed.

End ServerFacts.

(** ** Claims about the store *)

Section StoreClaims.

Context {sqlite : Sql.Engine}.

(** C2.  On the store reached by any history of requests, two body-log
    submissions for the same date [d] leave exactly one row under [d]: the
    first creates or rewrites it, the second rewrites that same row (same
    id, same date, same number of rows) and every other column holds what
    the second submission bound.  The same holds for mind and finance
    logs.  A write is all or nothing: a handler that fails leaves the
    store as it was. *)
Theorem upsert_same_date_last_write_wins :
  forall (history : list Server.Request) (d : string),
    let db0 := Server.serve history Server.empty_db in
    (forall r1 r2 c1 c2,
        Server.body_params r1 = Some (Sql.Text d, c1) ->
        Server.body_params r2 = Some (Sql.Text d, c2) ->
        let db1 := snd (Server.post_body r1 db0) in
        let db2 := snd (Server.post_body r2 db1) in
        exists i,
          Sql.select Sql.eqb (Sql.Text d) (Server.body_logs db1)
          = [Sql.Row i (Sql.Text d) c1]
          /\ Sql.select Sql.eqb (Sql.Text d) (Server.body_logs db2)
             = [Sql.Row i (Sql.Text d) c2]
          /\ List.length (Sql.rows (Server.body_logs db2))
             = List.length (Sql.rows (Server.body_logs db1)))
    /\ (forall r1 r2 c1 c2,
        Server.mind_params r1 = Some (Sql.Text d, c1) ->
        Server.mind_params r2 = Some (Sql.Text d, c2) ->
        let db1 := snd (Server.post_mind r1 db0) in
        let db2 := snd (Server.post_mind r2 db1) in
        exists i,
          Sql.select Sql.eqb (Sql.Text d) (Server.mind_logs db1)
          = [Sql.Row i (Sql.Text d) c1]
          /\ Sql.select Sql.eqb (Sql.Text d) (Server.mind_logs db2)
             = [Sql.Row i (Sql.Text d) c2]
          /\ List.length (Sql.rows (Server.mind_logs db2))
             = List.length (Sql.rows (Server.mind_logs db1)))
    /\ (forall r1 r2 c1 c2,
        Server.finance_params r1 = Some (Sql.Text d, c1) ->
        Server.finance_params r2 = Some (Sql.Text d, c2) ->
        let db1 := snd (Server.post_finance r1 db0) in
        let db2 := snd (Server.post_finance r2 db1) in
        exists i,
          Sql.select Sql.eqb (Sql.Text d) (Server.finance_logs db1)
          = [Sql.Row i (Sql.Text d) c1]
          /\ Sql.select Sql.eqb (Sql.Text d) (Server.finance_logs db2)
             = [Sql.Row i (Sql.Text d) c2]
          /\ List.length (Sql.rows (Server.finance_logs db2))
             = List.length (Sql.rows (Server.finance_logs db1)))
    /\ (forall rq db,
        fst (Server.handle rq db) = Server.ServerError ->
        snd (Server.handle rq db) = db).
Proof.
  intros history d db0.
  pose proof (well_keyed_reachable history) as Hwk.
  fold db0 in Hwk. unfold Server.well_keyed in Hwk.
  rewrite !andb_true_iff in Hwk. destruct Hwk as [[[Hb Hm] Hf] _].
  repeat split.
  - intros r1 r2 c1 c2 H1 H2. unfold Server.post_body.
    rewrite H1; simpl. rewrite H2; simpl. apply upsert_twice, Hb.
  - intros r1 r2 c1 c2 H1 H2. unfold Server.post_mind.
    rewrite H1; simpl. rewrite H2; simpl. apply upsert_twice, Hm.
  - intros r1 r2 c1 c2 H1 H2. unfold Server.post_finance.
    rewrite H1; simpl. rewrite H2; simpl. apply upsert_twice, Hf.
  - apply handle_error_unchanged.
Qed.

End StoreClaims.

Lemma upsert_same_date_witness :
  (exists i,
      Sql.select Sql.eqb (Sql.Text "2024-01-01")
        (Server.body_logs
           (snd (Server.post_body Examples.body_second
                   (snd (Server.post_body Examples.body_first
                           Server.empty_db)))))
      = [Sql.Row i (Sql.Text "2024-01-01")
           (Server.BodyCols.Make (Sql.Num 8) (Sql.Num 4) (Sql.Num 1)
              (Sql.Text "corrida") (Sql.Num 5) (Sql.Num 4))])
  /\ (exists i,
      Sql.select Sql.eqb (Sql.Text "2024-01-01")
        (Server.mind_logs
           (snd (Server.post_mind Examples.mind_second
                   (snd (Server.post_mind Examples.mind_first
                           Server.empty_db)))))
      = [Sql.Row i (Sql.Text "2024-01-01")
           (Server.MindCols.Make (Sql.Num 4) (Sql.Num 2) (Sql.Num 2)
              (Sql.Num 5) (Sql.Text "melhor"))])
  /\ (exists i,
      Sql.select Sql.eqb (Sql.Text "2024-01-01")
        (Server.finance_logs
           (snd (Server.post_finance Examples.finance_second
                   (snd (Server.post_finance Examples.finance_first
                           Server.empty_db)))))
      = [Sql.Row i (Sql.Text "2024-01-01")
           (Server.FinanceCols.Make (Sql.Num 3200) (Sql.Num 1000)
              (Sql.Num 400) (Sql.Num 100))]).
Proof.
  destruct (upsert_same_date_last_write_wins [] "2024-01-01")
    as [Hb [Hm [Hf _]]].
  split; [|split].
  - destruct (Hb Examples.body_first Examples.body_second _ _
                 eq_refl eq_refl) as [i [_ [H _]]].
    exists i. exact H.
  - destruct (Hm Examples.mind_first Examples.mind_second _ _
                 eq_refl eq_refl) as [i [_ [H _]]].
    exists i. exact H.
  - destruct (Hf Examples.finance_first Examples.finance_second _ _
                 eq_refl eq_refl) as [i [_ [H _]]].
    exists i. exact H.
Defined.

(** ** Reading back: ORDER BY ... DESC LIMIT n returns stored rows only *)

Section QueryFacts.

Variables K F : Type.
Variable col : Sql.row K F -> Sql.val.

Lemma in_insert_desc (r x : Sql.row K F) (l : list (Sql.row K F)) :
  In x (Sql.insert_desc col r l) -> x = r \/ In x l.
Proof.
  induction l as [|y rest IH]; simpl.
  - intros [<-|[]]; left; reflexivity.
  - destruct (Sql.leb (col y) (col r)); simpl.
    + intros [<-|H]; [left; reflexivity|right; exact H].
    + intros [<-|H]; [right; left; reflexivity|].
      destruct (IH H) as [->|H']; [left; reflexivity|right; right; exact H'].
Qed.

Lemma in_order_by_desc (x : Sql.row K F) (l : list (Sql.row K F)) :
  In x (Sql.order_by_desc col l) -> In x l.
Proof.
  induction l as [|y rest IH]; simpl; [tauto|].
  intros H. apply in_insert_desc in H as [->|H]; [left; reflexivity|].
  right; apply IH, H.
Qed.

Lemma in_firstn (A : Type) (n : nat) (x : A) (l : list A) :
  In x (firstn n l) -> In x l.
Proof.
  revert l. induction n as [|n IH]; intros [|y rest]; simpl; try tauto.
  intros [<-|H]; [left; reflexivity|right; apply IH, H].
Qed.

Lemma in_order_by_desc_limit (n : nat) (x : Sql.row K F)
      (l : list (Sql.row K F)) :
  In x (Sql.order_by_desc_limit col n l) -> In x l.
Proof.
  unfold Sql.order_by_desc_limit. intros H.
  apply in_order_by_desc, (in_firstn _ n), H.
Qed.

End QueryFacts.

(** ** The training flag *)

Section TrainingFlag.

Context {sqlite : Sql.Engine}.

Lemma body_params_flag (r : Server.BodyReq.t) (d : Sql.val)
      (c : Server.BodyCols.t) :
  Server.body_params r = Some (d, c) ->
  Server.BodyCols.training_done c
  = Sql.Num (if Js.truthy (Server.BodyReq.training_done r) then 1 else 0).
Proof.
  unfold Server.body_params. simpl.
  destruct (Sql.bind (Server.BodyReq.date r)); [|discriminate].
  destruct (Sql.bind (Server.BodyReq.sleep_hours r)); [|discriminate].
  destruct (Sql.bind (Server.BodyReq.sleep_quality r)); [|discriminate].
  destruct (Sql.bind (Server.BodyReq.training_type r)); [|discriminate].
  destruct (Sql.bind (Server.BodyReq.energy_level r)); [|discriminate].
  destruct (Sql.bind (Server.BodyReq.activity_level r)); [|discriminate].
  intros H; injection H as _ <-. reflexivity.
Qed.

Lemma flag_cases (v : Js.value) :
  Sql.Num (if Js.truthy v then 1 else 0) = Sql.Num 1
  \/ Sql.Num (if Js.truthy v then 1 else 0) = Sql.Num 0.
Proof. destruct (Js.truthy v); [left|right]; reflexivity. Qed.

Lemma training_flag_handle (rq : Server.Request) (db : Server.Db) :
  (forall row, In row (Sql.rows (Server.body_logs db)) ->
     Server.BodyCols.training_done (Sql.cols row) = Sql.Num 1
     \/ Server.BodyCols.training_done (Sql.cols row) = Sql.Num 0) ->
  forall row,
    In row (Sql.rows (Server.body_logs (snd (Server.handle rq db)))) ->
    Server.BodyCols.training_done (Sql.cols row) = Sql.Num 1
    \/ Server.BodyCols.training_done (Sql.cols row) = Sql.Num 0.
Proof.
  intros Hdb row.
  destruct rq as [r|r|r|now r|r]; simpl.
  - unfold Server.post_body.
    destruct (Server.body_params r) as [[d c]|] eqn:Hp; simpl;
      [|apply Hdb].
    intros Hin. apply upsert_rows_inv in Hin as [Hold| ->];
      [apply Hdb, Hold|].
    rewrite (body_params_flag r d c Hp). apply flag_cases.
  - unfold Server.post_mind.
    destruct (Server.mind_params r) as [[d c]|]; simpl; apply Hdb.
  - unfold Server.post_finance.
    destruct (Server.finance_params r) as [[d c]|]; simpl; apply Hdb.
  - unfold Server.post_projects.
    destruct (Server.project_params now r) as [c|]; simpl; apply Hdb.
  - unfold Server.post_discipline.
    destruct (Server.discipline_params r) as [[k c]|]; simpl; apply Hdb.
Qed.

Lemma training_flag_serve (history : list Server.Request) (db : Server.Db) :
  (forall row, In row (Sql.rows (Server.body_logs db)) ->
     Server.BodyCols.training_done (Sql.cols row) = Sql.Num 1
     \/ Server.BodyCols.training_done (Sql.cols row) = Sql.Num 0) ->
  forall row,
    In row (Sql.rows (Server.body_logs (Server.serve history db))) ->
    Server.BodyCols.training_done (Sql.cols row) = Sql.Num 1
    \/ Server.BodyCols.training_done (Sql.cols row) = Sql.Num 0.
Proof.
  revert db. unfold Server.serve.
  induction history as [|rq rest IH]; simpl; intros db Hdb; [exact Hdb|].
  apply IH, training_flag_handle, Hdb.
Qed.

(** C10.  A body-log submission that is accepted writes a row whose
    [training_done] is the number 1 when the submitted value is truthy and
    the number 0 otherwise, whatever that value is; hence every row of
    [body_logs] in a store reached from the empty one, and every row that
    GET /api/body or the body window of GET /api/dashboard reads back,
    has [training_done] equal to 1 or to 0. *)
Theorem training_done_is_zero_or_one :
  (forall r db d c,
      Server.body_params r = Some (d, c) ->
      fst (Server.post_body r db) = Server.Success
      /\ exists row,
          In row (Sql.rows (Server.body_logs (snd (Server.post_body r db))))
          /\ Sql.cols row = c
          /\ Server.BodyCols.training_done (Sql.cols row)
             = Sql.Num (if Js.truthy (Server.BodyReq.training_done r)
                        then 1 else 0))
  /\ (forall history row,
      In row (Sql.rows (Server.body_logs
                          (Server.serve history Server.empty_db))) ->
      Server.BodyCols.training_done (Sql.cols row) = Sql.Num 1
      \/ Server.BodyCols.training_done (Sql.cols row) = Sql.Num 0)
  /\ (forall history row,
      In row (Server.get_body (Server.serve history Server.empty_db))
      \/ In row (Server.body
                   (Server.get_dashboard
                      (Server.serve history Server.empty_db))) ->
      Server.BodyCols.training_done (Sql.cols row) = Sql.Num 1
      \/ Server.BodyCols.training_done (Sql.cols row) = Sql.Num 0).
Proof.
  assert (forall history row,
      In row (Sql.rows (Server.body_logs
                          (Server.serve history Server.empty_db))) ->
      Server.BodyCols.training_done (Sql.cols row) = Sql.Num 1
      \/ Server.BodyCols.training_done (Sql.cols row) = Sql.Num 0) as Hinv.
  { intros history. apply training_flag_serve. intros row []. }
  split; [|split].
  - intros r db d c Hp. unfold Server.post_body. rewrite Hp. simpl.
    split; [reflexivity|].
    destruct (upsert_rows_written _ _ Sql.eqb d c
                (Sql.seq (Server.body_logs db) + 1)
                (Sql.rows (Server.body_logs db))) as [row [Hin [Hc _]]].
    exists row. split; [exact Hin|]. split; [exact Hc|].
    rewrite Hc. apply (body_params_flag r d c Hp).
  - exact Hinv.
  - intros history row Hin. apply (Hinv history).
    unfold Server.get_body, Server.get_dashboard, Server.last30 in Hin.
    simpl in Hin.
    destruct Hin as [Hin|Hin]; apply in_order_by_desc_limit in Hin;
      exact Hin.
Qed.

End TrainingFlag.

Lemma training_done_witness :
  Server.BodyCols.training_done
    (Sql.cols (Sql.Row 1 (Sql.Text "2024-01-01")
                 (Server.BodyCols.Make (Sql.Num 8) (Sql.Num 4) (Sql.Num 1)
                    (Sql.Text "corrida") (Sql.Num 5) (Sql.Num 4))))
  = Sql.Num 1
  \/ Server.BodyCols.training_done
       (Sql.cols (Sql.Row 1 (Sql.Text "2024-01-01")
                    (Server.BodyCols.Make (Sql.Num 8) (Sql.Num 4) (Sql.Num 1)
                       (Sql.Text "corrida") (Sql.Num 5) (Sql.Num 4))))
     = Sql.Num 0.
Proof.
  destruct training_done_is_zero_or_one as [_ [_ H]].
  apply (H [Server.PostBody Examples.body_first;
            Server.PostBody Examples.body_second]).
  right. simpl. left. reflexivity.
Defined.

(** ** What a handler accepts *)

Section Acceptance.

Context {sqlite : Sql.Engine}.

Lemma bind_cases (v : Js.value) :
  (exists x, Sql.bind v = Some x /\ Js.is_boolean v = false)
  \/ (Sql.bind v = None /\ Js.is_boolean v = true).
Proof.
  destruct v; simpl; try (left; eexists; split; reflexivity).
  right; split; reflexivity.
Qed.

Ltac bind_field v :=
  let x := fresh "x" in
  let Hb := fresh "Hb" in
  let Hn := fresh "Hn" in
  destruct (bind_cases v) as [[x [Hb Hn]]|[Hb Hn]];
  try rewrite Hb; try rewrite Hn; clear Hb Hn.

Lemma body_accepts (r : Server.BodyReq.t) :
  (exists p, Server.body_params r = Some p)
  <-> forallb (fun v => negb (Js.is_boolean v))
        [ Server.BodyReq.date r; Server.BodyReq.sleep_hours r;
          Server.BodyReq.sleep_quality r; Server.BodyReq.training_type r;
          Server.BodyReq.energy_level r; Server.BodyReq.activity_level r ]
      = true.
Proof.
  unfold Server.body_params, Server.flag. simpl.
  bind_field (Server.BodyReq.date r);
    bind_field (Server.BodyReq.sleep_hours r);
    bind_field (Server.BodyReq.sleep_quality r);
    bind_field (Server.BodyReq.training_type r);
    bind_field (Server.BodyReq.energy_level r);
    bind_field (Server.BodyReq.activity_level r);
    simpl; split;
    solve [ intros _; reflexivity | intros [p Hp]; discriminate
          | discriminate | intros _; eexists; reflexivity ].
Qed.

Lemma mind_accepts (r : Server.MindReq.t) :
  (exists p, Server.mind_params r = Some p)
  <-> forallb (fun v => negb (Js.is_boolean v))
        [ Server.MindReq.date r; Server.MindReq.mood r;
          Server.MindReq.anxiety r; Server.MindReq.stress r;
          Server.MindReq.focus r; Server.MindReq.journal r ]
      = true.
Proof.
  unfold Server.mind_params. simpl.
  bind_field (Server.MindReq.date r);
    bind_field (Server.MindReq.mood r);
    bind_field (Server.MindReq.anxiety r);
    bind_field (Server.MindReq.stress r);
    bind_field (Server.MindReq.focus r);
    bind_field (Server.MindReq.journal r);
    simpl; split;
    solve [ intros _; reflexivity | intros [p Hp]; discriminate
          | discriminate | intros _; eexists; reflexivity ].
Qed.

Lemma finance_accepts (r : Server.FinanceReq.t) :
  (exists p, Server.finance_params r = Some p)
  <-> forallb (fun v => negb (Js.is_boolean v))
        [ Server.FinanceReq.date r; Server.FinanceReq.income r;
          Server.FinanceReq.expenses r; Server.FinanceReq.debts r;
          Server.FinanceReq.installments r ]
      = true.
Proof.
  unfold Server.finance_params. simpl.
  bind_field (Server.FinanceReq.date r);
    bind_field (Server.FinanceReq.income r);
    bind_field (Server.FinanceReq.expenses r);
    bind_field (Server.FinanceReq.debts r);
    bind_field (Server.FinanceReq.installments r);
    simpl; split;
    solve [ intros _; reflexivity | intros [p Hp]; discriminate
          | discriminate | intros _; eexists; reflexivity ].
Qed.

Lemma discipline_accepts (r : Server.DisciplineReq.t) :
  (exists p, Server.discipline_params r = Some p)
  <-> forallb (fun v => negb (Js.is_boolean v))
        [ Server.DisciplineReq.date r; Server.DisciplineReq.project_id r;
          Server.DisciplineReq.minutes_invested r;
          Server.DisciplineReq.focus_level r ]
      = true.
Proof.
  unfold Server.discipline_params. simpl.
  bind_field (Server.DisciplineReq.date r);
    bind_field (Server.DisciplineReq.project_id r);
    bind_field (Server.DisciplineReq.minutes_invested r);
    bind_field (Server.DisciplineReq.focus_level r);
    simpl; split;
    solve [ intros _; reflexivity | intros [p Hp]; discriminate
          | discriminate | intros _; eexists; reflexivity ].
Qed.

Lemma post_body_success (r : Server.BodyReq.t) (db : Server.Db) :
  fst (Server.post_body r db) = Server.Success
  <-> exists p, Server.body_params r = Some p.
Proof.
  unfold Server.post_body.
  destruct (Server.body_params r) as [[d c]|]; simpl; split;
    try discriminate; try reflexivity.
  - intros _. eexists; reflexivity.
  - intros [p Hp]. discriminate.
Qed.

Lemma post_mind_success (r : Server.MindReq.t) (db : Server.Db) :
  fst (Server.post_mind r db) = Server.Success
  <-> exists p, Server.mind_params r = Some p.
Proof.
  unfold Server.post_mind.
  destruct (Server.mind_params r) as [[d c]|]; simpl; split;
    try discriminate; try reflexivity.
  - intros _. eexists; reflexivity.
  - intros [p Hp]. discriminate.
Qed.

Lemma post_finance_success (r : Server.FinanceReq.t) (db : Server.Db) :
  fst (Server.post_finance r db) = Server.Success
  <-> exists p, Server.finance_params r = Some p.
Proof.
  unfold Server.post_finance.
  destruct (Server.finance_params r) as [[d c]|]; simpl; split;
    try discriminate; try reflexivity.
  - intros _. eexists; reflexivity.
  - intros [p Hp]. discriminate.
Qed.

Lemma post_discipline_success (r : Server.DisciplineReq.t) (db : Server.Db) :
  fst (Server.post_discipline r db) = Server.Success
  <-> exists p, Server.discipline_params r = Some p.
Proof.
  unfold Server.post_discipline.
  destruct (Server.discipline_params r) as [[d c]|]; simpl; split;
    try discriminate; try reflexivity.
  - intros _. eexists; reflexivity.
  - intros [p Hp]. discriminate.
Qed.

(** An accepted write is in the table under its key, with its values. *)

Lemma post_body_stores (r : Server.BodyReq.t) (db : Server.Db) :
  fst (Server.post_body r db) = Server.Success ->
  exists k c row,
    Server.body_params r = Some (k, c)
    /\ In row (Sql.rows (Server.body_logs (snd (Server.post_body r db))))
    /\ Sql.cols row = c
    /\ (Sql.key row = k \/ Sql.eqb (Sql.key row) k = true).
Proof.
  unfold Server.post_body.
  destruct (Server.body_params r) as [[d c]|]; simpl; [|discriminate].
  intros _.
  destruct (upsert_rows_written _ _ Sql.eqb d c
              (Sql.seq (Server.body_logs db) + 1)
              (Sql.rows (Server.body_logs db))) as [row [Hin [Hc Hk]]].
  exists d, c, row. auto.
Qed.

Lemma post_mind_stores (r : Server.MindReq.t) (db : Server.Db) :
  fst (Server.post_mind r db) = Server.Success ->
  exists k c row,
    Server.mind_params r = Some (k, c)
    /\ In row (Sql.rows (Server.mind_logs (snd (Server.post_mind r db))))
    /\ Sql.cols row = c
    /\ (Sql.key row = k \/ Sql.eqb (Sql.key row) k = true).
Proof.
  unfold Server.post_mind.
  destruct (Server.mind_params r) as [[d c]|]; simpl; [|discriminate].
  intros _.
  destruct (upsert_rows_written _ _ Sql.eqb d c
              (Sql.seq (Server.mind_logs db) + 1)
              (Sql.rows (Server.mind_logs db))) as [row [Hin [Hc Hk]]].
  exists d, c, row. auto.
Qed.

Lemma post_finance_stores (r : Server.FinanceReq.t) (db : Server.Db) :
  fst (Server.post_finance r db) = Server.Success ->
  exists k c row,
    Server.finance_params r = Some (k, c)
    /\ In row (Sql.rows (Server.finance_logs
                           (snd (Server.post_finance r db))))
    /\ Sql.cols row = c
    /\ (Sql.key row = k \/ Sql.eqb (Sql.key row) k = true).
Proof.
  unfold Server.post_finance.
  destruct (Server.finance_params r) as [[d c]|]; simpl; [|discriminate].
  intros _.
  destruct (upsert_rows_written _ _ Sql.eqb d c
              (Sql.seq (Server.finance_logs db) + 1)
              (Sql.rows (Server.finance_logs db))) as [row [Hin [Hc Hk]]].
  exists d, c, row. auto.
Qed.

Lemma post_discipline_stores (r : Server.DisciplineReq.t) (db : Server.Db) :
  fst (Server.post_discipline r db) = Server.Success ->
  exists k c row,
    Server.discipline_params r = Some (k, c)
    /\ In row (Sql.rows (Server.discipline_logs
                           (snd (Server.post_discipline r db))))
    /\ Sql.cols row = c
    /\ (Sql.key row = k \/ Sql.eqb2 (Sql.key row) k = true)
    /\ Server.projects (snd (Server.post_discipline r db))
       = Server.projects db.
Proof.
  unfold Server.post_discipline.
  destruct (Server.discipline_params r) as [[d c]|]; simpl; [|discriminate].
  intros _.
  destruct (upsert_rows_written _ _ Sql.eqb2 d c
              (Sql.seq (Server.discipline_logs db) + 1)
              (Sql.rows (Server.discipline_logs db))) as [row [Hin [Hc Hk]]].
  exists d, c, row. auto.
Qed.

(** The values of an INSERT, field by field. *)

Ltac kept_fields :=
  unfold Sql.keep; cbn [Sql.bind_all];
  repeat match goal with
         | |- context [Sql.bind ?v] =>
             destruct (Sql.bind v); [|discriminate]
         end;
  cbn [option_map]; intros H; injection H as <- <-;
  repeat split; reflexivity.

Lemma body_params_fields (r : Server.BodyReq.t) (k : Sql.val)
      (c : Server.BodyCols.t) :
  Server.body_params r = Some (k, c) ->
  Sql.keep Sql.TEXT (Server.BodyReq.date r) = Some k
  /\ Sql.keep Sql.REAL (Server.BodyReq.sleep_hours r)
     = Some (Server.BodyCols.sleep_hours c)
  /\ Sql.keep Sql.INTEGER (Server.BodyReq.sleep_quality r)
     = Some (Server.BodyCols.sleep_quality c)
  /\ Sql.keep Sql.INTEGER (Server.flag (Server.BodyReq.training_done r))
     = Some (Server.BodyCols.training_done c)
  /\ Sql.keep Sql.TEXT (Server.BodyReq.training_type r)
     = Some (Server.BodyCols.training_type c)
  /\ Sql.keep Sql.INTEGER (Server.BodyReq.energy_level r)
     = Some (Server.BodyCols.energy_level c)
  /\ Sql.keep Sql.INTEGER (Server.BodyReq.activity_level r)
     = Some (Server.BodyCols.activity_level c).
Proof. unfold Server.body_params. kept_fields. Qed.

Lemma mind_params_fields (r : Server.MindReq.t) (k : Sql.val)
      (c : Server.MindCols.t) :
  Server.mind_params r = Some (k, c) ->
  Sql.keep Sql.TEXT (Server.MindReq.date r) = Some k
  /\ Sql.keep Sql.INTEGER (Server.MindReq.mood r)
     = Some (Server.MindCols.mood c)
  /\ Sql.keep Sql.INTEGER (Server.MindReq.anxiety r)
     = Some (Server.MindCols.anxiety c)
  /\ Sql.keep Sql.INTEGER (Server.MindReq.stress r)
     = Some (Server.MindCols.stress c)
  /\ Sql.keep Sql.INTEGER (Server.MindReq.focus r)
     = Some (Server.MindCols.focus c)
  /\ Sql.keep Sql.TEXT (Server.MindReq.journal r)
     = Some (Server.MindCols.journal c).
Proof. unfold Server.mind_params. kept_fields. Qed.

Lemma finance_params_fields (r : Server.FinanceReq.t) (k : Sql.val)
      (c : Server.FinanceCols.t) :
  Server.finance_params r = Some (k, c) ->
  Sql.keep Sql.TEXT (Server.FinanceReq.date r) = Some k
  /\ Sql.keep Sql.REAL (Server.FinanceReq.income r)
     = Some (Server.FinanceCols.income c)
  /\ Sql.keep Sql.REAL (Server.FinanceReq.expenses r)
     = Some (Server.FinanceCols.expenses c)
  /\ Sql.keep Sql.REAL (Server.FinanceReq.debts r)
     = Some (Server.FinanceCols.debts c)
  /\ Sql.keep Sql.REAL (Server.FinanceReq.installments r)
     = Some (Server.FinanceCols.installments c).
Proof. unfold Server.finance_params. kept_fields. Qed.

Lemma discipline_params_fields (r : Server.DisciplineReq.t)
      (k : Sql.val * Sql.val) (c : Server.DisciplineCols.t) :
  Server.discipline_params r = Some (k, c) ->
  Sql.keep Sql.TEXT (Server.DisciplineReq.date r) = Some (fst k)
  /\ Sql.keep Sql.INTEGER (Server.DisciplineReq.project_id r)
     = Some (snd k)
  /\ Sql.keep Sql.INTEGER (Server.DisciplineReq.minutes_invested r)
     = Some (Server.DisciplineCols.minutes_invested c)
  /\ Sql.keep Sql.INTEGER (Server.DisciplineReq.focus_level r)
     = Some (Server.DisciplineCols.focus_level c).
Proof. unfold Server.discipline_params. kept_fields. Qed.

(** C5, as the code has it.  No handler validates its request body.  A
    body, mind, finance or discipline submission is accepted exactly when
    the driver can bind each of its fields, that is when none of them is a
    boolean ([training_done] apart, which is converted first): a missing
    field, null and a string all pass.  An accepted submission is in its
    table, under its key, each column holding what it keeps of the
    submitted field: NULL for a missing field or null; in a numeric
    column a number as it is and a string as the number it reads as or,
    when it does not read as one, as the string itself; in a text column
    a string as it is and a number as text.  A refused submission leaves
    the store unchanged. *)
Theorem log_submissions_are_not_validated :
  (forall r db,
      fst (Server.post_body r db) = Server.Success
      <-> forallb (fun v => negb (Js.is_boolean v))
            [ Server.BodyReq.date r; Server.BodyReq.sleep_hours r;
              Server.BodyReq.sleep_quality r; Server.BodyReq.training_type r;
              Server.BodyReq.energy_level r;
              Server.BodyReq.activity_level r ] = true)
  /\ (forall r db,
      fst (Server.post_mind r db) = Server.Success
      <-> forallb (fun v => negb (Js.is_boolean v))
            [ Server.MindReq.date r; Server.MindReq.mood r;
              Server.MindReq.anxiety r; Server.MindReq.stress r;
              Server.MindReq.focus r; Server.MindReq.journal r ] = true)
  /\ (forall r db,
      fst (Server.post_finance r db) = Server.Success
      <-> forallb (fun v => negb (Js.is_boolean v))
            [ Server.FinanceReq.date r; Server.FinanceReq.income r;
              Server.FinanceReq.expenses r; Server.FinanceReq.debts r;
              Server.FinanceReq.installments r ] = true)
  /\ (forall r db,
      fst (Server.post_discipline r db) = Server.Success
      <-> forallb (fun v => negb (Js.is_boolean v))
            [ Server.DisciplineReq.date r; Server.DisciplineReq.project_id r;
              Server.DisciplineReq.minutes_invested r;
              Server.DisciplineReq.focus_level r ] = true)
  /\ (forall r db,
      fst (Server.post_body r db) = Server.Success ->
      exists k c row,
        Server.body_params r = Some (k, c)
        /\ In row (Sql.rows (Server.body_logs (snd (Server.post_body r db))))
        /\ Sql.cols row = c
        /\ (Sql.key row = k \/ Sql.eqb (Sql.key row) k = true))
  /\ (forall r db,
      fst (Server.post_mind r db) = Server.Success ->
      exists k c row,
        Server.mind_params r = Some (k, c)
        /\ In row (Sql.rows (Server.mind_logs (snd (Server.post_mind r db))))
        /\ Sql.cols row = c
        /\ (Sql.key row = k \/ Sql.eqb (Sql.key row) k = true))
  /\ (forall r db,
      fst (Server.post_finance r db) = Server.Success ->
      exists k c row,
        Server.finance_params r = Some (k, c)
        /\ In row (Sql.rows (Server.finance_logs
                               (snd (Server.post_finance r db))))
        /\ Sql.cols row = c
        /\ (Sql.key row = k \/ Sql.eqb (Sql.key row) k = true))
  /\ (forall r db,
      fst (Server.post_discipline r db) = Server.Success ->
      exists k c row,
        Server.discipline_params r = Some (k, c)
        /\ In row (Sql.rows (Server.discipline_logs
                               (snd (Server.post_discipline r db))))
        /\ Sql.cols row = c
        /\ (Sql.key row = k \/ Sql.eqb2 (Sql.key row) k = true))
  /\ (forall r k c,
      Server.body_params r = Some (k, c) ->
      Sql.keep Sql.TEXT (Server.BodyReq.date r) = Some k
      /\ Sql.keep Sql.REAL (Server.BodyReq.sleep_hours r)
         = Some (Server.BodyCols.sleep_hours c)
      /\ Sql.keep Sql.INTEGER (Server.BodyReq.sleep_quality r)
         = Some (Server.BodyCols.sleep_quality c)
      /\ Sql.keep Sql.INTEGER (Server.flag (Server.BodyReq.training_done r))
         = Some (Server.BodyCols.training_done c)
      /\ Sql.keep Sql.TEXT (Server.BodyReq.training_type r)
         = Some (Server.BodyCols.training_type c)
      /\ Sql.keep Sql.INTEGER (Server.BodyReq.energy_level r)
         = Some (Server.BodyCols.energy_level c)
      /\ Sql.keep Sql.INTEGER (Server.BodyReq.activity_level r)
         = Some (Server.BodyCols.activity_level c))
  /\ (forall r k c,
      Server.mind_params r = Some (k, c) ->
      Sql.keep Sql.TEXT (Server.MindReq.date r) = Some k
      /\ Sql.keep Sql.INTEGER (Server.MindReq.mood r)
         = Some (Server.MindCols.mood c)
      /\ Sql.keep Sql.INTEGER (Server.MindReq.anxiety r)
         = Some (Server.MindCols.anxiety c)
      /\ Sql.keep Sql.INTEGER (Server.MindReq.stress r)
         = Some (Server.MindCols.stress c)
      /\ Sql.keep Sql.INTEGER (Server.MindReq.focus r)
         = Some (Server.MindCols.focus c)
      /\ Sql.keep Sql.TEXT (Server.MindReq.journal r)
         = Some (Server.MindCols.journal c))
  /\ (forall r k c,
      Server.finance_params r = Some (k, c) ->
      Sql.keep Sql.TEXT (Server.FinanceReq.date r) = Some k
      /\ Sql.keep Sql.REAL (Server.FinanceReq.income r)
         = Some (Server.FinanceCols.income c)
      /\ Sql.keep Sql.REAL (Server.FinanceReq.expenses r)
         = Some (Server.FinanceCols.expenses c)
      /\ Sql.keep Sql.REAL (Server.FinanceReq.debts r)
         = Some (Server.FinanceCols.debts c)
      /\ Sql.keep Sql.REAL (Server.FinanceReq.installments r)
         = Some (Server.FinanceCols.installments c))
  /\ (forall r k c,
      Server.discipline_params r = Some (k, c) ->
      Sql.keep Sql.TEXT (Server.DisciplineReq.date r) = Some (fst k)
      /\ Sql.keep Sql.INTEGER (Server.DisciplineReq.project_id r)
         = Some (snd k)
      /\ Sql.keep Sql.INTEGER (Server.DisciplineReq.minutes_invested r)
         = Some (Server.DisciplineCols.minutes_invested c)
      /\ Sql.keep Sql.INTEGER (Server.DisciplineReq.focus_level r)
         = Some (Server.DisciplineCols.focus_level c))
  /\ (forall a,
      Sql.keep a Js.Undefined = Some Sql.Null
      /\ Sql.keep a Js.Null = Some Sql.Null)
  /\ (forall s,
      Sql.keep Sql.TEXT (Js.Str s) = Some (Sql.Text s)
      /\ (Sql.numeric s = None ->
          Sql.keep Sql.INTEGER (Js.Str s) = Some (Sql.Text s)
          /\ Sql.keep Sql.REAL (Js.Str s) = Some (Sql.Text s))
      /\ (forall q,
          Sql.numeric s = Some q ->
          Sql.keep Sql.INTEGER (Js.Str s) = Some (Sql.Num q)
          /\ Sql.keep Sql.REAL (Js.Str s)
             = Some (Sql.Num (Double.nearest q))))
  /\ (forall q,
      Sql.keep Sql.INTEGER (Js.Num q) = Some (Sql.Num q)
      /\ Sql.keep Sql.REAL (Js.Num q) = Some (Sql.Num q)
      /\ Sql.keep Sql.TEXT (Js.Num q) = Some (Sql.Text (Sql.text_of q)))
  /\ (forall rq db,
      fst (Server.handle rq db) = Server.ServerError ->
      snd (Server.handle rq db) = db).
Proof.
  repeat apply conj.
  - intros r db. rewrite post_body_success. apply body_accepts.
  - intros r db. rewrite post_mind_success. apply mind_accepts.
  - intros r db. rewrite post_finance_success. apply finance_accepts.
  - intros r db. rewrite post_discipline_success. apply discipline_accepts.
  - apply post_body_stores.
  - apply post_mind_stores.
  - apply post_finance_stores.
  - intros r db H.
    destruct (post_discipline_stores r db H)
      as [k [c [row [Hp [Hin [Hc [Hk _]]]]]]].
    exists k, c, row. auto.
  - apply body_params_fields.
  - apply mind_params_fields.
  - apply finance_params_fields.
  - apply discipline_params_fields.
  - intros a. destruct a; split; reflexivity.
  - intros s. unfold Sql.keep. simpl. split; [reflexivity|]. split.
    + intros H. rewrite H. split; reflexivity.
    + intros q H. rewrite H. split; reflexivity.
  - intros q. repeat split; reflexivity.
  - apply handle_error_unchanged.
Qed.

End Acceptance.

(** C5 fails as stated: a body log whose hours of sleep are null and whose
    sleep quality is the text "abc" is answered with success and stored,
    the text as it is. *)
Lemma not_numeric_submission_is_stored :
  Js.is_number (Server.BodyReq.sleep_hours Examples.body_not_numeric) = false
  /\ Js.is_number (Server.BodyReq.sleep_quality Examples.body_not_numeric)
     = false
  /\ fst (Server.post_body Examples.body_not_numeric Server.empty_db)
     = Server.Success
  /\ Server.get_body
       (snd (Server.post_body Examples.body_not_numeric Server.empty_db))
     = [ Sql.Row 1 (Sql.Text "2024-01-02")
           (Server.BodyCols.Make Sql.Null (Sql.Text "abc") (Sql.Num 0)
              (Sql.Text "") (Sql.Num 3) (Sql.Num 3)) ]
  /\ snd (Server.post_body Examples.body_not_numeric Server.empty_db)
     <> Server.empty_db.
Proof.
  repeat split; try reflexivity.
  intros H. apply (f_equal (fun db => Sql.seq (Server.body_logs db))) in H.
  discriminate H.
Qed.

Lemma log_submissions_witness :
  (exists k c row,
      Server.body_params Examples.body_not_numeric = Some (k, c)
      /\ In row (Sql.rows (Server.body_logs
                             (snd (Server.post_body Examples.body_not_numeric
                                     Server.empty_db))))
      /\ Sql.cols row = c
      /\ (Sql.key row = k \/ Sql.eqb (Sql.key row) k = true))
  /\ Sql.keep Sql.INTEGER (Js.Str "abc") = Some (Sql.Text "abc")
  /\ Sql.keep Sql.INTEGER (Js.Str "7") = Some (Sql.Num 7).
Proof.
  destruct log_submissions_are_not_validated
    as [Hacc [_ [_ [_ [Hst [_ [_ [_ [_ [_ [_ [_ [_ [Hstr _]]]]]]]]]]]]]].
  split; [apply Hst, Hacc; reflexivity|].
  split.
  - apply (Hstr "abc"%string). reflexivity.
  - apply (Hstr "7"%string). reflexivity.
Defined.

(** What the columns keep in SQLite itself: the text '7.5' is 7.5 in a
    REAL column and '5' is 5 in an INTEGER one, '0x10' stays a text, and
    the number 42 is the text '42.0' in a TEXT column. *)
Lemma affinity_samples :
  option_map (Sql.eqb (Sql.Num 7.5)) (Sql.keep Sql.REAL (Js.Str "7.5"))
  = Some true
  /\ Sql.keep Sql.INTEGER (Js.Str "5") = Some (Sql.Num 5)
  /\ option_map (Sql.eqb (Sql.Num 50))
                (Sql.keep Sql.INTEGER (Js.Str " +5e1 ")) = Some true
  /\ Sql.keep Sql.INTEGER (Js.Str "0x10") = Some (Sql.Text "0x10")
  /\ Sql.keep Sql.TEXT (Js.Num 42) = Some (Sql.Text "42.0")
  /\ Sql.keep Sql.TEXT (Js.Num 7.5) = Some (Sql.Text "7.5").
Proof. vm_compute. repeat split. Qed.

(** ** Discipline logs and projects *)

Section DisciplineWrites.

Context {sqlite : Sql.Engine}.

Lemma in_join_projects (db : Server.Db)
      (row : Sql.row (Sql.val * Sql.val)
                     (Server.DisciplineCols.t * Sql.val)) :
  In row (Server.join_projects db) ->
  exists p,
    In p (Server.get_projects db)
    /\ Sql.eqb (snd (Sql.key row)) (Sql.Num (inject_Z (Sql.id p))) = true.
Proof.
  unfold Server.join_projects, Server.get_projects.
  rewrite in_flat_map. intros [d [_ Hrow]].
  rewrite in_map_iff in Hrow. destruct Hrow as [p [<- Hp]].
  rewrite filter_In in Hp. destruct Hp as [Hin Heq].
  exists p. split; [exact Hin|exact Heq].
Qed.

(** C3, as the code has it.  A discipline-log write is never checked
    against the projects: it is accepted exactly when its four fields can
    be bound, whatever the projects table holds; it is then in the table
    with the submitted minutes and focus, under its date and its
    [project_id] as the columns keep them (a number as it is submitted),
    the projects being left as they were.  Only the listing of
    GET /api/discipline, an inner join with the projects, leaves out a log
    whose [project_id] matches no project. *)
Theorem discipline_write_ignores_projects :
  (forall r db,
      fst (Server.post_discipline r db) = Server.Success
      <-> forallb (fun v => negb (Js.is_boolean v))
            [ Server.DisciplineReq.date r; Server.DisciplineReq.project_id r;
              Server.DisciplineReq.minutes_invested r;
              Server.DisciplineReq.focus_level r ] = true)
  /\ (forall r db,
      fst (Server.post_discipline r db) = Server.Success ->
      exists k c row,
        Server.discipline_params r = Some (k, c)
        /\ In row (Sql.rows (Server.discipline_logs
                               (snd (Server.post_discipline r db))))
        /\ Sql.cols row = c
        /\ (Sql.key row = k \/ Sql.eqb2 (Sql.key row) k = true)
        /\ Server.projects (snd (Server.post_discipline r db))
           = Server.projects db)
  /\ (forall r k c,
      Server.discipline_params r = Some (k, c) ->
      Sql.keep Sql.TEXT (Server.DisciplineReq.date r) = Some (fst k)
      /\ Sql.keep Sql.INTEGER (Server.DisciplineReq.project_id r)
         = Some (snd k)
      /\ (forall q,
            Server.DisciplineReq.project_id r = Js.Num q ->
            snd k = Sql.Num q)
      /\ (forall s,
            Server.DisciplineReq.date r = Js.Str s -> fst k = Sql.Text s))
  /\ (forall db row,
      In row (Server.get_discipline db) ->
      exists p,
        In p (Server.get_projects db)
        /\ Sql.eqb (snd (Sql.key row)) (Sql.Num (inject_Z (Sql.id p)))
           = true).
Proof.
  repeat apply conj.
  - intros r db. rewrite post_discipline_success. apply discipline_accepts.
  - apply post_discipline_stores.
  - intros r k c Hp.
    destruct (discipline_params_fields r k c Hp) as [Hd [Hpid _]].
    split; [exact Hd|]. split; [exact Hpid|]. split.
    + intros q Hq. rewrite Hq in Hpid. unfold Sql.keep in Hpid.
      simpl in Hpid. congruence.
    + intros t Ht. rewrite Ht in Hd. unfold Sql.keep in Hd.
      simpl in Hd. congruence.
  - intros db row Hin. unfold Server.get_discipline in Hin.
    apply in_order_by_desc_limit in Hin. apply in_join_projects, Hin.
Qed.

End DisciplineWrites.

(** C3 fails as stated: with no project at all, a discipline log for
    project 0 is answered with success and stored. *)
Lemma dangling_project_is_stored :
  Server.get_projects Server.empty_db = []
  /\ Server.post_discipline Examples.discipline_no_project Server.empty_db
     = (Server.Success,
        {| Server.body_logs := Sql.empty;
           Server.mind_logs := Sql.empty;
           Server.finance_logs := Sql.empty;
           Server.projects := Sql.empty;
           Server.discipline_logs :=
             {| Sql.rows :=
                  [ Sql.Row 1 (Sql.Text "2024-01-01", Sql.Num 0)
                      (Server.DisciplineCols.Make (Sql.Num 60) (Sql.Num 3)) ];
                Sql.seq := 1 |} |}).
Proof. split; reflexivity. Qed.

Lemma discipline_write_witness :
  exists k c row,
    Server.discipline_params Examples.discipline_no_project = Some (k, c)
    /\ In row (Sql.rows (Server.discipline_logs
                           (snd (Server.post_discipline
                                   Examples.discipline_no_project
                                   Server.empty_db))))
    /\ Sql.cols row = c
    /\ (Sql.key row = k \/ Sql.eqb2 (Sql.key row) k = true)
    /\ Server.projects (snd (Server.post_discipline
                               Examples.discipline_no_project
                               Server.empty_db))
       = Server.projects Server.empty_db.
Proof.
  destruct discipline_write_ignores_projects as [Hacc [Hst _]].
  apply Hst. apply Hacc. reflexivity.
Defined.

(** ** Rounding to the nearest double *)

Lemma round_even_bounds (x : Q) :
  (Qfloor x <= Double.round_even x <= Qfloor x + 1)%Z.
Proof.
  unfold Double.round_even.
  destruct (Qcompare (x - inject_Z (Qfloor x)) (1 # 2));
    [destruct (Z.even (Qfloor x))| |]; lia.
Qed.

Lemma round_even_Z (n : Z) : Double.round_even (inject_Z n) = n.
Proof.
  unfold Double.round_even. rewrite Qfloor_Z.
  assert (inject_Z n - inject_Z n < 1 # 2) as H by (ring_simplify; reflexivity).
  destruct (Qcompare (inject_Z n - inject_Z n) (1 # 2)) eqn:C;
    [|reflexivity|]; exfalso.
  - apply Qeq_alt in C. rewrite C in H. exact (Qlt_irrefl _ H).
  - apply Qgt_alt in C. exact (Qlt_irrefl _ (Qlt_trans _ _ _ H C)).
Qed.

Lemma floor_frac (x : Q) : 0 <= x - inject_Z (Qfloor x) < 1.
Proof.
  pose proof (Qfloor_le x). pose proof (Qlt_floor x).
  rewrite inject_Z_plus in H0. change (inject_Z 1) with 1 in H0.
  split; lra.
Qed.

Lemma round_even_mono (x y : Q) :
  x <= y -> (Double.round_even x <= Double.round_even y)%Z.
Proof.
  intros Hxy.
  pose proof (Qfloor_resp_le _ _ Hxy) as Hf.
  destruct (Z.eq_dec (Qfloor x) (Qfloor y)) as [He|Hne].
  - unfold Double.round_even. rewrite <- He.
    destruct (Qcompare (x - inject_Z (Qfloor x)) (1 # 2)) eqn:Cx;
      [apply Qeq_alt in Cx|apply Qlt_alt in Cx|apply Qgt_alt in Cx];
      (destruct (Qcompare (y - inject_Z (Qfloor x)) (1 # 2)) eqn:Cy;
       [apply Qeq_alt in Cy|apply Qlt_alt in Cy|apply Qgt_alt in Cy]);
      try (destruct (Z.even (Qfloor x))); try lia; exfalso; lra.
  - pose proof (round_even_bounds x). pose proof (round_even_bounds y). lia.
Qed.

Lemma round_even_comp (x y : Q) :
  x == y -> Double.round_even x = Double.round_even y.
Proof.
  intros H. apply Z.le_antisymm; apply round_even_mono; rewrite H;
    apply Qle_refl.
Qed.

Lemma two_nonzero : ~ 2 == 0.
Proof. discriminate. Qed.

Lemma pow2_pos (k : Z) : 0 < 2 ^ k.
Proof. apply Qpower_0_lt. reflexivity. Qed.

Lemma pow2_le (a b : Z) : (a <= b)%Z -> 2 ^ a <= 2 ^ b.
Proof. intros H. apply Qpower_le_compat_l; [exact H|discriminate]. Qed.

Lemma pow2_lt (a b : Z) : (a < b)%Z -> 2 ^ a < 2 ^ b.
Proof. intros H. apply Qpower_lt_compat_l; [exact H|reflexivity]. Qed.

Lemma pow2_Z (n : Z) : (0 <= n)%Z -> inject_Z (2 ^ n) == 2 ^ n.
Proof. intros H. apply (Zpower_Qpower 2 n H). Qed.

Lemma log2_spec (x : Q) :
  0 < x -> 2 ^ Double.log2 x <= x /\ x < 2 ^ (Double.log2 x + 1).
Proof.
  intros Hx. unfold Double.log2.
  set (n := Qnum x). set (d := Qden x).
  assert (0 < n)%Z as Hn.
  { unfold Qlt in Hx. simpl in Hx. fold n in Hx. lia. }
  set (a := Z.log2 n). set (b := Z.log2 (Z.pos d)).
  destruct (Z.log2_spec n Hn) as [Ha1 Ha2]. fold a in Ha1, Ha2.
  destruct (Z.log2_spec (Z.pos d) eq_refl) as [Hb1 Hb2]. fold b in Hb1, Hb2.
  assert (0 <= a)%Z as Ha0 by apply Z.log2_nonneg.
  assert (0 <= b)%Z as Hb0 by apply Z.log2_nonneg.
  assert (x == inject_Z n / inject_Z (Z.pos d)) as Ex.
  { unfold n, d. rewrite <- (Qmake_Qdiv (Qnum x) (Qden x)).
    destruct x; reflexivity. }
  assert (0 < inject_Z (Z.pos d)) as Hd by reflexivity.
  assert (inject_Z (2 ^ a) <= inject_Z n) as Qa1
      by (rewrite <- Zle_Qle; exact Ha1).
  assert (inject_Z n < inject_Z (2 ^ Z.succ a)) as Qa2
      by (rewrite <- Zlt_Qlt; exact Ha2).
  assert (inject_Z (2 ^ b) <= inject_Z (Z.pos d)) as Qb1
      by (rewrite <- Zle_Qle; exact Hb1).
  assert (inject_Z (Z.pos d) < inject_Z (2 ^ Z.succ b)) as Qb2
      by (rewrite <- Zlt_Qlt; exact Hb2).
  rewrite pow2_Z in Qa1, Qa2, Qb1, Qb2 by lia.
  assert (2 ^ (a - b - 1) < x) as Hlow.
  { rewrite Ex. apply Qlt_shift_div_l; [exact Hd|].
    apply Qlt_le_trans with (2 ^ (a - b - 1) * 2 ^ Z.succ b).
    - apply Qmult_lt_l; [apply pow2_pos|exact Qb2].
    - rewrite <- Qpower_plus by apply two_nonzero.
      replace (a - b - 1 + Z.succ b)%Z with a by lia. exact Qa1. }
  assert (x < 2 ^ (a - b + 1)) as Hhigh.
  { rewrite Ex. apply Qlt_shift_div_r; [exact Hd|].
    apply Qlt_le_trans with (2 ^ Z.succ a); [exact Qa2|].
    apply Qle_trans with (2 ^ (a - b + 1) * 2 ^ b).
    - rewrite <- Qpower_plus by apply two_nonzero.
      replace (a - b + 1 + b)%Z with (Z.succ a) by lia. apply Qle_refl.
    - apply Qmult_le_l; [apply pow2_pos|exact Qb1]. }
  destruct (Qle_bool (2 ^ (a - b)) x) eqn:E.
  - apply Qle_bool_iff in E. split; assumption.
  - split.
    + apply Qlt_le_weak. exact Hlow.
    + replace (a - b - 1 + 1)%Z with (a - b)%Z by lia.
      apply Qnot_le_lt. intros H. apply Qle_bool_iff in H. congruence.
Qed.

Lemma ulp_pos (x : Q) : 0 < Double.ulp x.
Proof. apply pow2_pos. Qed.

Lemma magnitude_nonneg (x : Q) : 0 <= x -> 0 <= Double.magnitude x.
Proof.
  intros Hx. unfold Double.magnitude.
  apply Qmult_le_0_compat; [|apply Qlt_le_weak, ulp_pos].
  change 0 with (inject_Z 0). rewrite <- Zle_Qle.
  rewrite <- (round_even_Z 0). apply round_even_mono.
  apply Qle_shift_div_l; [apply ulp_pos|].
  change (inject_Z 0) with 0. rewrite Qmult_0_l. exact Hx.
Qed.

Lemma magnitude_below (x : Q) :
  0 < x ->
  Double.magnitude x <= 2 ^ (Z.max (Double.log2 x) (-1022) + 1).
Proof.
  intros Hx. unfold Double.magnitude, Double.ulp.
  set (e := Z.max (Double.log2 x) (-1022)).
  assert (Double.round_even (x / 2 ^ (e - 52)) <= 2 ^ 53)%Z as H.
  { rewrite <- (round_even_Z (2 ^ 53)). apply round_even_mono.
    apply Qle_shift_div_r; [apply pow2_pos|].
    rewrite pow2_Z by lia. rewrite <- Qpower_plus by apply two_nonzero.
    replace (53 + (e - 52))%Z with (e + 1)%Z by lia.
    apply Qle_trans with (2 ^ (Double.log2 x + 1)).
    - apply Qlt_le_weak, log2_spec, Hx.
    - apply pow2_le. lia. }
  rewrite Zle_Qle in H. rewrite pow2_Z in H by lia.
  replace (e + 1)%Z with (53 + (e - 52))%Z by lia.
  rewrite Qpower_plus by apply two_nonzero.
  apply Qmult_le_compat_r; [exact H|apply Qlt_le_weak, pow2_pos].
Qed.

Lemma magnitude_above (x : Q) :
  0 < x -> (-1022 <= Double.log2 x)%Z ->
  2 ^ Double.log2 x <= Double.magnitude x.
Proof.
  intros Hx He. unfold Double.magnitude, Double.ulp.
  rewrite Z.max_l by exact He.
  set (e := Double.log2 x).
  assert (2 ^ 52 <= Double.round_even (x / 2 ^ (e - 52)))%Z as H.
  { rewrite <- (round_even_Z (2 ^ 52)) at 1. apply round_even_mono.
    apply Qle_shift_div_l; [apply pow2_pos|].
    rewrite pow2_Z by lia. rewrite <- Qpower_plus by apply two_nonzero.
    replace (52 + (e - 52))%Z with e by lia.
    apply log2_spec, Hx. }
  rewrite Zle_Qle in H. rewrite pow2_Z in H by lia.
  replace e with (52 + (e - 52))%Z at 1 by lia.
  rewrite Qpower_plus by apply two_nonzero.
  apply Qmult_le_compat_r; [exact H|apply Qlt_le_weak, pow2_pos].
Qed.

Lemma magnitude_zero (x : Q) : x == 0 -> Double.magnitude x == 0.
Proof.
  intros Hx. unfold Double.magnitude.
  rewrite (round_even_comp (x / Double.ulp x) (inject_Z 0)).
  - rewrite round_even_Z. ring.
  - unfold Qdiv. rewrite (Qmult_comp _ _ Hx _ _ (Qeq_refl _)). ring.
Qed.

Lemma magnitude_mono (x y : Q) :
  0 <= x -> x <= y -> Double.magnitude x <= Double.magnitude y.
Proof.
  intros Hx Hxy.
  destruct (Qeq_dec x 0) as [Hz|Hnz].
  { rewrite (magnitude_zero x Hz). apply magnitude_nonneg. lra. }
  assert (0 < x) as Hx0.
  { destruct (Qlt_le_dec 0 x) as [H|H]; [exact H|].
    exfalso. apply Hnz. lra. }
  assert (0 < y) as Hy0 by lra.
  set (ex := Z.max (Double.log2 x) (-1022)).
  set (ey := Z.max (Double.log2 y) (-1022)).
  destruct (Z.lt_trichotomy ex ey) as [Hlt|[Heq|Hgt]].
  - apply Qle_trans with (2 ^ (ex + 1)); [apply magnitude_below, Hx0|].
    apply Qle_trans with (2 ^ ey); [apply pow2_le; lia|].
    assert (ey = Double.log2 y) as Hey by (unfold ex, ey in *; lia).
    rewrite Hey. apply magnitude_above; [exact Hy0|].
    rewrite <- Hey. unfold ex, ey in *. lia.
  - unfold Double.magnitude, Double.ulp. fold ex ey. rewrite <- Heq.
    apply Qmult_le_compat_r; [|apply Qlt_le_weak, pow2_pos].
    rewrite <- Zle_Qle. apply round_even_mono.
    apply Qmult_le_compat_r; [exact Hxy|].
    apply Qlt_le_weak, Qinv_lt_0_compat, pow2_pos.
  - exfalso.
    assert (ex = Double.log2 x) as Hex by (unfold ex, ey in *; lia).
    destruct (log2_spec x Hx0) as [H1 _].
    destruct (log2_spec y Hy0) as [_ H2].
    rewrite <- Hex in H1.
    assert (2 ^ (Double.log2 y + 1) <= 2 ^ ex) as H3
        by (apply pow2_le; unfold ex, ey in *; lia).
    lra.
Qed.

Lemma nearest_nonneg (x : Q) : 0 <= x -> 0 <= Double.nearest x.
Proof.
  intros Hx. unfold Double.nearest.
  apply Qle_bool_iff in Hx as Hb. rewrite Hb.
  apply magnitude_nonneg, Hx.
Qed.

Lemma nearest_nonpos (x : Q) : x <= 0 -> Double.nearest x <= 0.
Proof.
  intros Hx. unfold Double.nearest.
  destruct (Qle_bool 0 x) eqn:Hb.
  - apply Qle_bool_iff in Hb. rewrite magnitude_zero by lra. apply Qle_refl.
  - assert (0 <= Double.magnitude (- x)) by (apply magnitude_nonneg; lra).
    lra.
Qed.

Lemma nearest_mono (x y : Q) : x <= y -> Double.nearest x <= Double.nearest y.
Proof.
  intros Hxy. unfold Double.nearest.
  destruct (Qle_bool 0 x) eqn:Hx; destruct (Qle_bool 0 y) eqn:Hy.
  - apply Qle_bool_iff in Hx. apply magnitude_mono; assumption.
  - apply Qle_bool_iff in Hx.
    assert (~ 0 <= y) as Hn
        by (intros H; apply Qle_bool_iff in H; congruence).
    exfalso. apply Hn. lra.
  - apply Qle_bool_iff in Hy.
    assert (~ 0 <= x) as Hn
        by (intros H; apply Qle_bool_iff in H; congruence).
    assert (0 <= Double.magnitude (- x)) by (apply magnitude_nonneg; lra).
    assert (0 <= Double.magnitude y) by (apply magnitude_nonneg; lra).
    lra.
  - assert (~ 0 <= y) as Hn
        by (intros H; apply Qle_bool_iff in H; congruence).
    assert (Double.magnitude (- y) <= Double.magnitude (- x))
      by (apply magnitude_mono; lra).
    lra.
Qed.

Lemma nearest_comp (x y : Q) : x == y -> Double.nearest x == Double.nearest y.
Proof.
  intros H. apply Qle_antisym; apply nearest_mono; rewrite H; apply Qle_refl.
Qed.

Lemma div_comp (a b c d : Q) :
  a == b -> c == d -> Double.div a c == Double.div b d.
Proof.
  intros H1 H2. apply nearest_comp. unfold Qdiv.
  apply Qmult_comp; [exact H1|]. apply Qinv_comp, H2.
Qed.

Lemma mul_comp (a b c d : Q) :
  a == b -> c == d -> Double.mul a c == Double.mul b d.
Proof. intros H1 H2. apply nearest_comp, Qmult_comp; assumption. Qed.

Lemma add_comp (a b c d : Q) :
  a == b -> c == d -> Double.add a c == Double.add b d.
Proof. intros H1 H2. apply nearest_comp, Qplus_comp; assumption. Qed.

Lemma div_mono (a b d : Q) :
  0 < d -> a <= b -> Double.div a d <= Double.div b d.
Proof.
  intros Hd Hab. apply nearest_mono. unfold Qdiv.
  apply Qmult_le_compat_r; [exact Hab|].
  apply Qinv_le_0_compat, Qlt_le_weak, Hd.
Qed.

Lemma div_nonneg (a d : Q) : 0 < d -> 0 <= a -> 0 <= Double.div a d.
Proof.
  intros Hd Ha. apply nearest_nonneg. unfold Qdiv.
  apply Qmult_le_0_compat; [exact Ha|].
  apply Qinv_le_0_compat, Qlt_le_weak, Hd.
Qed.

Lemma add_mono (a b c d : Q) :
  a <= b -> c <= d -> Double.add a c <= Double.add b d.
Proof. intros H1 H2. apply nearest_mono, Qplus_le_compat; assumption. Qed.

Lemma add_nonneg (a b : Q) : 0 <= a -> 0 <= b -> 0 <= Double.add a b.
Proof.
  intros Ha Hb. apply nearest_nonneg.
  change 0 with (0 + 0). apply Qplus_le_compat; assumption.
Qed.

(** The whole numbers of a score are doubles. *)
Lemma nearest_whole (z : Z) :
  (0 <= z <= 100)%Z -> Double.nearest (inject_Z z) == inject_Z z.
Proof.
  intros Hz.
  assert (forallb
            (fun k => Qeq_bool (Double.nearest (inject_Z (Z.of_nat k)))
                               (inject_Z (Z.of_nat k)))
            (seq 0 101) = true) as Hall by (vm_compute; reflexivity).
  rewrite forallb_forall in Hall.
  specialize (Hall (Z.to_nat z)).
  rewrite Z2Nat.id in Hall by lia.
  apply Qeq_bool_eq, Hall. apply in_seq. lia.
Qed.

Lemma sub_whole (p : Z) :
  (0 <= p <= 100)%Z ->
  Qfloor (Double.sub 100 (inject_Z p)) = (100 - p)%Z.
Proof.
  intros Hp. unfold Double.sub.
  rewrite (Qfloor_comp _ (inject_Z (100 - p))); [apply Qfloor_Z|].
  rewrite <- (nearest_whole (100 - p)) by lia.
  apply nearest_comp. unfold Zminus. rewrite inject_Z_plus, inject_Z_opp.
  reflexivity.
Qed.

Lemma sub_nonneg (p : Z) :
  (p <= 100)%Z -> (0 <= Qfloor (Double.sub 100 (inject_Z p)))%Z.
Proof.
  intros Hp. change 0%Z with (Qfloor 0). apply Qfloor_resp_le.
  apply nearest_nonneg. unfold Qminus.
  rewrite <- (Qplus_opp_r (inject_Z p)).
  apply Qplus_le_compat; [|apply Qle_refl].
  change 100 with (inject_Z 100). rewrite <- Zle_Qle. exact Hp.
Qed.

(** ** Scores *)


Lemma or_else_zero (x d : Q) : x == 0 -> or_else (Some x) d = d.
Proof.
  intros H. unfold or_else. rewrite (Qeq_eq_bool _ _ H). reflexivity.
Qed.

Lemma or_else_nonzero (x d : Q) : ~ x == 0 -> or_else (Some x) d = x.
Proof.
  intros H. unfold or_else. destruct (Qeq_bool x 0) eqn:E; [|reflexivity].
  apply Qeq_bool_eq in E. contradiction.
Qed.

Lemma or_else_never_zero (x : option Q) : ~ or_else x 1 == 0.
Proof.
  destruct x as [q|]; simpl; [|intros H; discriminate H].
  destruct (Qeq_bool q 0) eqn:E; [intros H; discriminate H|].
  apply Qeq_bool_neq, E.
Qed.

Lemma round_comp (x y : Q) : x == y -> Math.round x = Math.round y.
Proof. intros H. unfold Math.round. rewrite H. reflexivity. Qed.

Lemma round_nonneg (x : Q) : 0 <= x -> (0 <= Math.round x)%Z.
Proof.
  intros Hx. unfold Math.round.
  change 0%Z with (Qfloor 0). apply Qfloor_resp_le.
  apply Qle_trans with x; [exact Hx|].
  rewrite <- (Qplus_0_r x) at 1. apply Qplus_le_compat; [apply Qle_refl|].
  unfold Qle; simpl; lia.
Qed.

Lemma round_mono (x y : Q) : x <= y -> (Math.round x <= Math.round y)%Z.
Proof.
  intros H. unfold Math.round. apply Qfloor_resp_le.
  apply Qplus_le_compat; [exact H|apply Qle_refl].
Qed.

Lemma or_else_pos (x : option Q) :
  (forall q, x = Some q -> 0 <= q) -> 0 < or_else x 1.
Proof.
  intros Hx. destruct x as [q|]; simpl; [|reflexivity].
  specialize (Hx q eq_refl). destruct (Qeq_bool q 0) eqn:E.
  - reflexivity.
  - apply Qeq_bool_neq in E.
    destruct (Qle_lt_or_eq _ _ Hx) as [H|H]; [exact H|].
    exfalso. apply E. symmetry. exact H.
Qed.

(** The percentage of the financial pressure grows with the debts. *)
Lemma ratio_mono (a b d : Q) :
  0 < d -> a <= b ->
  Double.mul (Double.div a d) 100 <= Double.mul (Double.div b d) 100.
Proof.
  intros Hd Hab. unfold Double.mul, Double.div.
  apply nearest_mono.
  apply Qmult_le_compat_r; [|unfold Qle; simpl; lia].
  apply nearest_mono.
  unfold Qdiv. apply Qmult_le_compat_r; [exact Hab|].
  apply Qinv_le_0_compat, Qlt_le_weak, Hd.
Qed.

Lemma ratio_nonneg (a d : Q) :
  0 < d -> 0 <= a -> 0 <= Double.mul (Double.div a d) 100.
Proof.
  intros Hd Ha. unfold Double.mul, Double.div.
  apply nearest_nonneg.
  apply Qmult_le_0_compat; [|unfold Qle; simpl; lia].
  apply nearest_nonneg.
  unfold Qdiv. apply Qmult_le_0_compat; [exact Ha|].
  apply Qinv_le_0_compat, Qlt_le_weak, Hd.
Qed.

(** C4, as the code has it.  For every most recent finance log the
    financial pressure is [min(100, round(debts / d * 100))], the
    quotient and the product each rounded to a double, where the
    denominator [d] is the income, replaced by 1 when the income is zero
    or missing, and is never zero; the pressure is at most 100 and the
    finance score at least 0.  When the debts and the income are not
    negative the pressure lies between 0 and 100, is 100 as soon as the
    debts reach [d], and the finance score is 100 minus the pressure.
    This is the [max(income, 1)] formula whenever the income is zero or
    at least 1.  An income of 0, or none, with debts of 500 gives
    pressure 100 and score 0. *)
Theorem financial_pressure_guards_zero_income :
  forall (b : list Types.BodyLog.t) (m : list Types.MindLog.t)
         (latestFinance : Types.FinanceLog.t)
         (rest : list Types.FinanceLog.t)
         (d : list Types.DisciplineDay.t),
    let data :=
      {| Types.body := b; Types.mind := m;
         Types.finance := latestFinance :: rest; Types.discipline := d |} in
    let income := Types.FinanceLog.income latestFinance in
    let debts := Types.FinanceLog.debts latestFinance in
    let divisor :=
      match income with
      | Some i => if Qeq_bool i 0 then 1 else i
      | None => 1
      end in
    ~ divisor == 0
    /\ App.financialPressure data
       = Z.min 100 (Math.round (Double.mul (Double.div debts divisor) 100))
    /\ (App.financialPressure data <= 100)%Z
    /\ (0 <= App.financeScore data)%Z
    /\ (0 <= debts ->
        (forall i, income = Some i -> 0 <= i) ->
        (0 <= App.financialPressure data <= 100)%Z
        /\ (divisor <= debts -> App.financialPressure data = 100%Z)
        /\ App.financeScore data = (100 - App.financialPressure data)%Z)
    /\ (forall i,
          income = Some i ->
          i == 0 \/ 1 <= i ->
          App.financialPressure data = Spec.financial_pressure debts i)
    /\ (income = None \/ (exists i, income = Some i /\ i == 0) ->
        debts == 500 ->
        App.financialPressure data = 100%Z /\ App.financeScore data = 0%Z).
Proof.
  intros b m latestFinance rest d data income debts divisor.
  assert (divisor = or_else income 1) as Hdiv by reflexivity.
  assert (App.financialPressure data
          = Z.min 100
              (Math.round (Double.mul (Double.div debts divisor) 100)))
    as Hp by reflexivity.
  assert (App.financialPressure data <= 100)%Z as Hle
      by (rewrite Hp; apply Z.le_min_l).
  split; [rewrite Hdiv; apply or_else_never_zero|].
  split; [exact Hp|]. split; [exact Hle|].
  split; [apply sub_nonneg, Hle|].
  split; [|split].
  - intros Hd Hi.
    assert (0 < divisor) as Hpos by (rewrite Hdiv; apply or_else_pos, Hi).
    assert (0 <= Double.mul (Double.div debts divisor) 100) as Hnn
        by (apply ratio_nonneg; assumption).
    assert (0 <= App.financialPressure data <= 100)%Z as Hrange.
    { split; [|exact Hle]. rewrite Hp.
      apply Z.min_glb; [lia|]. apply round_nonneg, Hnn. }
    split; [exact Hrange|]. split; [|apply sub_whole, Hrange].
    intros Hge. rewrite Hp. apply Z.min_l.
    apply Z.le_trans
      with (Math.round (Double.mul (Double.div divisor divisor) 100));
      [|apply round_mono, ratio_mono; assumption].
    rewrite (round_comp (Double.mul (Double.div divisor divisor) 100)
                        (Double.mul (Double.div 1 1) 100)).
    + vm_compute. discriminate.
    + apply mul_comp; [|reflexivity]. apply nearest_comp.
      field. intros H. rewrite H in Hpos. exact (Qlt_irrefl _ Hpos).
  - intros i Hinc Hcase. rewrite Hp. unfold Spec.financial_pressure.
    replace (if Qle_bool 1 i then i else 1) with divisor; [reflexivity|].
    rewrite Hdiv, Hinc. simpl. destruct Hcase as [Hz|Hge].
    + rewrite (Qeq_eq_bool _ _ Hz).
      destruct (Qle_bool 1 i) eqn:E; [|reflexivity].
      apply Qle_bool_iff in E. rewrite Hz in E.
      exfalso. revert E. apply Qlt_not_le. reflexivity.
    + apply Qle_bool_iff in Hge as Hb. rewrite Hb.
      destruct (Qeq_bool i 0) eqn:E; [|reflexivity].
      apply Qeq_bool_eq in E. rewrite E in Hge.
      exfalso. revert Hge. apply Qlt_not_le. reflexivity.
  - intros Hz Hdebts.
    assert (divisor = 1) as H1.
    { rewrite Hdiv. destruct Hz as [Hz|[i [Hi Hz]]]; rewrite ?Hz, ?Hi.
      - reflexivity.
      - apply or_else_zero, Hz. }
    assert (App.financialPressure data = 100%Z) as H100.
    { rewrite Hp, H1.
      rewrite (round_comp (Double.mul (Double.div debts 1) 100)
                          (Double.mul (Double.div 500 1) 100)).
      - vm_compute. reflexivity.
      - apply mul_comp; [|reflexivity].
        apply div_comp; [exact Hdebts|reflexivity]. }
    split; [exact H100|]. unfold App.financeScore. rewrite H100.
    vm_compute. reflexivity.
Qed.

(** C4 fails as stated: with an income of 0.5 and debts of 0.25 the view
    computes a pressure of 50, the [max(income, 1)] formula 25. *)
Lemma financial_pressure_small_income :
  App.financialPressure Examples.small_income = 50%Z
  /\ Spec.financial_pressure 0.25 0.5 = 25%Z
  /\ App.financialPressure Examples.small_income
     <> Spec.financial_pressure 0.25 0.5.
Proof. vm_compute. repeat split. discriminate. Qed.

(** The rounding shows at small integers: debts of 23 on an income of 40
    give 57, where the exact quotient 57.5 would round to 58. *)
Lemma financial_pressure_is_rounded :
  App.financialPressure
    {| Types.body := []; Types.mind := [];
       Types.finance :=
         [ Types.FinanceLog.Make 1 "2024-01-01" (Some 40) 0 23 0 ];
       Types.discipline := [] |} = 57%Z
  /\ Math.round (23 / 40 * 100) = 58%Z.
Proof. vm_compute. split; reflexivity. Qed.

(** A log without income: the guard divides by 1. *)
Lemma financial_pressure_witness :
  App.financialPressure
    {| Types.body := []; Types.mind := [];
       Types.finance := [ Types.FinanceLog.Make 1 "2024-01-01" None 0 500 0 ];
       Types.discipline := [] |} = 100%Z
  /\ App.financeScore
       {| Types.body := []; Types.mind := [];
          Types.finance :=
            [ Types.FinanceLog.Make 1 "2024-01-01" None 0 500 0 ];
          Types.discipline := [] |} = 0%Z
  /\ (0 <= App.financialPressure
             {| Types.body := []; Types.mind := [];
                Types.finance :=
                  [ Types.FinanceLog.Make 1 "2024-01-01" None 0 500 0 ];
                Types.discipline := [] |} <= 100)%Z.
Proof.
  assert (0 <= 500) as Hd by discriminate.
  assert (forall i : Q, @None Q = Some i -> 0 <= i) as Hi
      by (intros i H; discriminate H).
  destruct (financial_pressure_guards_zero_income [] []
              (Types.FinanceLog.Make 1 "2024-01-01" None 0 500 0) [] [])
    as [_ [_ [_ [_ [Hrange [_ Hex]]]]]].
  destruct (Hex (or_introl eq_refl) (Qeq_refl 500)) as [H100 H0].
  destruct (Hrange Hd Hi) as [Hr _].
  exact (conj H100 (conj H0 Hr)).
Defined.

(** C7.  With at least one per-date aggregate, the discipline score is
    [min(100, round(total_minutes / 2.4))] of the first, most recent one:
    240 minutes give 100, 120 give 50 and 0 gives 0.  With no discipline
    data the score is 0. *)
Theorem discipline_score_formula :
  forall (b : list Types.BodyLog.t) (m : list Types.MindLog.t)
         (f : list Types.FinanceLog.t)
         (latest : Types.DisciplineDay.t)
         (rest : list Types.DisciplineDay.t),
    let data :=
      {| Types.body := b; Types.mind := m; Types.finance := f;
         Types.discipline := latest :: rest |} in
    let total_minutes := Types.DisciplineDay.total_minutes latest in
    App.disciplineScore data = Spec.discipline_score total_minutes
    /\ (total_minutes == 240 -> App.disciplineScore data = 100%Z)
    /\ (total_minutes == 120 -> App.disciplineScore data = 50%Z)
    /\ (total_minutes == 0 -> App.disciplineScore data = 0%Z)
    /\ App.disciplineScore
         {| Types.body := b; Types.mind := m; Types.finance := f;
            Types.discipline := [] |} = 0%Z.
Proof.
  intros b m f latest rest data total_minutes.
  unfold App.disciplineScore, Spec.discipline_score, Math.min. simpl.
  fold total_minutes.
  split; [reflexivity|].
  split; [|split; [|split; [|reflexivity]]]; intros H.
  - rewrite (round_comp _ (Double.div 240 (Double.nearest 2.4)))
      by (apply div_comp; [exact H|reflexivity]).
    vm_compute. reflexivity.
  - rewrite (round_comp _ (Double.div 120 (Double.nearest 2.4)))
      by (apply div_comp; [exact H|reflexivity]).
    vm_compute. reflexivity.
  - rewrite (round_comp _ (Double.div 0 (Double.nearest 2.4)))
      by (apply div_comp; [exact H|reflexivity]).
    vm_compute. reflexivity.
Qed.

Lemma discipline_score_witness :
  App.disciplineScore
    {| Types.body := []; Types.mind := []; Types.finance := [];
       Types.discipline :=
         [ Types.DisciplineDay.Make "2024-01-02" 120 3;
           Types.DisciplineDay.Make "2024-01-01" 240 4 ] |} = 50%Z.
Proof.
  destruct (discipline_score_formula [] [] []
              (Types.DisciplineDay.Make "2024-01-02" 120 3)
              [ Types.DisciplineDay.Make "2024-01-01" 240 4 ])
    as [_ [_ [H _]]].
  apply H. vm_compute. reflexivity.
Defined.

(** ** The empty state *)

Lemma hasData_false (data : Types.DashboardData) :
  App.hasData data = false
  <-> Types.body data = [] /\ Types.mind data = []
      /\ Types.finance data = [] /\ Types.discipline data = [].
Proof.
  unfold App.hasData. rewrite !orb_false_iff.
  destruct data as [b m f d]; simpl.
  destruct b, m, f, d; simpl; split; intros H; try reflexivity;
    repeat match goal with
           | H : _ /\ _ |- _ => destruct H
           end; try discriminate; repeat split; reflexivity.
Qed.

Lemma DashboardView_with_data
      (calculateScore : Q -> Q)
      (getCorrelation : list Q -> list Q -> option Q)
      (data : Types.DashboardData) :
  App.hasData data = true ->
  App.DashboardView calculateScore getCorrelation (Some data)
  = App.Dashboard
      {| App.overall := App.overallScore calculateScore data;
         App.body_score := App.bodyScore calculateScore data;
         App.mind_score := App.mindScore calculateScore data;
         App.finance_score := App.financeScore data;
         App.discipline_score := App.disciplineScore data |}
      (App.insights getCorrelation data).
Proof.
  intros H. unfold App.DashboardView. rewrite H. reflexivity.
Qed.

(** C6.  With no log in any of the four domains the view is the "no
    data" placeholder, not a dashboard with scores; and the placeholder is
    shown in that case only, so a dashboard whose scores are all zero is
    told apart from it. *)
Theorem no_data_shows_placeholder :
  forall (calculateScore : Q -> Q)
         (getCorrelation : list Q -> list Q -> option Q),
    App.DashboardView calculateScore getCorrelation
      (Some {| Types.body := []; Types.mind := []; Types.finance := [];
               Types.discipline := [] |}) = App.NoData
    /\ (forall data,
          App.DashboardView calculateScore getCorrelation (Some data)
          = App.NoData
          <-> Types.body data = [] /\ Types.mind data = []
              /\ Types.finance data = [] /\ Types.discipline data = [])
    /\ (forall data,
          App.hasData data = true ->
          App.DashboardView calculateScore getCorrelation (Some data)
          = App.Dashboard
              {| App.overall := App.overallScore calculateScore data;
                 App.body_score := App.bodyScore calculateScore data;
                 App.mind_score := App.mindScore calculateScore data;
                 App.finance_score := App.financeScore data;
                 App.discipline_score := App.disciplineScore data |}
              (App.insights getCorrelation data)).
Proof.
  intros calculateScore getCorrelation.
  split; [reflexivity|]. split.
  - intros data. rewrite <- hasData_false. unfold App.DashboardView.
    destruct (App.hasData data); simpl; split; intros H;
      try reflexivity; discriminate.
  - intros data H. apply DashboardView_with_data, H.
Qed.

Lemma no_data_witness :
  App.DashboardView (fun x => x) (fun _ _ => None)
    (Some Examples.small_income)
  = App.Dashboard
      {| App.overall := 13; App.body_score := 0; App.mind_score := 0;
         App.finance_score := 50; App.discipline_score := 0 |} [].
Proof.
  destruct (no_data_shows_placeholder (fun x => x) (fun _ _ => None))
    as [_ [_ H]].
  apply (H Examples.small_income). reflexivity.
Defined.

(** ** Insights *)

Lemma sleep_focus_title (corr : option Q) :
  App.sleepFocusInsight corr <> App.debtAnxietyInsight.
Proof.
  intros H. apply (f_equal App.title) in H. discriminate H.
Qed.




Lemma sleepFocusRule_needs_discipline
      (getCorrelation : list Q -> list Q -> option Q)
      (data : Types.DashboardData) :
  (List.length (Types.discipline data) <= 5)%nat ->
  App.sleepFocusRule getCorrelation data = [].
Proof.
  intros Hd. unfold App.sleepFocusRule.
  apply Nat.ltb_ge in Hd. rewrite Hd, andb_false_r. reflexivity.
Qed.



(** C1 at its end-to-end case: six days of body logs with rising hours of
    sleep and six mind logs with rising focus, nothing else logged.  The
    first rule yields no insight, whatever the correlation function
    returns, because it is gated on the length of the discipline window;
    the dashboard is rendered with an empty insight list. *)
Theorem sleep_focus_silent_without_discipline :
  forall (calculateScore : Q -> Q)
         (getCorrelation : list Q -> list Q -> option Q),
    (5 < List.length (Types.body Examples.six_days))%nat
    /\ (5 < List.length (Types.mind Examples.six_days))%nat
    /\ App.sleepFocusRule getCorrelation Examples.six_days = []
    /\ App.insights getCorrelation Examples.six_days = []
    /\ exists scores,
        App.DashboardView calculateScore getCorrelation
          (Some Examples.six_days)
        = App.Dashboard scores [].
Proof.
  intros calculateScore getCorrelation.
  split; [simpl; lia|]. split; [simpl; lia|].
  split; [reflexivity|]. split; [reflexivity|].
  eexists. reflexivity.
Qed.

(** ** The correlation engine *)

Module CorrelationFacts.

Import Reals Lra Qreals Utils.
Local Open Scope R_scope.

(** One more pair keeps the inequality. *)
Lemma cauchy_schwarz_step (A B C s t : R) :
  0 <= A -> 0 <= C -> B * B <= A * C ->
  (s * t + B) * (s * t + B) <= (s * s + A) * (t * t + C).
Proof.
  intros HA HC HB.
  assert (0 <= s * s) as Hs by (apply Rle_0_sqr).
  assert (0 <= t * t) as Ht by (apply Rle_0_sqr).
  assert (0 <= s * s * (t * t)) as Hst by (apply Rmult_le_pos; assumption).
  assert (B * B * (s * s * (t * t)) <= A * C * (s * s * (t * t))) as H1
      by (apply Rmult_le_compat_r; assumption).
  assert (0 <= (A * (t * t) - C * (s * s)) * (A * (t * t) - C * (s * s)))
    as H2 by (apply Rle_0_sqr).
  assert (0 <= A * (t * t)) as H3 by (apply Rmult_le_pos; assumption).
  assert (0 <= C * (s * s)) as H3' by (apply Rmult_le_pos; assumption).
  assert (2 * B * (s * t) <= A * (t * t) + C * (s * s)) as H.
  { destruct (Rle_dec (2 * B * (s * t)) (A * (t * t) + C * (s * s)))
      as [Hle|Hgt]; [exact Hle|].
    apply Rnot_le_lt in Hgt. exfalso.
    assert ((A * (t * t) + C * (s * s)) * (A * (t * t) + C * (s * s))
            < (2 * B * (s * t)) * (2 * B * (s * t))) as H4
        by (apply Rmult_le_0_lt_compat; lra).
    replace ((2 * B * (s * t)) * (2 * B * (s * t)))
      with (4 * (B * B * (s * s * (t * t)))) in H4 by ring.
    replace ((A * (t * t) + C * (s * s)) * (A * (t * t) + C * (s * s)))
      with ((A * (t * t) - C * (s * s)) * (A * (t * t) - C * (s * s))
            + 4 * (A * C * (s * s * (t * t)))) in H4 by ring.
    lra. }
  replace ((s * t + B) * (s * t + B))
    with (s * s * (t * t) + 2 * B * (s * t) + B * B) by ring.
  replace ((s * s + A) * (t * t + C))
    with (s * s * (t * t) + (A * (t * t) + C * (s * s)) + A * C) by ring.
  lra.
Qed.

(** Cauchy-Schwarz for the deviations of paired values from two fixed
    centres. *)
Lemma cauchy_schwarz (l : list (R * R)) (u v : R) :
  0 <= sum (map (fun p => (fst p - u) * (fst p - u)) l)
  /\ 0 <= sum (map (fun p => (snd p - v) * (snd p - v)) l)
  /\ sum (map (fun p => (fst p - u) * (snd p - v)) l)
     * sum (map (fun p => (fst p - u) * (snd p - v)) l)
     <= sum (map (fun p => (fst p - u) * (fst p - u)) l)
        * sum (map (fun p => (snd p - v) * (snd p - v)) l).
Proof.
  induction l as [|[x y] l IH]; simpl.
  - lra.
  - destruct IH as [HA [HC HB]].
    split; [|split].
    + apply Rplus_le_le_0_compat; [apply Rle_0_sqr|exact HA].
    + apply Rplus_le_le_0_compat; [apply Rle_0_sqr|exact HC].
    + apply cauchy_schwarz_step; assumption.
Qed.

Lemma map_combine_fst (h : R -> R) (a b : list R) :
  List.length a = List.length b ->
  map (fun p => h (fst p)) (combine a b) = map h a.
Proof.
  revert b. induction a as [|x a IH]; intros [|y b]; simpl; try discriminate.
  - reflexivity.
  - intros H. injection H as H. rewrite (IH b H). reflexivity.
Qed.

Lemma map_combine_snd (h : R -> R) (a b : list R) :
  List.length a = List.length b ->
  map (fun p => h (snd p)) (combine a b) = map h b.
Proof.
  revert b. induction a as [|x a IH]; intros [|y b]; simpl; try discriminate.
  - reflexivity.
  - intros H. injection H as H. rewrite (IH b H). reflexivity.
Qed.

Lemma map_combine_self (h : R -> R -> R) (a : list R) :
  map (fun p => h (fst p) (snd p)) (combine a a) = map (fun x => h x x) a.
Proof.
  induction a as [|x a IH]; simpl; [reflexivity|]. rewrite IH. reflexivity.
Qed.

Lemma variance_sum (a : list R) :
  variance a
  = sum (map (fun x => (x - mean a) * (x - mean a)) a) / INR (List.length a).
Proof.
  unfold variance, covariance, deviations.
  rewrite (map_combine_self (fun x y => (x - mean a) * (y - mean a))).
  reflexivity.
Qed.

(** The covariance is bounded by the two variances. *)
Lemma covariance_bound (a b : list R) :
  List.length a = List.length b ->
  0 <= variance a /\ 0 <= variance b
  /\ covariance a b * covariance a b <= variance a * variance b.
Proof.
  intros Hlen.
  destruct (cauchy_schwarz (combine a b) (mean a) (mean b)) as [HA [HB HC]].
  rewrite (map_combine_fst (fun x => (x - mean a) * (x - mean a)) a b Hlen)
    in HA, HC.
  rewrite (map_combine_snd (fun y => (y - mean b) * (y - mean b)) a b Hlen)
    in HB, HC.
  rewrite !variance_sum. unfold covariance, deviations.
  rewrite <- Hlen.
  set (n := INR (List.length a)).
  assert (0 <= / n) as Hn.
  { destruct (List.length a) eqn:E.
    - unfold n; simpl. rewrite Rinv_0. lra.
    - left. apply Rinv_0_lt_compat. unfold n. apply lt_0_INR.
      apply Nat.lt_0_succ. }
  unfold Rdiv.
  split; [apply Rmult_le_pos; assumption|].
  split; [apply Rmult_le_pos; assumption|].
  set (SAB := sum (map (fun p => (fst p - mean a) * (snd p - mean b))
                      (combine a b))) in *.
  set (SA := sum (map (fun x => (x - mean a) * (x - mean a)) a)) in *.
  set (SB := sum (map (fun y => (y - mean b) * (y - mean b)) b)) in *.
  replace (SAB * / n * (SAB * / n)) with (SAB * SAB * (/ n * / n)) by ring.
  replace (SA * / n * (SB * / n)) with (SA * SB * (/ n * / n)) by ring.
  apply Rmult_le_compat_r; [apply Rmult_le_pos; assumption|exact HC].
Qed.

Lemma pearson_some (a b : list R) (r : R) :
  pearson a b = Some r ->
  variance a <> 0 /\ variance b <> 0
  /\ r = covariance a b / (stdev a * stdev b).
Proof.
  unfold pearson.
  destruct (Req_dec_T (variance a) 0) as [|Ha]; [discriminate|].
  destruct (Req_dec_T (variance b) 0) as [|Hb]; [discriminate|].
  intros H; injection H as <-. auto.
Qed.

Lemma pearson_range (a b : list R) (r : R) :
  List.length a = List.length b ->
  pearson a b = Some r -> -1 <= r <= 1 /\ 0 < stdev a * stdev b.
Proof.
  intros Hlen Hp.
  destruct (pearson_some a b r Hp) as [Ha [Hb ->]].
  destruct (covariance_bound a b Hlen) as [HA [HB HC]].
  assert (0 < stdev a) as Hsa by (apply sqrt_lt_R0; lra).
  assert (0 < stdev b) as Hsb by (apply sqrt_lt_R0; lra).
  assert (0 < stdev a * stdev b) as HD
      by (apply Rmult_lt_0_compat; assumption).
  assert (Rabs (covariance a b) <= stdev a * stdev b) as Habs.
  { unfold stdev. rewrite <- sqrt_mult by assumption.
    rewrite <- sqrt_Rsqr_abs. apply sqrt_le_1_alt. unfold Rsqr. exact HC. }
  split; [|exact HD].
  pose proof (Rle_abs (covariance a b)) as Hhi.
  pose proof (Rle_abs (- covariance a b)) as Hlo.
  rewrite Rabs_Ropp in Hlo.
  split.
  - apply Rmult_le_reg_r with (stdev a * stdev b); [exact HD|].
    unfold Rdiv. rewrite Rmult_assoc, Rinv_l by lra. lra.
  - apply Rmult_le_reg_r with (stdev a * stdev b); [exact HD|].
    unfold Rdiv. rewrite Rmult_assoc, Rinv_l by lra. lra.
Qed.

Lemma variance_1_2_3 : variance [1; 2; 3] = 2 / 3.
Proof. rewrite variance_sum. unfold mean. simpl. field. Qed.

Lemma variance_3_2_1 : variance [3; 2; 1] = 2 / 3.
Proof. rewrite variance_sum. unfold mean. simpl. field. Qed.

Lemma variance_1_1_1 : variance [1; 1; 1] = 0.
Proof. rewrite variance_sum. unfold mean. simpl. field. Qed.

Lemma covariance_reversed : covariance [1; 2; 3] [3; 2; 1] = - (2 / 3).
Proof. unfold covariance, deviations, mean. simpl. field. Qed.

(** Two series of one and the same positive variance. *)
Lemma pearson_equal_variance (a b : list R) (v c : R) :
  variance a = v -> variance b = v -> covariance a b = c -> 0 < v ->
  pearson a b = Some (c / v).
Proof.
  intros Ha Hb Hc Hv. unfold pearson, stdev.
  rewrite Ha, Hb, Hc.
  destruct (Req_dec_T v 0) as [|_]; [lra|].
  rewrite sqrt_sqrt by lra. reflexivity.
Qed.

Lemma pearson_zero_variance (a b : list R) :
  variance a = 0 \/ variance b = 0 -> pearson a b = None.
Proof.
  intros H. unfold pearson.
  destruct (Req_dec_T (variance a) 0) as [|Ha]; [reflexivity|].
  destruct (Req_dec_T (variance b) 0) as [|Hb]; [reflexivity|].
  destruct H; contradiction.
Qed.

(** The six-day sample, read as real series: by the formula its hours of
    sleep and its focus correlate at more than 0.4 (at about 0.99). *)
Lemma six_days_series :
  map Q2R (map Types.BodyLog.sleep_hours (Types.body Examples.six_days))
  = [9; 17 / 2; 8; 7; 6; 5]
  /\ map Q2R (map Types.MindLog.focus (Types.mind Examples.six_days))
     = [5; 5; 4; 3; 2; 1].
Proof.
  split; simpl; unfold Q2R; simpl; repeat (f_equal; try field).
Qed.

Lemma six_days_correlate :
  exists r,
    pearson
      (map Q2R (map Types.BodyLog.sleep_hours (Types.body Examples.six_days)))
      (map Q2R (map Types.MindLog.focus (Types.mind Examples.six_days)))
    = Some r
    /\ 0.4 < r.
Proof.
  destruct six_days_series as [-> ->].
  assert (variance [9; 17 / 2; 8; 7; 6; 5] = 95 / 48) as Ha
      by (rewrite variance_sum; unfold mean; simpl; field).
  assert (variance [5; 5; 4; 3; 2; 1] = 20 / 9) as Hb
      by (rewrite variance_sum; unfold mean; simpl; field).
  assert (covariance [9; 17 / 2; 8; 7; 6; 5] [5; 5; 4; 3; 2; 1] = 25 / 12)
    as Hc by (unfold covariance, deviations, mean; simpl; field).
  unfold pearson, stdev. rewrite Ha, Hb, Hc.
  destruct (Req_dec_T (95 / 48) 0) as [|_]; [lra|].
  destruct (Req_dec_T (20 / 9) 0) as [|_]; [lra|].
  eexists. split; [reflexivity|].
  rewrite <- sqrt_mult by lra.
  assert (0 < sqrt (95 / 48 * (20 / 9))) as Hpos by (apply sqrt_lt_R0; lra).
  assert (sqrt (95 / 48 * (20 / 9)) < 21 / 10) as Hlt.
  { rewrite <- (sqrt_square (21 / 10)) by lra.
    apply sqrt_lt_1_alt. lra. }
  set (D := sqrt (95 / 48 * (20 / 9))) in *.
  apply Rmult_lt_reg_r with D; [exact Hpos|].
  replace (25 / 12 / D * D) with (25 / 12) by (field; lra).
  lra.
Qed.

(** C8.  For two series of equal length, [pearson] is undefined or a
    value between -1 and 1, and in the latter case the divisor
    [stdev(A) * stdev(B)] is positive.  It is 1 for [1,2,3] with
    [1,2,3], -1 for [1,2,3] with [3,2,1], and undefined as soon as one of
    the series has zero variance, as [1,1,1] has. *)
Theorem pearson_in_range_or_undefined :
  (forall a b r,
      List.length a = List.length b ->
      pearson a b = Some r -> -1 <= r <= 1 /\ 0 < stdev a * stdev b)
  /\ pearson [1; 2; 3] [1; 2; 3] = Some 1
  /\ pearson [1; 2; 3] [3; 2; 1] = Some (-1)
  /\ (forall a b, variance a = 0 \/ variance b = 0 -> pearson a b = None)
  /\ pearson [1; 1; 1] [1; 2; 3] = None.
Proof.
  split; [exact pearson_range|]. split; [|split; [|split]].
  - rewrite (pearson_equal_variance _ _ (2 / 3) (2 / 3)
               variance_1_2_3 variance_1_2_3 variance_1_2_3) by lra.
    f_equal. field.
  - rewrite (pearson_equal_variance _ _ (2 / 3) (- (2 / 3))
               variance_1_2_3 variance_3_2_1 covariance_reversed) by lra.
    f_equal. field.
  - exact pearson_zero_variance.
  - apply pearson_zero_variance. left. exact variance_1_1_1.
Qed.

Lemma pearson_in_range_witness :
  -1 <= 1 <= 1 /\ 0 < stdev [1; 2; 3] * stdev [1; 2; 3].
Proof.
  destruct pearson_in_range_or_undefined as [Hrange [Hone _]].
  apply (Hrange [1; 2; 3] [1; 2; 3] 1); [reflexivity|exact Hone].
Defined.

End CorrelationFacts.

(** * Further properties *)

(** ** What an upsert leaves alone *)

Section TableFrame.

Variables K F : Type.
Variable conflict : K -> K -> bool.

Hypothesis conflict_sym : forall a b, conflict a b = conflict b a.
Hypothesis conflict_trans :
  forall a b c, conflict a b = true -> conflict b c = true ->
                conflict a c = true.

(** The rows another key selects are not touched. *)
Lemma select_upsert_rows_other (k k' : K) (f : F) (fresh : Z)
      (rs : list (Sql.row K F)) :
  conflict k k' = false ->
  filter (fun r => conflict (Sql.key r) k')
         (Sql.upsert_rows conflict k f fresh rs)
  = filter (fun r => conflict (Sql.key r) k') rs.
Proof.
  intros Hkk'.
  induction rs as [|x rest IH]; simpl.
  - rewrite Hkk'. reflexivity.
  - destruct (conflict (Sql.key x) k) eqn:Hxk; simpl.
    + destruct (conflict (Sql.key x) k') eqn:Hxk'; [|reflexivity].
      assert (conflict k k' = true) as Habs.
      { apply conflict_trans with (Sql.key x); [|exact Hxk'].
        rewrite conflict_sym. exact Hxk. }
      rewrite Habs in Hkk'. discriminate.
    + rewrite IH. reflexivity.
Qed.

(** Under the UNIQUE constraint a key selects at most one row. *)
Lemma select_at_most_one (k : K) (rs : list (Sql.row K F)) :
  Sql.unique_keys conflict rs = true ->
  (List.length (filter (fun r => conflict (Sql.key r) k) rs) <= 1)%nat.
Proof.
  induction rs as [|x rest IH]; simpl; intros Huniq; [lia|].
  apply andb_true_iff in Huniq as [Hx Hrest].
  destruct (conflict (Sql.key x) k) eqn:Hxk; simpl.
  - rewrite (filter_nil_of_unique K F conflict conflict_sym conflict_trans
               k x rest Hx Hxk). simpl. lia.
  - apply IH, Hrest.
Qed.

(** No row is ever removed: each row keeps its place, id and key. *)
Lemma upsert_rows_keeps (k : K) (f : F) (fresh : Z)
      (rs : list (Sql.row K F)) :
  map (fun r => (Sql.id r, Sql.key r))
      (firstn (List.length rs) (Sql.upsert_rows conflict k f fresh rs))
  = map (fun r => (Sql.id r, Sql.key r)) rs.
Proof.
  induction rs as [|x rest IH]; simpl; [reflexivity|].
  destruct (conflict (Sql.key x) k); simpl.
  - rewrite firstn_all. reflexivity.
  - rewrite IH. reflexivity.
Qed.

(** A key that collides with nothing, itself included, appends. *)
Lemma upsert_rows_append (k : K) (f : F) (fresh : Z)
      (rs : list (Sql.row K F)) :
  (forall k', conflict k' k = false) ->
  Sql.upsert_rows conflict k f fresh rs = rs ++ [Sql.Row fresh k f].
Proof.
  intros Hk. induction rs as [|x rest IH]; simpl; [reflexivity|].
  rewrite Hk, IH. reflexivity.
Qed.

(** The table grows by one row or not at all. *)
Lemma upsert_rows_length (k : K) (f : F) (fresh : Z)
      (rs : list (Sql.row K F)) :
  List.length (Sql.upsert_rows conflict k f fresh rs)
  = if existsb (fun r => conflict (Sql.key r) k) rs
    then List.length rs else S (List.length rs).
Proof.
  induction rs as [|x rest IH]; simpl; [reflexivity|].
  destruct (conflict (Sql.key x) k); simpl; [reflexivity|].
  rewrite IH. destruct (existsb _ rest); reflexivity.
Qed.

End TableFrame.

(** ** Row ids *)

Section RowIds.

Context {sqlite : Sql.Engine}.

Lemma ids_upsert_rows (K F : Type) (conflict : K -> K -> bool) (k : K)
      (f : F) (fresh : Z) (rs : list (Sql.row K F)) :
  map Sql.id (Sql.upsert_rows conflict k f fresh rs)
  = if existsb (fun r => conflict (Sql.key r) k) rs
    then map Sql.id rs else map Sql.id rs ++ [fresh].
Proof.
  induction rs as [|x rest IH]; simpl; [reflexivity|].
  destruct (conflict (Sql.key x) k); simpl; [reflexivity|].
  rewrite IH. destruct (existsb _ rest); reflexivity.
Qed.

Lemma ids_ok_upsert (K F : Type) (conflict : K -> K -> bool) (k : K) (f : F)
      (t : Sql.table K F) :
  Inv.ids_ok t -> Inv.ids_ok (Sql.upsert conflict k f t).
Proof.
  intros [Hseq [Hall Hnd]]. unfold Inv.ids_ok, Sql.upsert. simpl.
  rewrite ids_upsert_rows.
  assert (forall r, In r (Sql.upsert_rows conflict k f (Sql.seq t + 1)
                            (Sql.rows t)) ->
                    In (Sql.id r) (map Sql.id (Sql.rows t))
                    \/ Sql.id r = (Sql.seq t + 1)%Z) as Hid.
  { intros r Hin. apply (in_map Sql.id) in Hin.
    rewrite ids_upsert_rows in Hin.
    destruct (existsb _ (Sql.rows t)); [left; exact Hin|].
    apply in_app_iff in Hin as [Hin|[<-|[]]]; [left; exact Hin|].
    right; reflexivity. }
  assert (forall i, In i (map Sql.id (Sql.rows t)) ->
                    (0 < i <= Sql.seq t)%Z) as Hold.
  { intros i Hi. apply in_map_iff in Hi as [r [<- Hr]].
    rewrite Forall_forall in Hall. apply Hall, Hr. }
  destruct (existsb _ (Sql.rows t)) eqn:E.
  - split; [lia|]. split; [|exact Hnd].
    apply Forall_forall. intros r Hin.
    apply (in_map Sql.id) in Hin. rewrite ids_upsert_rows, E in Hin.
    apply Hold in Hin. lia.
  - split; [lia|]. split.
    + apply Forall_forall. intros r Hin.
      destruct (Hid r Hin) as [Hi|Hi]; [apply Hold in Hi; lia|lia].
    + apply NoDup_app; [exact Hnd|repeat constructor; intros []|].
      intros i Hi [<-|[]]. apply Hold in Hi. lia.
Qed.

Lemma all_ids_ok_handle (rq : Server.Request) (db : Server.Db) :
  Inv.all_ids_ok db -> Inv.all_ids_ok (snd (Server.handle rq db)).
Proof.
  intros [Hb [Hm [Hf [Hp Hd]]]]. unfold Inv.all_ids_ok.
  destruct rq as [r|r|r|now r|r]; simpl.
  - unfold Server.post_body.
    destruct (Server.body_params r) as [[d c]|]; simpl;
      auto using ids_ok_upsert.
  - unfold Server.post_mind.
    destruct (Server.mind_params r) as [[d c]|]; simpl;
      auto 6 using ids_ok_upsert.
  - unfold Server.post_finance.
    destruct (Server.finance_params r) as [[d c]|]; simpl;
      auto 6 using ids_ok_upsert.
  - unfold Server.post_projects.
    destruct (Server.project_params now r) as [c|]; simpl;
      auto 7 using ids_ok_upsert.
  - unfold Server.post_discipline.
    destruct (Server.discipline_params r) as [[k c]|]; simpl;
      auto 8 using ids_ok_upsert.
Qed.

Lemma all_ids_ok_serve (history : list Server.Request) (db : Server.Db) :
  Inv.all_ids_ok db -> Inv.all_ids_ok (Server.serve history db).
Proof.
  revert db. unfold Server.serve.
  induction history as [|rq rest IH]; simpl; intros db Hdb; [exact Hdb|].
  apply IH, all_ids_ok_handle, Hdb.
Qed.

Lemma ids_ok_empty (K F : Type) : Inv.ids_ok (@Sql.empty K F).
Proof.
  unfold Inv.ids_ok. simpl. split; [lia|]. split; constructor.
Qed.

Lemma all_ids_ok_reachable (history : list Server.Request) :
  Inv.all_ids_ok (Server.serve history Server.empty_db).
Proof.
  apply all_ids_ok_serve.
  unfold Inv.all_ids_ok, Server.empty_db. simpl.
  repeat split; try apply ids_ok_empty; try constructor; simpl; lia.
Qed.

(** X1.  In the store reached by any history of requests, the ids of each
    table are positive, pairwise distinct and never above the last id the
    table handed out. *)
Theorem ids_are_fresh :
  forall history : list Server.Request,
    Inv.all_ids_ok (Server.serve history Server.empty_db).
Proof.
  intros history. unfold Inv.all_ids_ok, Inv.ids_ok.
  apply all_ids_ok_reachable.
Qed.

End RowIds.

(** ** One row per natural key *)

Section TwoWrites.

Variables K F : Type.
Variable conflict : K -> K -> bool.

Hypothesis conflict_sym : forall a b, conflict a b = conflict b a.
Hypothesis conflict_trans :
  forall a b c, conflict a b = true -> conflict b c = true ->
                conflict a c = true.

Lemma conflict_congr (k1 k2 x : K) :
  conflict k1 k2 = true -> conflict x k1 = conflict x k2.
Proof.
  intros H12.
  destruct (conflict x k1) eqn:H1, (conflict x k2) eqn:H2; try reflexivity.
  - rewrite (conflict_trans x k1 k2 H1 H12) in H2. discriminate.
  - rewrite conflict_sym in H12.
    rewrite (conflict_trans x k2 k1 H2 H12) in H1. discriminate.
Qed.

Lemma filter_conflict_congr (k1 k2 : K) (rs : list (Sql.row K F)) :
  conflict k1 k2 = true ->
  filter (fun r => conflict (Sql.key r) k1) rs
  = filter (fun r => conflict (Sql.key r) k2) rs.
Proof.
  intros H. apply filter_ext. intros r. apply conflict_congr, H.
Qed.

(** Two writes under colliding keys: one row, rewritten in place. *)
Lemma upsert_twice_same (t : Sql.table K F) (k1 k2 : K) (c1 c2 : F) :
  Sql.unique_keys conflict (Sql.rows t) = true ->
  conflict k1 k2 = true ->
  exists i k,
    Sql.select conflict k1 (Sql.upsert conflict k1 c1 t) = [Sql.Row i k c1]
    /\ Sql.select conflict k1
         (Sql.upsert conflict k2 c2 (Sql.upsert conflict k1 c1 t))
       = [Sql.Row i k c2]
    /\ conflict k k1 = true
    /\ List.length
         (Sql.rows (Sql.upsert conflict k2 c2 (Sql.upsert conflict k1 c1 t)))
       = List.length (Sql.rows (Sql.upsert conflict k1 c1 t)).
Proof.
  intros Huniq H12.
  assert (conflict k1 k1 = true) as H11.
  { apply conflict_trans with k2; [exact H12|].
    rewrite conflict_sym. exact H12. }
  destruct (select_upsert_rows K F conflict conflict_sym conflict_trans
              k1 c1 (Sql.seq t + 1) (Sql.rows t) Huniq H11)
    as [r [Hsel [Hcols Hkey]]].
  exists (Sql.id r), (Sql.key r). unfold Sql.select. simpl Sql.rows.
  rewrite Hsel.
  split; [destruct r; simpl in *; congruence|].
  rewrite (filter_conflict_congr k1 k2 _ H12).
  rewrite (filter_conflict_congr k1 k2
             (Sql.upsert_rows conflict k1 c1 (Sql.seq t + 1) (Sql.rows t))
             H12) in Hsel.
  destruct (select_upsert_rows_hit K F conflict k2 c2
              (Sql.seq (Sql.upsert conflict k1 c1 t) + 1) _ r Hsel)
    as [Hsel2 Hlen].
  split; [exact Hsel2|]. split; [exact Hkey|exact Hlen].
Qed.

(** Two writes under keys that do not collide: both rows are kept. *)
Lemma upsert_twice_other (t : Sql.table K F) (k1 k2 : K) (c1 c2 : F) :
  Sql.unique_keys conflict (Sql.rows t) = true ->
  conflict k1 k1 = true -> conflict k2 k2 = true ->
  conflict k1 k2 = false ->
  exists i1 k1' i2 k2',
    Sql.select conflict k1
      (Sql.upsert conflict k2 c2 (Sql.upsert conflict k1 c1 t))
    = [Sql.Row i1 k1' c1]
    /\ Sql.select conflict k2
         (Sql.upsert conflict k2 c2 (Sql.upsert conflict k1 c1 t))
       = [Sql.Row i2 k2' c2]
    /\ conflict k1' k1 = true /\ conflict k2' k2 = true.
Proof.
  intros Huniq H11 H22 H12.
  destruct (select_upsert_rows K F conflict conflict_sym conflict_trans
              k1 c1 (Sql.seq t + 1) (Sql.rows t) Huniq H11)
    as [r1 [Hsel1 [Hcols1 Hkey1]]].
  pose proof (unique_keys_upsert_rows K F conflict k1 c1 (Sql.seq t + 1)
                (Sql.rows t) Huniq) as Huniq1.
  change (Sql.upsert_rows conflict k1 c1 (Sql.seq t + 1) (Sql.rows t))
    with (Sql.rows (Sql.upsert conflict k1 c1 t)) in Hsel1, Huniq1.
  set (t1 := Sql.upsert conflict k1 c1 t) in *. clearbody t1.
  destruct (select_upsert_rows K F conflict conflict_sym conflict_trans
              k2 c2 (Sql.seq t1 + 1) (Sql.rows t1) Huniq1 H22)
    as [r2 [Hsel2 [Hcols2 Hkey2]]].
  exists (Sql.id r1), (Sql.key r1), (Sql.id r2), (Sql.key r2).
  unfold Sql.select, Sql.upsert. simpl Sql.rows.
  rewrite (select_upsert_rows_other K F conflict conflict_sym conflict_trans
             k2 k1) by (rewrite conflict_sym; exact H12).
  rewrite Hsel1, Hsel2.
  split; [destruct r1; simpl in *; congruence|].
  split; [destruct r2; simpl in *; congruence|].
  split; assumption.
Qed.

End TwoWrites.

Section OneRowPerKey.

Context {sqlite : Sql.Engine}.

Lemma eqb_self (k : Sql.val) : k <> Sql.Null -> Sql.eqb k k = true.
Proof.
  destruct k; simpl; intros H.
  - contradiction.
  - apply Qeq_bool_refl.
  - apply String.eqb_refl.
Qed.

(** X2.  Discipline logs are kept one per (date, project_id), the pair
    as the two columns keep it.  On the store reached by any history, two
    accepted writes whose dates and project ids are non-NULL leave, when
    both pairs collide, a single row that the second write rewrote in
    place; when they do not (another project on the same day, or another
    day), one row for each, the first with the values of the first write.
    On one date, a project id sent as a text that reads as a number
    collides with that number. *)
Theorem discipline_one_row_per_date_and_project :
  forall (history : list Server.Request)
         (r1 r2 : Server.DisciplineReq.t)
         (d1 p1 d2 p2 : Sql.val) (c1 c2 : Server.DisciplineCols.t),
    Server.discipline_params r1 = Some ((d1, p1), c1) ->
    Server.discipline_params r2 = Some ((d2, p2), c2) ->
    d1 <> Sql.Null -> p1 <> Sql.Null -> d2 <> Sql.Null -> p2 <> Sql.Null ->
    let db1 :=
      snd (Server.post_discipline r1
             (Server.serve history Server.empty_db)) in
    let db2 := snd (Server.post_discipline r2 db1) in
    (Sql.eqb2 (d1, p1) (d2, p2) = true ->
     exists i k,
       Sql.select Sql.eqb2 (d1, p1) (Server.discipline_logs db1)
       = [Sql.Row i k c1]
       /\ Sql.select Sql.eqb2 (d1, p1) (Server.discipline_logs db2)
          = [Sql.Row i k c2]
       /\ List.length (Sql.rows (Server.discipline_logs db2))
          = List.length (Sql.rows (Server.discipline_logs db1)))
    /\ (Sql.eqb2 (d1, p1) (d2, p2) = false ->
        exists i1 k1 i2 k2,
          Sql.select Sql.eqb2 (d1, p1) (Server.discipline_logs db2)
          = [Sql.Row i1 k1 c1]
          /\ Sql.select Sql.eqb2 (d2, p2) (Server.discipline_logs db2)
             = [Sql.Row i2 k2 c2])
    /\ (forall t s q,
          Server.DisciplineReq.date r1 = Js.Str t ->
          Server.DisciplineReq.date r2 = Js.Str t ->
          Server.DisciplineReq.project_id r1 = Js.Str s ->
          Server.DisciplineReq.project_id r2 = Js.Num q ->
          Sql.numeric s = Some q ->
          Sql.eqb2 (d1, p1) (d2, p2) = true).
Proof.
  intros history r1 r2 d1 p1 d2 p2 c1 c2 H1 H2 Hd1 Hp1 Hd2 Hp2 db1 db2.
  pose proof (well_keyed_reachable history) as Hwk.
  unfold Server.well_keyed in Hwk. rewrite !andb_true_iff in Hwk.
  destruct Hwk as [_ Hd].
  assert (forall t s q,
             Server.DisciplineReq.date r1 = Js.Str t ->
             Server.DisciplineReq.date r2 = Js.Str t ->
             Server.DisciplineReq.project_id r1 = Js.Str s ->
             Server.DisciplineReq.project_id r2 = Js.Num q ->
             Sql.numeric s = Some q ->
             Sql.eqb2 (d1, p1) (d2, p2) = true) as Hsame.
  { intros t s q Ht1 Ht2 Hs Hq Hnum.
    destruct (discipline_params_fields r1 _ _ H1) as [Ha [Hb _]].
    destruct (discipline_params_fields r2 _ _ H2) as [Ha' [Hb' _]].
    rewrite Ht1 in Ha. rewrite Ht2 in Ha'. rewrite Hs in Hb.
    rewrite Hq in Hb'. unfold Sql.keep in Ha, Ha', Hb, Hb'.
    simpl in Ha, Ha', Hb, Hb'. rewrite Hnum in Hb.
    injection Ha as <-. injection Ha' as <-.
    injection Hb as <-. injection Hb' as <-.
    unfold Sql.eqb2. simpl.
    rewrite String.eqb_refl, Qeq_bool_refl. reflexivity. }
  subst db2 db1. unfold Server.post_discipline.
  rewrite H1; simpl. rewrite H2; simpl.
  split; [|split; [|exact Hsame]]; intros Hk.
  - destruct (upsert_twice_same _ _ Sql.eqb2 eqb2_sym eqb2_trans
                (Server.discipline_logs
                   (Server.serve history Server.empty_db))
                (d1, p1) (d2, p2) c1 c2 Hd Hk)
      as [i [k [Ha [Hb [_ Hl]]]]].
    exists i, k. auto.
  - assert (Sql.eqb2 (d1, p1) (d1, p1) = true) as H11
        by (unfold Sql.eqb2; simpl; rewrite !eqb_self by assumption;
            reflexivity).
    assert (Sql.eqb2 (d2, p2) (d2, p2) = true) as H22
        by (unfold Sql.eqb2; simpl; rewrite !eqb_self by assumption;
            reflexivity).
    destruct (upsert_twice_other _ _ Sql.eqb2 eqb2_sym eqb2_trans
                (Server.discipline_logs
                   (Server.serve history Server.empty_db))
                (d1, p1) (d2, p2) c1 c2 Hd H11 H22 Hk)
      as [i1 [k1 [i2 [k2 [Ha [Hb _]]]]]].
    exists i1, k1, i2, k2. auto.
Qed.

End OneRowPerKey.

Lemma discipline_one_row_witness :
  exists i k,
    Sql.select Sql.eqb2 (Sql.Text "2024-01-01", Sql.Num 1)
      (Server.discipline_logs
         (snd (Server.post_discipline Samples.discipline_book
                 (snd (Server.post_discipline Samples.discipline_book_text
                         Server.empty_db)))))
    = [Sql.Row i k (Server.DisciplineCols.Make (Sql.Num 60) (Sql.Num 3))].
Proof.
  assert (Server.discipline_params Samples.discipline_book_text
          = Some ((Sql.Text "2024-01-01", Sql.Num 1),
                  Server.DisciplineCols.Make (Sql.Num 30) (Sql.Num 4)))
    as H1 by (vm_compute; reflexivity).
  assert (Sql.numeric "1" = Some 1) as Hnum by (vm_compute; reflexivity).
  destruct (discipline_one_row_per_date_and_project []
              Samples.discipline_book_text Samples.discipline_book
              (Sql.Text "2024-01-01") (Sql.Num 1)
              (Sql.Text "2024-01-01") (Sql.Num 1) _ _ H1 eq_refl)
    as [H [_ Hsame]]; try discriminate.
  destruct (H (Hsame "2024-01-01"%string "1"%string 1
                 eq_refl eq_refl eq_refl eq_refl Hnum))
    as [i [k [_ [H2 _]]]].
  exists i, k. exact H2.
Defined.

(** ** Rows stay *)

Section RowsStay.

Context {sqlite : Sql.Engine}.

Lemma upsert_rows_other_in (K F : Type) (conflict : K -> K -> bool) (k : K)
      (f : F) (fresh : Z) (rs : list (Sql.row K F)) (row : Sql.row K F) :
  In row rs -> conflict (Sql.key row) k = false ->
  In row (Sql.upsert_rows conflict k f fresh rs).
Proof.
  intros Hin Hk.
  induction rs as [|x rest IH]; simpl; [destruct Hin|].
  destruct Hin as [->|Hin].
  - rewrite Hk. left; reflexivity.
  - destruct (conflict (Sql.key x) k); right; [exact Hin|apply IH, Hin].
Qed.

Lemma prefix_compose (A B : Type) (f : A -> B) (l0 l1 l2 : list A) :
  map f (firstn (List.length l0) l1) = map f l0 ->
  map f (firstn (List.length l1) l2) = map f l1 ->
  map f (firstn (List.length l0) l2) = map f l0.
Proof.
  intros H01 H12.
  assert (List.length l0 <= List.length l1)%nat as Hle.
  { apply (f_equal (@List.length B)) in H01.
    rewrite !length_map, length_firstn in H01. lia. }
  assert (firstn (List.length l0) l2
          = firstn (List.length l0) (firstn (List.length l1) l2)) as ->
      by (rewrite firstn_firstn, Nat.min_l by exact Hle; reflexivity).
  rewrite <- firstn_map, H12, firstn_map. exact H01.
Qed.

Lemma rows_kept_handle (rq : Server.Request) (db : Server.Db) :
  let db' := snd (Server.handle rq db) in
  map Inv.id_key (firstn (List.length (Sql.rows (Server.body_logs db)))
                 (Sql.rows (Server.body_logs db')))
  = map Inv.id_key (Sql.rows (Server.body_logs db))
  /\ map Inv.id_key (firstn (List.length (Sql.rows (Server.mind_logs db)))
                    (Sql.rows (Server.mind_logs db')))
     = map Inv.id_key (Sql.rows (Server.mind_logs db))
  /\ map Inv.id_key (firstn (List.length (Sql.rows (Server.finance_logs db)))
                    (Sql.rows (Server.finance_logs db')))
     = map Inv.id_key (Sql.rows (Server.finance_logs db))
  /\ map Inv.id_key (firstn (List.length (Sql.rows (Server.projects db)))
                    (Sql.rows (Server.projects db')))
     = map Inv.id_key (Sql.rows (Server.projects db))
  /\ map Inv.id_key (firstn (List.length (Sql.rows (Server.discipline_logs db)))
                    (Sql.rows (Server.discipline_logs db')))
     = map Inv.id_key (Sql.rows (Server.discipline_logs db)).
Proof.
  intros db'. subst db'.
  destruct rq as [r|r|r|now r|r]; simpl.
  - unfold Server.post_body.
    destruct (Server.body_params r) as [[d c]|]; simpl;
      rewrite ?firstn_all; repeat split.
    apply upsert_rows_keeps.
  - unfold Server.post_mind.
    destruct (Server.mind_params r) as [[d c]|]; simpl;
      rewrite ?firstn_all; repeat split.
    apply upsert_rows_keeps.
  - unfold Server.post_finance.
    destruct (Server.finance_params r) as [[d c]|]; simpl;
      rewrite ?firstn_all; repeat split.
    apply upsert_rows_keeps.
  - unfold Server.post_projects.
    destruct (Server.project_params now r) as [c|]; simpl;
      rewrite ?firstn_all; repeat split.
    apply upsert_rows_keeps.
  - unfold Server.post_discipline.
    destruct (Server.discipline_params r) as [[k c]|]; simpl;
      rewrite ?firstn_all; repeat split.
    apply upsert_rows_keeps.
Qed.

(** X3.  No request removes, moves or re-keys a row: after any further
    history every row of every table is still at its place, with its id
    and its natural key. *)
Theorem rows_are_never_removed :
  forall (more : list Server.Request) (db : Server.Db),
      let db' := Server.serve more db in
    map Inv.id_key (firstn (List.length (Sql.rows (Server.body_logs db)))
                   (Sql.rows (Server.body_logs db')))
    = map Inv.id_key (Sql.rows (Server.body_logs db))
    /\ map Inv.id_key (firstn (List.length (Sql.rows (Server.mind_logs db)))
                      (Sql.rows (Server.mind_logs db')))
       = map Inv.id_key (Sql.rows (Server.mind_logs db))
    /\ map Inv.id_key (firstn (List.length (Sql.rows (Server.finance_logs db)))
                      (Sql.rows (Server.finance_logs db')))
       = map Inv.id_key (Sql.rows (Server.finance_logs db))
    /\ map Inv.id_key (firstn (List.length (Sql.rows (Server.projects db)))
                      (Sql.rows (Server.projects db')))
       = map Inv.id_key (Sql.rows (Server.projects db))
    /\ map Inv.id_key (firstn (List.length (Sql.rows (Server.discipline_logs db)))
                      (Sql.rows (Server.discipline_logs db')))
       = map Inv.id_key (Sql.rows (Server.discipline_logs db)).
Proof.
  intros more. unfold Server.serve.
  induction more as [|rq rest IH]; intros db; cbv zeta; simpl.
  - rewrite !firstn_all. repeat split.
  - specialize (IH (snd (Server.handle rq db))). cbv zeta in IH.
    destruct IH as [Hb [Hm [Hf [Hp Hd]]]].
    destruct (rows_kept_handle rq db) as [Hb0 [Hm0 [Hf0 [Hp0 Hd0]]]].
    repeat split; eapply prefix_compose; eassumption.
Qed.

(** X4.  In the store reached by any history of requests a date selects at
    most one body log, one mind log and one finance log, and a pair of a
    date and a project id at most one discipline log. *)
Theorem at_most_one_row_per_key :
  forall (history : list Server.Request),
    let db := Server.serve history Server.empty_db in
    (forall d, List.length (Sql.select Sql.eqb d (Server.body_logs db))
               <= 1)%nat
    /\ (forall d, List.length (Sql.select Sql.eqb d (Server.mind_logs db))
                  <= 1)%nat
    /\ (forall d, List.length (Sql.select Sql.eqb d (Server.finance_logs db))
                  <= 1)%nat
    /\ (forall k,
           List.length (Sql.select Sql.eqb2 k (Server.discipline_logs db))
           <= 1)%nat.
Proof.
  intros history db.
  pose proof (well_keyed_reachable history) as Hwk. fold db in Hwk.
  unfold Server.well_keyed in Hwk. rewrite !andb_true_iff in Hwk.
  destruct Hwk as [[[Hb Hm] Hf] Hd].
  repeat split; intros k; unfold Sql.select.
  - apply (select_at_most_one _ _ Sql.eqb eqb_sym eqb_trans), Hb.
  - apply (select_at_most_one _ _ Sql.eqb eqb_sym eqb_trans), Hm.
  - apply (select_at_most_one _ _ Sql.eqb eqb_sym eqb_trans), Hf.
  - apply (select_at_most_one _ _ Sql.eqb2 eqb2_sym eqb2_trans), Hd.
Qed.

Lemma eqb_null_r (v : Sql.val) : Sql.eqb v Sql.Null = false.
Proof. destruct v; reflexivity. Qed.

(** X5.  A submission whose date is missing or null is not an update of
    anything: it is accepted and always adds a row of its own, with a NULL
    date and the next id, behind the rows already there.  The same holds
    for mind and finance logs. *)
Theorem dateless_submission_adds_a_row :
  (forall r c db,
      Server.body_params r = Some (Sql.Null, c) ->
      Sql.rows (Server.body_logs (snd (Server.post_body r db)))
      = Sql.rows (Server.body_logs db)
        ++ [Sql.Row (Sql.seq (Server.body_logs db) + 1) Sql.Null c])
  /\ (forall r c db,
      Server.mind_params r = Some (Sql.Null, c) ->
      Sql.rows (Server.mind_logs (snd (Server.post_mind r db)))
      = Sql.rows (Server.mind_logs db)
        ++ [Sql.Row (Sql.seq (Server.mind_logs db) + 1) Sql.Null c])
  /\ (forall r c db,
      Server.finance_params r = Some (Sql.Null, c) ->
      Sql.rows (Server.finance_logs (snd (Server.post_finance r db)))
      = Sql.rows (Server.finance_logs db)
        ++ [Sql.Row (Sql.seq (Server.finance_logs db) + 1) Sql.Null c]).
Proof.
  repeat split; intros r c db Hp.
  - unfold Server.post_body. rewrite Hp. simpl.
    apply upsert_rows_append, eqb_null_r.
  - unfold Server.post_mind. rewrite Hp. simpl.
    apply upsert_rows_append, eqb_null_r.
  - unfold Server.post_finance. rewrite Hp. simpl.
    apply upsert_rows_append, eqb_null_r.
Qed.

End RowsStay.

Lemma dateless_submission_witness :
  List.length
    (Sql.rows
       (Server.body_logs
          (snd (Server.post_body Samples.body_dateless
                  (snd (Server.post_body Samples.body_dateless
                          Server.empty_db))))))
  = 2%nat.
Proof.
  destruct dateless_submission_adds_a_row as [H _].
  rewrite (H Samples.body_dateless _ _ eq_refl), length_app.
  rewrite (H Samples.body_dateless _ _ eq_refl). reflexivity.
Defined.

Section WriteFrame.

Context {sqlite : Sql.Engine}.

(** X6.  A write touches one row at most.  After any request, a row of a
    table is still there unchanged unless the request is an accepted write
    to that very table under a key the row collides with; project rows
    never change. *)
Theorem write_touches_only_its_row :
  forall (rq : Server.Request) (db : Server.Db),
    let db' := snd (Server.handle rq db) in
    (forall row,
        In row (Sql.rows (Server.body_logs db)) ->
        In row (Sql.rows (Server.body_logs db'))
        \/ exists r d c,
            rq = Server.PostBody r /\ Server.body_params r = Some (d, c)
            /\ Sql.eqb (Sql.key row) d = true)
    /\ (forall row,
        In row (Sql.rows (Server.mind_logs db)) ->
        In row (Sql.rows (Server.mind_logs db'))
        \/ exists r d c,
            rq = Server.PostMind r /\ Server.mind_params r = Some (d, c)
            /\ Sql.eqb (Sql.key row) d = true)
    /\ (forall row,
        In row (Sql.rows (Server.finance_logs db)) ->
        In row (Sql.rows (Server.finance_logs db'))
        \/ exists r d c,
            rq = Server.PostFinance r
            /\ Server.finance_params r = Some (d, c)
            /\ Sql.eqb (Sql.key row) d = true)
    /\ (forall row,
        In row (Sql.rows (Server.discipline_logs db)) ->
        In row (Sql.rows (Server.discipline_logs db'))
        \/ exists r k c,
            rq = Server.PostDiscipline r
            /\ Server.discipline_params r = Some (k, c)
            /\ Sql.eqb2 (Sql.key row) k = true)
    /\ (forall row,
        In row (Sql.rows (Server.projects db)) ->
        In row (Sql.rows (Server.projects db'))).
Proof.
  intros rq db db'. subst db'.
  destruct rq as [r|r|r|now r|r]; simpl.
  - unfold Server.post_body.
    destruct (Server.body_params r) as [[d c]|] eqn:Hp; simpl;
      repeat split; auto.
    intros row Hin. destruct (Sql.eqb (Sql.key row) d) eqn:E.
    + right. exists r, d, c. auto.
    + left. apply upsert_rows_other_in; assumption.
  - unfold Server.post_mind.
    destruct (Server.mind_params r) as [[d c]|] eqn:Hp; simpl;
      repeat split; auto.
    intros row Hin. destruct (Sql.eqb (Sql.key row) d) eqn:E.
    + right. exists r, d, c. auto.
    + left. apply upsert_rows_other_in; assumption.
  - unfold Server.post_finance.
    destruct (Server.finance_params r) as [[d c]|] eqn:Hp; simpl;
      repeat split; auto.
    intros row Hin. destruct (Sql.eqb (Sql.key row) d) eqn:E.
    + right. exists r, d, c. auto.
    + left. apply upsert_rows_other_in; assumption.
  - unfold Server.post_projects.
    destruct (Server.project_params now r) as [c|] eqn:Hp; simpl;
      repeat split; auto.
    intros row Hin. apply upsert_rows_other_in; [exact Hin|reflexivity].
  - unfold Server.post_discipline.
    destruct (Server.discipline_params r) as [[k c]|] eqn:Hp; simpl;
      repeat split; auto.
    intros row Hin. destruct (Sql.eqb2 (Sql.key row) k) eqn:E.
    + right. exists r, k, c. auto.
    + left. apply upsert_rows_other_in; assumption.
Qed.

End WriteFrame.

Lemma write_touches_witness :
  In (Sql.Row 1 (Sql.Text "2024-01-01")
        (Server.BodyCols.Make (Sql.Num 7) (Sql.Num 3) (Sql.Num 0)
           (Sql.Text "") (Sql.Num 3) (Sql.Num 3)))
     (Sql.rows
        (Server.body_logs
           (snd (Server.handle (Server.PostBody Examples.body_not_numeric)
                   (snd (Server.post_body Examples.body_first
                           Server.empty_db))))))
  \/ exists r d c,
      Server.PostBody Examples.body_not_numeric = Server.PostBody r
      /\ Server.body_params r = Some (d, c)
      /\ Sql.eqb
           (Sql.key
              (Sql.Row 1 (Sql.Text "2024-01-01")
                 (Server.BodyCols.Make (Sql.Num 7) (Sql.Num 3) (Sql.Num 0)
                    (Sql.Text "") (Sql.Num 3) (Sql.Num 3)))) d = true.
Proof.
  destruct (write_touches_only_its_row
              (Server.PostBody Examples.body_not_numeric)
              (snd (Server.post_body Examples.body_first Server.empty_db)))
    as [H _].
  apply H. simpl. left. reflexivity.
Defined.

(** ** The order of ORDER BY *)

Lemma ascii_compare_refl (a : Ascii.ascii) : Ascii.compare a a = Eq.
Proof. unfold Ascii.compare. apply N.compare_refl. Qed.

Lemma ascii_compare_lt_trans (a b c : Ascii.ascii) :
  Ascii.compare a b = Lt -> Ascii.compare b c = Lt -> Ascii.compare a c = Lt.
Proof.
  unfold Ascii.compare. rewrite !N.compare_lt_iff. apply N.lt_trans.
Qed.

Lemma string_leb_trans (a b c : string) :
  String.leb a b = true -> String.leb b c = true -> String.leb a c = true.
Proof.
  unfold String.leb. revert b c.
  induction a as [|x a IH]; intros [|y b] [|z c]; simpl;
    try reflexivity; try discriminate.
  destruct (Ascii.compare x y) eqn:Exy; try discriminate;
    destruct (Ascii.compare y z) eqn:Eyz; try discriminate.
  - apply Ascii.compare_eq_iff in Exy, Eyz. subst y z.
    rewrite ascii_compare_refl. apply IH.
  - apply Ascii.compare_eq_iff in Exy. subst y. rewrite Eyz. reflexivity.
  - apply Ascii.compare_eq_iff in Eyz. subst z. rewrite Exy. reflexivity.
  - rewrite (ascii_compare_lt_trans x y z Exy Eyz). reflexivity.
Qed.

Lemma leb_total (a b : Sql.val) : Sql.leb a b = true \/ Sql.leb b a = true.
Proof.
  destruct a as [|p|s], b as [|q|t]; simpl; auto.
  - destruct (Qlt_le_dec q p) as [H|H].
    + right. apply Qle_bool_iff, Qlt_le_weak, H.
    + left. apply Qle_bool_iff, H.
  - apply String.leb_total.
Qed.

Lemma leb_trans (a b c : Sql.val) :
  Sql.leb a b = true -> Sql.leb b c = true -> Sql.leb a c = true.
Proof.
  destruct a as [|p|s], b as [|q|t], c as [|r|u]; simpl;
    try reflexivity; try discriminate.
  - rewrite !Qle_bool_iff. apply Qle_trans.
  - apply string_leb_trans.
Qed.

Section OrderFacts.

Variables K F : Type.
Variable col : Sql.row K F -> Sql.val.

Let after (x y : Sql.row K F) : Prop := Sql.leb (col y) (col x) = true.

Lemma insert_desc_perm (r : Sql.row K F) (l : list (Sql.row K F)) :
  Permutation.Permutation (Sql.insert_desc col r l) (r :: l).
Proof.
  induction l as [|x rest IH]; simpl; [apply Permutation.Permutation_refl|].
  destruct (Sql.leb (col x) (col r)); [apply Permutation.Permutation_refl|].
  eapply Permutation.perm_trans;
    [apply Permutation.perm_skip, IH|apply Permutation.perm_swap].
Qed.

Lemma order_by_desc_perm (l : list (Sql.row K F)) :
  Permutation.Permutation (Sql.order_by_desc col l) l.
Proof.
  induction l as [|x rest IH]; simpl; [constructor|].
  eapply Permutation.perm_trans;
    [apply insert_desc_perm|apply Permutation.perm_skip, IH].
Qed.

Lemma insert_desc_sorted (r : Sql.row K F) (l : list (Sql.row K F)) :
  Sorted.StronglySorted after l ->
  Sorted.StronglySorted after (Sql.insert_desc col r l).
Proof.
  induction l as [|x rest IH]; simpl; intros Hs.
  - repeat constructor.
  - inversion Hs as [|? ? Hrest Hall]; subst.
    destruct (Sql.leb (col x) (col r)) eqn:E.
    + constructor; [exact Hs|].
      constructor; [exact E|].
      rewrite Forall_forall in Hall |- *. intros y Hy.
      unfold after. apply leb_trans with (col x); [apply Hall, Hy|exact E].
    + constructor; [apply IH, Hrest|].
      rewrite Forall_forall in Hall |- *. intros y Hy.
      apply in_insert_desc in Hy as [->|Hy]; [|apply Hall, Hy].
      unfold after. destruct (leb_total (col r) (col x)) as [H|H];
        [exact H|rewrite H in E; discriminate].
Qed.

Lemma order_by_desc_sorted (l : list (Sql.row K F)) :
  Sorted.StronglySorted after (Sql.order_by_desc col l).
Proof.
  induction l as [|x rest IH]; simpl; [constructor|].
  apply insert_desc_sorted, IH.
Qed.

Lemma in_skipn (n : nat) (y : Sql.row K F) (l : list (Sql.row K F)) :
  In y (skipn n l) -> In y l.
Proof.
  revert l. induction n as [|n IH]; intros [|h rest]; simpl; try tauto.
  intros H. right. apply IH, H.
Qed.

Lemma sorted_split (n : nat) (l : list (Sql.row K F)) :
  Sorted.StronglySorted after l ->
  Sorted.StronglySorted after (firstn n l)
  /\ forall x y, In x (firstn n l) -> In y (skipn n l) -> after x y.
Proof.
  revert l. induction n as [|n IH]; intros l Hs; simpl.
  - split; [constructor|intros x y []].
  - destruct l as [|h rest]; [split; [constructor|intros x y []]|].
    inversion Hs as [|? ? Hrest Hall]; subst.
    destruct (IH rest Hrest) as [Hf Hsk].
    rewrite Forall_forall in Hall.
    split.
    + constructor; [exact Hf|].
      apply Forall_forall. intros y Hy. apply Hall.
      apply (in_firstn _ n), Hy.
    + intros x y [<-|Hx] Hy.
      * apply Hall. apply (in_skipn n). exact Hy.
      * apply Hsk; assumption.
Qed.

(** ORDER BY col DESC LIMIT n: the n greatest rows, greatest first. *)
Lemma order_by_desc_limit_spec (n : nat) (l : list (Sql.row K F)) :
  let w := Sql.order_by_desc_limit col n l in
  List.length w = Nat.min n (List.length l)
  /\ Sorted.StronglySorted after w
  /\ exists rest,
      Permutation.Permutation (w ++ rest) l
      /\ forall x y, In x w -> In y rest -> after x y.
Proof.
  unfold Sql.order_by_desc_limit. simpl.
  pose proof (order_by_desc_sorted l) as Hs.
  destruct (sorted_split n _ Hs) as [Hf Hsk].
  split; [|split; [exact Hf|]].
  - rewrite length_firstn.
    rewrite (Permutation.Permutation_length (order_by_desc_perm l)).
    reflexivity.
  - exists (skipn n (Sql.order_by_desc col l)).
    rewrite firstn_skipn. split; [apply order_by_desc_perm|exact Hsk].
Qed.

End OrderFacts.

Lemma leb_refl (a : Sql.val) : Sql.leb a a = true.
Proof. destruct (leb_total a a); assumption. Qed.

(** X7.  The window read by GET /api/body, /api/mind, /api/finance and by
    GET /api/dashboard holds the 30 rows of greatest date, or all rows if
    there are fewer, greatest date first: no row left out has a greater
    date than a row kept, and as soon as the table has a row the first
    row of the window carries the greatest date of the whole table. *)
Theorem window_holds_the_30_latest :
  forall (F : Type) (t : Sql.table Sql.val F),
    let w := Server.last30 t in
    List.length w = Nat.min 30 (List.length (Sql.rows t))
    /\ Sorted.StronglySorted
         (fun x y => Sql.leb (Sql.key y) (Sql.key x) = true) w
    /\ (exists rest,
           Permutation.Permutation (w ++ rest) (Sql.rows t)
           /\ forall x y, In x w -> In y rest ->
                          Sql.leb (Sql.key y) (Sql.key x) = true)
    /\ (forall r,
           In r (Sql.rows t) ->
           exists latest tl,
             w = latest :: tl
             /\ Sql.leb (Sql.key r) (Sql.key latest) = true).
Proof.
  intros F t w.
  destruct (order_by_desc_limit_spec _ _ Sql.key 30 (Sql.rows t))
    as [Hlen [Hs [rest [Hperm Hrest]]]].
  fold (Server.last30 t) in Hlen, Hs, Hperm, Hrest. fold w in Hlen, Hs, Hperm, Hrest.
  split; [exact Hlen|]. split; [exact Hs|].
  split; [exists rest; split; assumption|].
  intros r Hr.
  destruct w as [|latest tl] eqn:Hw.
  - simpl in Hlen. destruct (Sql.rows t); [destruct Hr|discriminate Hlen].
  - exists latest, tl. split; [reflexivity|].
    apply (Permutation.Permutation_in _ (Permutation.Permutation_sym Hperm))
      in Hr.
    apply in_app_iff in Hr as [[<-|Hr]|Hr].
    + apply leb_refl.
    + inversion Hs as [|? ? _ Hall]; subst.
      rewrite Forall_forall in Hall. apply Hall, Hr.
    + apply Hrest; [left; reflexivity|exact Hr].
Qed.

Lemma window_witness :
  exists latest tl,
    Server.get_body
      (Server.serve [Server.PostBody Examples.body_first;
                     Server.PostBody Examples.body_not_numeric]
                    Server.empty_db)
    = latest :: tl
    /\ Sql.leb (Sql.Text "2024-01-01") (Sql.key latest) = true.
Proof.
  destruct (window_holds_the_30_latest _
              (Server.body_logs
                 (Server.serve [Server.PostBody Examples.body_first;
                                Server.PostBody Examples.body_not_numeric]
                               Server.empty_db)))
    as [_ [_ [_ H]]].
  apply (H (Sql.Row 1 (Sql.Text "2024-01-01")
              (Server.BodyCols.Make (Sql.Num 7) (Sql.Num 3) (Sql.Num 0)
                 (Sql.Text "") (Sql.Num 3) (Sql.Num 3)))).
  simpl. left. reflexivity.
Defined.

(** ** The discipline listing *)

Section Listing.

Context {sqlite : Sql.Engine}.

Lemma inject_Z_eqb (a b : Z) :
  Qeq_bool (inject_Z a) (inject_Z b) = true -> a = b.
Proof.
  intros H. apply Qeq_bool_eq in H. unfold Qeq in H. simpl in H. lia.
Qed.

Lemma filter_none (A : Type) (f : A -> bool) (l : list A) :
  (forall x, In x l -> f x = false) -> filter f l = [].
Proof.
  induction l as [|x rest IH]; simpl; intros H; [reflexivity|].
  rewrite (H x (or_introl eq_refl)). apply IH.
  intros y Hy. apply H. right. exact Hy.
Qed.

(** Project ids being distinct, a value names one project at most. *)
Lemma at_most_one_project (v : Sql.val)
      (ps : list (Sql.row unit Server.ProjectCols.t)) :
  NoDup (map Sql.id ps) ->
  (List.length
     (filter (fun p => Sql.eqb v (Sql.Num (inject_Z (Sql.id p)))) ps)
   <= 1)%nat.
Proof.
  induction ps as [|p rest IH]; simpl; intros Hnd; [lia|].
  inversion Hnd as [|? ? Hnotin Hrest]; subst.
  destruct (Sql.eqb v (Sql.Num (inject_Z (Sql.id p)))) eqn:E;
    [|apply IH, Hrest].
  rewrite filter_none; [simpl; lia|].
  intros q Hq.
  destruct (Sql.eqb v (Sql.Num (inject_Z (Sql.id q)))) eqn:Eq;
    [|reflexivity].
  exfalso. apply Hnotin.
  rewrite eqb_sym in E.
  pose proof (eqb_trans _ _ _ E Eq) as H. simpl in H.
  apply inject_Z_eqb in H. rewrite H. apply in_map, Hq.
Qed.

Lemma flat_map_short (A B : Type) (f : A -> list B) (l : list A) :
  (forall x, In x l -> (List.length (f x) <= 1)%nat) ->
  (List.length (flat_map f l) <= List.length l)%nat.
Proof.
  induction l as [|x rest IH]; simpl; intros H; [lia|].
  rewrite length_app.
  pose proof (H x (or_introl eq_refl)).
  assert (List.length (flat_map f rest) <= List.length rest)%nat
    by (apply IH; intros y Hy; apply H; right; exact Hy).
  lia.
Qed.

(** X8.  The listing of GET /api/discipline, on the store reached by any
    history of requests: every entry is a stored discipline log together
    with the name of the one project whose id its [project_id] equals; no
    log is listed twice; there are at most 100 entries, latest date first;
    and while the table has at most 100 logs, every log whose project
    exists is listed. *)
Theorem discipline_listing_joins_projects :
  forall (history : list Server.Request),
    let db := Server.serve history Server.empty_db in
    let listing := Server.get_discipline db in
    (forall row,
        In row listing ->
        exists d p,
          In d (Sql.rows (Server.discipline_logs db))
          /\ In p (Server.get_projects db)
          /\ Sql.eqb (snd (Sql.key d)) (Sql.Num (inject_Z (Sql.id p))) = true
          /\ row = Sql.Row (Sql.id d) (Sql.key d)
                           (Sql.cols d,
                            Server.ProjectCols.name (Sql.cols p)))
    /\ (List.length listing <= 100)%nat
    /\ (List.length listing
        <= List.length (Sql.rows (Server.discipline_logs db)))%nat
    /\ Sorted.StronglySorted
         (fun x y => Sql.leb (fst (Sql.key y)) (fst (Sql.key x)) = true)
         listing
    /\ ((List.length (Sql.rows (Server.discipline_logs db)) <= 100)%nat ->
        forall d p,
          In d (Sql.rows (Server.discipline_logs db)) ->
          In p (Server.get_projects db) ->
          Sql.eqb (snd (Sql.key d)) (Sql.Num (inject_Z (Sql.id p))) = true ->
          In (Sql.Row (Sql.id d) (Sql.key d)
                      (Sql.cols d, Server.ProjectCols.name (Sql.cols p)))
             listing).
Proof.
  intros history db listing.
  destruct (order_by_desc_limit_spec _ _
              (fun r : Sql.row (Sql.val * Sql.val)
                               (Server.DisciplineCols.t * Sql.val) =>
                 fst (Sql.key r)) 100 (Server.join_projects db))
    as [Hlen [Hs [rest [Hperm Hrest]]]].
  fold (Server.get_discipline db) in Hlen, Hs, Hperm. fold listing in Hlen, Hs, Hperm.
  assert (List.length (Server.join_projects db)
          <= List.length (Sql.rows (Server.discipline_logs db)))%nat as Hjoin.
  { unfold Server.join_projects. apply flat_map_short.
    intros d _. rewrite length_map. apply at_most_one_project.
    destruct (all_ids_ok_reachable history) as [_ [_ [_ [[_ [_ Hnd]] _]]]].
    exact Hnd. }
  split; [|split; [|split; [|split]]].
  - intros row Hin. unfold listing, Server.get_discipline in Hin.
    apply in_order_by_desc_limit in Hin.
    unfold Server.join_projects in Hin.
    rewrite in_flat_map in Hin. destruct Hin as [d [Hd Hrow]].
    rewrite in_map_iff in Hrow. destruct Hrow as [p [<- Hp]].
    rewrite filter_In in Hp. destruct Hp as [Hp Heq].
    exists d, p. auto.
  - rewrite Hlen. apply Nat.le_min_l.
  - rewrite Hlen. lia.
  - exact Hs.
  - intros Hsmall d p Hd Hp Heq.
    assert (rest = []) as ->.
    { apply Permutation.Permutation_length in Hperm.
      rewrite length_app, Hlen in Hperm.
      destruct rest as [|x rest']; [reflexivity|].
      change (List.length (x :: rest')) with (S (List.length rest'))
        in Hperm.
      lia. }
    rewrite app_nil_r in Hperm.
    apply (Permutation.Permutation_in _ (Permutation.Permutation_sym Hperm)).
    unfold Server.join_projects. rewrite in_flat_map.
    exists d. split; [exact Hd|].
    rewrite in_map_iff. exists p. split; [reflexivity|].
    rewrite filter_In. split; assumption.
Qed.

End Listing.

Lemma discipline_listing_witness :
  In (Sql.Row 1 (Sql.Text "2024-01-01", Sql.Num 1)
        (Server.DisciplineCols.Make (Sql.Num 60) (Sql.Num 3),
         Sql.Text "Livro"))
     (Server.get_discipline
        (Server.serve Samples.book_history Server.empty_db)).
Proof.
  destruct (discipline_listing_joins_projects Samples.book_history)
    as [_ [_ [_ [_ H]]]].
  apply (H ltac:(simpl; lia)
           (Sql.Row 1 (Sql.Text "2024-01-01", Sql.Num 1)
              (Server.DisciplineCols.Make (Sql.Num 60) (Sql.Num 3)))
           (Sql.Row 1 tt
              (Server.ProjectCols.Make (Sql.Text "Livro") (Sql.Num 10)
                 (Sql.Text "2024-01-01T08:00:00.000Z")))).
  - simpl. left. reflexivity.
  - simpl. left. reflexivity.
  - reflexivity.
Defined.

(** ** Bounds of the scores *)

(** The divisor of the discipline score, 2.4 as a double. *)
Lemma literal_pos : 0 < Double.nearest 2.4.
Proof. vm_compute. reflexivity. Qed.

(** X9.  The finance score never leaves [0, 100] when the latest finance
    log has non-negative debts and income, is never below 0 whatever the
    log holds, and is 100, not 0, when there is no finance log at all.
    The financial pressure does not decrease when the debts grow, the
    income staying the same. *)
Theorem finance_score_bounds :
  forall (b : list Types.BodyLog.t) (m : list Types.MindLog.t)
         (d : list Types.DisciplineDay.t),
    (forall f, (0 <= App.financeScore
                       {| Types.body := b; Types.mind := m;
                          Types.finance := f; Types.discipline := d |})%Z)
    /\ App.financeScore
         {| Types.body := b; Types.mind := m; Types.finance := [];
            Types.discipline := d |} = 100%Z
    /\ (forall latest rest,
          0 <= Types.FinanceLog.debts latest ->
          (forall i, Types.FinanceLog.income latest = Some i -> 0 <= i) ->
          (0 <= App.financeScore
                  {| Types.body := b; Types.mind := m;
                     Types.finance := latest :: rest;
                     Types.discipline := d |} <= 100)%Z)
    /\ (forall id1 date1 id2 date2 income e1 e2 debts1 debts2 i1 i2 rest1
               rest2,
          (forall i, income = Some i -> 0 <= i) -> debts1 <= debts2 ->
          (App.financialPressure
             {| Types.body := b; Types.mind := m;
                Types.finance :=
                  Types.FinanceLog.Make id1 date1 income e1 debts1 i1
                  :: rest1;
                Types.discipline := d |}
           <= App.financialPressure
                {| Types.body := b; Types.mind := m;
                   Types.finance :=
                     Types.FinanceLog.Make id2 date2 income e2 debts2 i2
                     :: rest2;
                   Types.discipline := d |})%Z).
Proof.
  intros b m d.
  split; [|split; [vm_compute; reflexivity|split]].
  - intros f. apply sub_nonneg.
    destruct f as [|latest rest]; unfold App.financialPressure, Math.min;
      cbn [Types.finance]; lia.
  - intros latest rest Hd Hi.
    unfold App.financeScore. rewrite sub_whole.
    + unfold App.financialPressure, Math.min. cbn [Types.finance].
      pose proof (round_nonneg _ (ratio_nonneg _ _ (or_else_pos _ Hi) Hd)).
      lia.
    + unfold App.financialPressure, Math.min. cbn [Types.finance].
      pose proof (round_nonneg _ (ratio_nonneg _ _ (or_else_pos _ Hi) Hd)).
      lia.
  - intros id1 date1 id2 date2 income e1 e2 debts1 debts2 i1 i2 rest1 rest2
           Hi Hd.
    unfold App.financialPressure, Math.min.
    cbn [Types.finance Types.FinanceLog.debts Types.FinanceLog.income].
    pose proof (round_mono _ _ (ratio_mono _ _ _ (or_else_pos _ Hi) Hd)).
    lia.
Qed.

Lemma finance_score_witness :
  (0 <= App.financeScore Examples.small_income <= 100)%Z.
Proof.
  destruct (finance_score_bounds [] [] []) as [_ [_ [H _]]].
  apply (H (Types.FinanceLog.Make 1 "2024-01-01" (Some 0.5) 0 0.25 0) []).
  - discriminate.
  - intros i Hi. injection Hi as <-. discriminate.
Defined.

(** X10.  The discipline score is never above 100, is never below 0 when
    the latest total of minutes is not negative, and does not decrease
    when that total grows. *)
Theorem discipline_score_bounds :
  forall (b : list Types.BodyLog.t) (m : list Types.MindLog.t)
         (f : list Types.FinanceLog.t),
    (forall d, (App.disciplineScore
                  {| Types.body := b; Types.mind := m; Types.finance := f;
                     Types.discipline := d |} <= 100)%Z)
    /\ (forall latest rest,
          0 <= Types.DisciplineDay.total_minutes latest ->
          (0 <= App.disciplineScore
                  {| Types.body := b; Types.mind := m; Types.finance := f;
                     Types.discipline := latest :: rest |})%Z)
    /\ (forall l1 l2 rest1 rest2,
          Types.DisciplineDay.total_minutes l1
          <= Types.DisciplineDay.total_minutes l2 ->
          (App.disciplineScore
             {| Types.body := b; Types.mind := m; Types.finance := f;
                Types.discipline := l1 :: rest1 |}
           <= App.disciplineScore
                {| Types.body := b; Types.mind := m; Types.finance := f;
                   Types.discipline := l2 :: rest2 |})%Z).
Proof.
  intros b m f. split; [|split].
  - intros [|latest rest]; unfold App.disciplineScore, Math.min;
      cbn [Types.discipline]; lia.
  - intros latest rest H. unfold App.disciplineScore, Math.min.
    cbn [Types.discipline].
    pose proof (round_nonneg _ (div_nonneg _ _ literal_pos H)). lia.
  - intros l1 l2 rest1 rest2 H. unfold App.disciplineScore, Math.min.
    cbn [Types.discipline].
    pose proof (round_mono _ _ (div_mono _ _ _ literal_pos H)). lia.
Qed.

Lemma discipline_bounds_witness :
  (0 <= App.disciplineScore
          {| Types.body := []; Types.mind := []; Types.finance := [];
             Types.discipline :=
               [ Types.DisciplineDay.Make "2024-01-01" 500 4 ] |})%Z.
Proof.
  destruct (discipline_score_bounds [] [] []) as [_ [H _]].
  apply H. unfold Qle; simpl; lia.
Defined.

Lemma inject_Z_range (z : Z) :
  (0 <= z <= 100)%Z -> 0 <= inject_Z z <= 100.
Proof. intros [H1 H2]. split; unfold Qle; simpl; lia. Qed.

Lemma financeScore_range (data : Types.DashboardData) :
  match Types.finance data with
  | latest :: _ =>
      0 <= Types.FinanceLog.debts latest
      /\ (forall i, Types.FinanceLog.income latest = Some i -> 0 <= i)
  | [] => True
  end ->
  (0 <= App.financeScore data <= 100)%Z.
Proof.
  intros H.
  assert (0 <= App.financialPressure data <= 100)%Z as Hp.
  { unfold App.financialPressure, Math.min.
    destruct (Types.finance data) as [|latest rest]; [lia|].
    destruct H as [Hd Hi].
    pose proof (round_nonneg _ (ratio_nonneg _ _ (or_else_pos _ Hi) Hd)).
    lia. }
  unfold App.financeScore. rewrite sub_whole by exact Hp. lia.
Qed.

Lemma disciplineScore_range (data : Types.DashboardData) :
  match Types.discipline data with
  | latest :: _ => 0 <= Types.DisciplineDay.total_minutes latest
  | [] => True
  end ->
  (0 <= App.disciplineScore data <= 100)%Z.
Proof.
  unfold App.disciplineScore, Math.min.
  destruct (Types.discipline data) as [|latest rest]; [lia|].
  intros H.
  pose proof (round_nonneg _ (div_nonneg _ _ literal_pos H)). lia.
Qed.

(** X11.  Whenever [calculateScore] stays within [0, 100] and the latest
    finance log and discipline total, if any, are not negative, the
    overall score is within [0, 100] too. *)
Theorem overall_score_bounds :
  forall (calculateScore : Q -> Q) (data : Types.DashboardData),
    (forall x, 0 <= calculateScore x <= 100) ->
    match Types.finance data with
    | latest :: _ =>
        0 <= Types.FinanceLog.debts latest
        /\ (forall i, Types.FinanceLog.income latest = Some i -> 0 <= i)
    | [] => True
    end ->
    match Types.discipline data with
    | latest :: _ => 0 <= Types.DisciplineDay.total_minutes latest
    | [] => True
    end ->
    (0 <= App.overallScore calculateScore data <= 100)%Z.
Proof.
  intros calculateScore data Hcs Hf Hd.
  assert (0 <= App.bodyScore calculateScore data <= 100) as Hb.
  { unfold App.bodyScore. destruct (Types.body data); [|apply Hcs].
    split; unfold Qle; simpl; lia. }
  assert (0 <= App.mindScore calculateScore data <= 100) as Hm.
  { unfold App.mindScore. destruct (Types.mind data); [|apply Hcs].
    split; unfold Qle; simpl; lia. }
  pose proof (inject_Z_range _ (financeScore_range data Hf)) as Hfs.
  pose proof (inject_Z_range _ (disciplineScore_range data Hd)) as Hds.
  unfold App.overallScore.
  destruct Hb as [Hb0 Hb1], Hm as [Hm0 Hm1], Hfs as [Hf0 Hf1],
           Hds as [Hd0 Hd1].
  generalize dependent (App.bodyScore calculateScore data).
  generalize dependent (App.mindScore calculateScore data).
  generalize dependent (inject_Z (App.financeScore data)).
  generalize dependent (inject_Z (App.disciplineScore data)).
  intros ds Hd0 Hd1 fs Hf0 Hf1 ms Hm0 Hm1 bs Hb0 Hb1.
  split.
  - apply round_nonneg, div_nonneg; [reflexivity|].
    repeat apply add_nonneg; assumption.
  - apply Z.le_trans
      with (Math.round
              (Double.div
                 (Double.add (Double.add (Double.add 100 100) 100) 100) 4));
      [|vm_compute; discriminate].
    apply round_mono, div_mono; [reflexivity|].
    repeat apply add_mono; assumption.
Qed.

Lemma overall_score_witness :
  (0 <= App.overallScore (fun _ : Q => 50%Q) Examples.debt_days <= 100)%Z.
Proof.
  apply overall_score_bounds.
  - intros x. split; unfold Qle; simpl; lia.
  - simpl. split; [discriminate|].
    intros i Hi. injection Hi as <-. discriminate.
  - simpl. exact I.
Defined.

(** ** The insight rules as they are gated *)





(** X13.  The insight list is one of: empty, the sleep insight alone, the
    debt insight alone, or the sleep insight followed by the debt insight;
    so it never holds more than two entries.  It is empty, whatever the
    correlations, as soon as each rule lacks a sixth entry in one of the
    two windows it is gated on. *)
Theorem insights_shape :
  forall (getCorrelation : list Q -> list Q -> option Q)
         (data : Types.DashboardData),
    (exists corr,
        App.insights getCorrelation data = []
        \/ App.insights getCorrelation data = [App.sleepFocusInsight corr]
        \/ App.insights getCorrelation data = [App.debtAnxietyInsight]
        \/ App.insights getCorrelation data
           = [App.sleepFocusInsight corr; App.debtAnxietyInsight])
    /\ ((List.length (Types.body data) <= 5
         \/ List.length (Types.discipline data) <= 5)%nat ->
        (List.length (Types.finance data) <= 5
         \/ List.length (Types.mind data) <= 5)%nat ->
        App.insights getCorrelation data = []).
Proof.
  intros getCorrelation data. split.
  - exists (getCorrelation
              (map Types.BodyLog.sleep_hours (Types.body data))
              (map Types.MindLog.focus (Types.mind data))).
    unfold App.insights, App.sleepFocusRule, App.debtAnxietyRule.
    destruct (_ && _); destruct (_ && _);
      repeat match goal with
             | |- context [if gt ?a ?b then _ else _] => destruct (gt a b)
             end; simpl; auto.
  - intros H1 H2.
    unfold App.insights, App.sleepFocusRule, App.debtAnxietyRule.
    assert (Nat.ltb 5 (List.length (Types.body data))
            && Nat.ltb 5 (List.length (Types.discipline data)) = false)
      as ->.
    { apply andb_false_iff.
      destruct H1 as [H|H]; [left|right]; apply Nat.ltb_ge, H. }
    assert (Nat.ltb 5 (List.length (Types.finance data))
            && Nat.ltb 5 (List.length (Types.mind data)) = false)
      as ->.
    { apply andb_false_iff.
      destruct H2 as [H|H]; [left|right]; apply Nat.ltb_ge, H. }
    reflexivity.
Qed.

Lemma insights_shape_witness :
  App.insights (fun _ _ => Some 1) Examples.six_days = [].
Proof.
  destruct (insights_shape (fun _ _ => Some 1) Examples.six_days)
    as [_ H].
  apply H; simpl; [right|left]; lia.
Defined.

(** ** Loading the dashboard *)

Lemma message_of_present (m : option string) :
  Main.present (Some (Main.message_of m)) = true.
Proof.
  unfold Main.message_of, Main.present.
  destruct m as [t|]; [|reflexivity].
  destruct (String.eqb t "") eqn:E; [reflexivity|].
  rewrite E. reflexivity.
Qed.

Lemma attempt_success (o : Main.Outcome) (json : Types.DashboardData) :
  Main.attempt o = inl json
  <-> exists status contentType,
      o = Main.Response true status (Some contentType) (Main.Parsed json)
      /\ Main.includes "application/json" contentType = true.
Proof.
  split.
  - destruct o as [m|ok status ct body]; simpl; [discriminate|].
    destruct ok; simpl; [|discriminate].
    destruct ct as [t|]; simpl; [|discriminate].
    destruct (String.eqb t ""); simpl; [discriminate|].
    destruct (Main.includes "application/json" t) eqn:E; simpl;
      [|discriminate].
    destruct body as [j|m]; [|discriminate].
    intros H. injection H as ->. exists status, t. auto.
  - intros [status [ct [-> Hinc]]]. simpl.
    destruct (String.eqb ct "") eqn:E.
    + apply String.eqb_eq in E. subst ct. discriminate Hinc.
    + simpl. rewrite Hinc. reflexivity.
Qed.

(** X14.  When [fetchData] has settled, [loading] is false and the tab is
    the one it was.  The load succeeds exactly on a response that is ok,
    whose content type mentions application/json and whose body parses:
    the payload then replaces the data and the error is cleared.  In every
    other case the data stay what they were and the error is a message
    that is not empty. *)
Theorem fetchData_settles :
  forall (o : Main.Outcome) (st : Main.State),
    let st' := Main.fetchData o st in
    Main.loading st' = false
    /\ Main.activeTab st' = Main.activeTab st
    /\ (forall json,
          Main.attempt o = inl json
          <-> exists status contentType,
              o = Main.Response true status (Some contentType)
                                (Main.Parsed json)
              /\ Main.includes "application/json" contentType = true)
    /\ (forall json,
          Main.attempt o = inl json ->
          Main.data st' = Some json /\ Main.error st' = None)
    /\ (forall message,
          Main.attempt o = inr message ->
          Main.data st' = Main.data st
          /\ Main.error st' = Some (Main.message_of message)
          /\ Main.present (Main.error st') = true).
Proof.
  intros o st st'. subst st'. unfold Main.fetchData.
  split; [reflexivity|]. split.
  - destruct (Main.attempt o); reflexivity.
  - split; [intros json; apply attempt_success|]. split.
    + intros json ->. simpl. split; reflexivity.
    + intros message ->. simpl.
      split; [reflexivity|]. split; [reflexivity|].
      apply message_of_present.
Qed.

Lemma fetchData_witness :
  Main.data
    (Main.fetchData
       (Main.Response true 200 (Some "application/json; charset=utf-8"%string)
          (Main.Parsed Examples.six_days))
       Main.initial)
  = Some Examples.six_days
  /\ Main.error
       (Main.fetchData
          (Main.Response true 200
             (Some "application/json; charset=utf-8"%string)
             (Main.Parsed Examples.six_days))
          Main.initial)
     = None.
Proof.
  destruct (fetchData_settles
              (Main.Response true 200
                 (Some "application/json; charset=utf-8"%string)
                 (Main.Parsed Examples.six_days))
              Main.initial) as [_ [_ [_ [H _]]]].
  apply H. reflexivity.
Defined.

(** X15.  After a load that failed, every tab shows the error screen with
    the message of the failure: the entry forms are out of reach until a
    later load succeeds, although the data loaded before are kept.  After
    a load that succeeded no tab shows the error screen, and the dashboard
    tab, like any tab name the switch does not know, shows the dashboard
    computed from the new payload, never the spinner. *)
Theorem renderContent_after_fetch :
  forall (calculateScore : Q -> Q)
         (getCorrelation : list Q -> list Q -> option Q)
         (o : Main.Outcome) (st : Main.State) (tab : string),
    let st' := Main.setActiveTab tab (Main.fetchData o st) in
    (forall message,
        Main.attempt o = inr message ->
        Main.renderContent calculateScore getCorrelation st'
        = Main.ErrorScreen (Main.message_of message)
        /\ Main.data st' = Main.data st)
    /\ (forall json,
          Main.attempt o = inl json ->
          (forall message,
              Main.renderContent calculateScore getCorrelation st'
              <> Main.ErrorScreen message)
          /\ (~ In tab ["body"; "mind"; "finance"; "discipline"; "inbox"]
              %string ->
              Main.renderContent calculateScore getCorrelation st'
              = Main.ShowDashboard
                  (App.DashboardView calculateScore getCorrelation
                     (Some json))
              /\ App.DashboardView calculateScore getCorrelation (Some json)
                 <> App.Loading)).
Proof.
  intros calculateScore getCorrelation o st tab st'. subst st'.
  unfold Main.setActiveTab, Main.fetchData, Main.renderContent.
  split.
  - intros message ->. cbn [Main.error Main.data Main.activeTab].
    rewrite message_of_present. split; reflexivity.
  - intros json ->.
    cbn [Main.error Main.data Main.activeTab Main.present].
    split.
    + intros message.
      repeat match goal with
             | |- context [String.eqb tab ?s] => destruct (String.eqb tab s)
             end; discriminate.
    + intros Hnot.
      assert (forall s, In s ["body"; "mind"; "finance"; "discipline";
                              "inbox"]%string ->
                        String.eqb tab s = false) as Hs.
      { intros s Hin. apply String.eqb_neq. intros ->. apply Hnot, Hin. }
      rewrite (Hs "body"%string), (Hs "mind"%string),
        (Hs "finance"%string), (Hs "discipline"%string),
        (Hs "inbox"%string) by (simpl; tauto).
      split; [destruct (String.eqb tab "dashboard"); reflexivity|].
      unfold App.DashboardView. destruct (negb (App.hasData json));
        discriminate.
Qed.

Lemma renderContent_witness :
  Main.renderContent (fun x => x) (fun _ _ => None)
    (Main.setActiveTab "body"
       (Main.fetchData (Main.Response false 500 None (Main.Unparsable None))
          Main.initial))
  = Main.ErrorScreen "Erro do servidor: 500"
  /\ Main.data
       (Main.setActiveTab "body"
          (Main.fetchData
             (Main.Response false 500 None (Main.Unparsable None))
             Main.initial))
     = Main.data Main.initial.
Proof.
  destruct (renderContent_after_fetch (fun x => x) (fun _ _ => None)
              (Main.Response false 500 None (Main.Unparsable None))
              Main.initial "body") as [H _].
  apply (H (Some "Erro do servidor: 500"%string)). reflexivity.
Defined.

(** ** The per-date aggregate *)

Lemma same_group_refl (a : Sql.val) : Dashboard.same_group a a = true.
Proof.
  destruct a; simpl; [reflexivity|apply Qeq_bool_refl|apply String.eqb_refl].
Qed.

Lemma same_group_sym (a b : Sql.val) :
  Dashboard.same_group a b = Dashboard.same_group b a.
Proof.
  destruct a, b; simpl; try reflexivity.
  - apply Qeq_bool_comm.
  - apply String.eqb_sym.
Qed.

Lemma same_group_trans (a b c : Sql.val) :
  Dashboard.same_group a b = true -> Dashboard.same_group b c = true ->
  Dashboard.same_group a c = true.
Proof.
  destruct a, b, c; simpl; try discriminate; try reflexivity.
  - apply Qeq_bool_trans.
  - rewrite !String.eqb_eq. congruence.
Qed.

Lemma same_group_congr (a b x : Sql.val) :
  Dashboard.same_group a b = true ->
  Dashboard.same_group x a = Dashboard.same_group x b.
Proof.
  intros Hab.
  destruct (Dashboard.same_group x a) eqn:Ha,
           (Dashboard.same_group x b) eqn:Hb; try reflexivity.
  - rewrite (same_group_trans x a b Ha Hab) in Hb. discriminate.
  - rewrite same_group_sym in Hab.
    rewrite (same_group_trans x b a Hb Hab) in Ha. discriminate.
Qed.

Lemma groups_in (ds : list Sql.val) (g : Sql.val) :
  In g (Dashboard.groups ds) -> In g ds.
Proof.
  revert g. induction ds as [|d rest IH]; simpl; intros g; [tauto|].
  intros [<-|H]; [left; reflexivity|].
  apply filter_In in H as [H _]. right. apply IH, H.
Qed.

Lemma groups_cover (ds : list Sql.val) (x : Sql.val) :
  In x ds ->
  exists g, In g (Dashboard.groups ds) /\ Dashboard.same_group x g = true.
Proof.
  induction ds as [|d rest IH]; simpl; intros H; [destruct H|].
  destruct H as [->|H].
  - exists x. split; [left; reflexivity|apply same_group_refl].
  - destruct (IH H) as [g [Hg Hxg]].
    destruct (Dashboard.same_group g d) eqn:E.
    + exists d. split; [left; reflexivity|].
      apply same_group_trans with g; assumption.
    + exists g. split; [|exact Hxg].
      right. apply filter_In. split; [exact Hg|]. rewrite E. reflexivity.
Qed.

Lemma groups_distinct (ds : list Sql.val) (g : Sql.val) :
  (List.length (filter (fun x => Dashboard.same_group x g)
                       (Dashboard.groups ds)) <= 1)%nat.
Proof.
  induction ds as [|d rest IH]; simpl; [lia|].
  destruct (Dashboard.same_group d g) eqn:E; simpl.
  - rewrite filter_none; [simpl; lia|].
    intros x Hx. apply filter_In in Hx as [_ Hx].
    apply negb_true_iff in Hx.
    rewrite <- (same_group_congr d g x E). exact Hx.
  - eapply Nat.le_trans; [|exact IH].
    clear IH. induction (Dashboard.groups rest) as [|y l IHl]; simpl; [lia|].
    destruct (negb (Dashboard.same_group y d)); simpl;
      destruct (Dashboard.same_group y g); simpl; lia.
Qed.

Lemma all_forall2 (A B : Type) (f : A -> option B) (l : list A)
      (ys : list B) :
  Dashboard.all f l = Some ys -> Forall2 (fun x y => f x = Some y) l ys.
Proof.
  revert ys. induction l as [|x rest IH]; simpl; intros ys H.
  - injection H as <-. constructor.
  - destruct (f x) as [y|] eqn:E; [|discriminate].
    destruct (Dashboard.all f rest) as [ys'|]; [|discriminate].
    injection H as <-. constructor; [exact E|apply IH; reflexivity].
Qed.

Lemma day_date (logs : list Dashboard.log) (g : Sql.val)
      (d : Dashboard.Day) :
  Dashboard.day logs g = Some d -> Dashboard.date d = g.
Proof.
  unfold Dashboard.day.
  destruct (Dashboard.SUM _); [|discriminate].
  destruct (Dashboard.AVG _); [|discriminate].
  intros H. injection H as <-. reflexivity.
Qed.

Lemma days_dates (logs : list Dashboard.log) (gs : list Sql.val)
      (days : list Dashboard.Day) :
  Dashboard.all (Dashboard.day logs) gs = Some days ->
  map Dashboard.date days = gs.
Proof.
  intros H. apply all_forall2 in H.
  induction H as [|g d gs' days' Hd _ IH]; simpl; [reflexivity|].
  rewrite (day_date _ _ _ Hd), IH. reflexivity.
Qed.

Lemma insert_day_perm (d : Dashboard.Day) (l : list Dashboard.Day) :
  Permutation.Permutation (Dashboard.insert_desc d l) (d :: l).
Proof.
  induction l as [|x rest IH]; simpl; [apply Permutation.Permutation_refl|].
  destruct (Sql.leb (Dashboard.date x) (Dashboard.date d));
    [apply Permutation.Permutation_refl|].
  eapply Permutation.perm_trans;
    [apply Permutation.perm_skip, IH|apply Permutation.perm_swap].
Qed.

Lemma order_days_perm (l : list Dashboard.Day) :
  Permutation.Permutation (Dashboard.order_by_date_desc l) l.
Proof.
  induction l as [|x rest IH]; simpl; [constructor|].
  eapply Permutation.perm_trans;
    [apply insert_day_perm|apply Permutation.perm_skip, IH].
Qed.

Lemma insert_day_sorted (d : Dashboard.Day) (l : list Dashboard.Day) :
  Sorted.StronglySorted
    (fun x y => Sql.leb (Dashboard.date y) (Dashboard.date x) = true) l ->
  Sorted.StronglySorted
    (fun x y => Sql.leb (Dashboard.date y) (Dashboard.date x) = true)
    (Dashboard.insert_desc d l).
Proof.
  induction l as [|x rest IH]; simpl; intros Hs.
  - repeat constructor.
  - inversion Hs as [|? ? Hrest Hall]; subst.
    destruct (Sql.leb (Dashboard.date x) (Dashboard.date d)) eqn:E.
    + constructor; [exact Hs|].
      constructor; [exact E|].
      rewrite Forall_forall in Hall |- *. intros y Hy.
      apply leb_trans with (Dashboard.date x); [apply Hall, Hy|exact E].
    + constructor; [apply IH, Hrest|].
      rewrite Forall_forall in Hall |- *. intros y Hy.
      apply (Permutation.Permutation_in _ (insert_day_perm d rest)) in Hy.
      destruct Hy as [->|Hy]; [|apply Hall, Hy].
      destruct (leb_total (Dashboard.date y) (Dashboard.date x)) as [H|H];
        [exact H|rewrite H in E; discriminate].
Qed.

Lemma order_days_sorted (l : list Dashboard.Day) :
  Sorted.StronglySorted
    (fun x y => Sql.leb (Dashboard.date y) (Dashboard.date x) = true)
    (Dashboard.order_by_date_desc l).
Proof.
  induction l as [|x rest IH]; simpl; [constructor|].
  apply insert_day_sorted, IH.
Qed.

Lemma sorted_firstn (A : Type) (R : A -> A -> Prop) (n : nat) (l : list A) :
  Sorted.StronglySorted R l -> Sorted.StronglySorted R (firstn n l).
Proof.
  revert l. induction n as [|n IH]; intros [|h rest] Hs; simpl;
    try constructor.
  - inversion Hs; subst. apply IH. assumption.
  - inversion Hs as [|? ? _ Hall]; subst.
    rewrite Forall_forall in Hall |- *. intros y Hy.
    apply Hall, (in_firstn _ n), Hy.
Qed.

Lemma filter_length_perm (A : Type) (P : A -> bool) (l l' : list A) :
  Permutation.Permutation l l' ->
  List.length (filter P l) = List.length (filter P l').
Proof.
  induction 1 as [|x l l' _ IH|x y l|l l' l'' _ IH1 _ IH2]; simpl.
  - reflexivity.
  - destruct (P x); simpl; rewrite IH; reflexivity.
  - destruct (P x), (P y); reflexivity.
  - congruence.
Qed.

Lemma filter_length_firstn (A : Type) (P : A -> bool) (n : nat)
      (l : list A) :
  (List.length (filter P (firstn n l)) <= List.length (filter P l))%nat.
Proof.
  revert l. induction n as [|n IH]; intros [|x rest]; simpl; try lia.
  specialize (IH rest). destruct (P x); simpl; lia.
Qed.

Lemma filter_length_map (A B : Type) (f : A -> B) (P : B -> bool)
      (l : list A) :
  List.length (filter (fun x => P (f x)) l)
  = List.length (filter P (map f l)).
Proof.
  induction l as [|x rest IH]; simpl; [reflexivity|].
  destruct (P (f x)); simpl; rewrite IH; reflexivity.
Qed.

Lemma tally_numbers (qs : list Q) (s : Q) (n : nat) :
  Dashboard.tally (map Sql.Num qs) = Some (s, n) ->
  s = fold_right Qplus 0 qs /\ n = List.length qs.
Proof.
  revert s n. induction qs as [|q rest IH]; simpl; intros s n H.
  - injection H as <- <-. split; reflexivity.
  - destruct (Dashboard.tally (map Sql.Num rest)) as [[s0 n0]|];
      [|discriminate].
    destruct (Dashboard.integer q); [|discriminate].
    injection H as <- <-. destruct (IH s0 n0 eq_refl) as [-> ->].
    split; reflexivity.
Qed.

Lemma counted_tally (vs : list Sql.val) (p : Q * nat) :
  Dashboard.counted vs = Some p ->
  Dashboard.tally vs = Some p /\ Dashboard.weight vs <= Dashboard.safe.
Proof.
  unfold Dashboard.counted.
  destruct (Qle_bool (Dashboard.weight vs) Dashboard.safe) eqn:E;
    [|discriminate].
  intros H. split; [exact H|apply Qle_bool_iff, E].
Qed.

Lemma tally_counted (vs : list Sql.val) :
  Dashboard.weight vs <= Dashboard.safe ->
  Dashboard.counted vs = Dashboard.tally vs.
Proof.
  intros H. unfold Dashboard.counted.
  apply Qle_bool_iff in H. rewrite H. reflexivity.
Qed.

Lemma tally_defined (vs : list Sql.val) :
  forallb Dashboard.countable vs = true ->
  exists p, Dashboard.tally vs = Some p.
Proof.
  induction vs as [|v rest IH]; simpl; intros H.
  - eexists; reflexivity.
  - apply andb_true_iff in H as [Hv Hrest].
    destruct (IH Hrest) as [[s n] Hp]. rewrite Hp.
    destruct v as [|q|t]; simpl in Hv.
    + eexists; reflexivity.
    + rewrite Hv. eexists; reflexivity.
    + discriminate.
Qed.

Lemma weight_nonneg (vs : list Sql.val) : 0 <= Dashboard.weight vs.
Proof.
  induction vs as [|v rest IH]; simpl; [apply Qle_refl|].
  destruct v as [|q|t]; try exact IH.
  pose proof (Qabs_nonneg q). lra.
Qed.

Lemma weight_filter (A : Type) (f : A -> Sql.val) (P : A -> bool)
      (l : list A) :
  Dashboard.weight (map f (filter P l)) <= Dashboard.weight (map f l).
Proof.
  induction l as [|x rest IH]; simpl; [apply Qle_refl|].
  destruct (P x); simpl.
  - destruct (f x) as [|q|t]; try exact IH. lra.
  - destruct (f x) as [|q|t]; try exact IH.
    pose proof (Qabs_nonneg q). lra.
Qed.

Lemma all_defined (A B : Type) (f : A -> option B) (l : list A) :
  (forall x, In x l -> exists y, f x = Some y) ->
  exists ys, Dashboard.all f l = Some ys.
Proof.
  induction l as [|x rest IH]; simpl; intros H.
  - eexists; reflexivity.
  - destruct (H x (or_introl eq_refl)) as [y Hy]. rewrite Hy.
    destruct IH as [ys Hys]; [intros z Hz; apply H; right; exact Hz|].
    rewrite Hys. eexists; reflexivity.
Qed.

(** Within the exact range the aggregate of every date is defined. *)
Lemma day_defined (logs : list Dashboard.log) (g : Sql.val) :
  (forall log,
      In log logs ->
      Dashboard.countable
        (Server.DisciplineCols.minutes_invested (Sql.cols log)) = true
      /\ Dashboard.countable
           (Server.DisciplineCols.focus_level (Sql.cols log)) = true) ->
  Dashboard.weight
    (map (fun r => Server.DisciplineCols.minutes_invested (Sql.cols r)) logs)
  <= Dashboard.safe ->
  Dashboard.weight
    (map (fun r => Server.DisciplineCols.focus_level (Sql.cols r)) logs)
  <= Dashboard.safe ->
  exists d, Dashboard.day logs g = Some d.
Proof.
  intros Hc Hm Hf. unfold Dashboard.day, Dashboard.SUM, Dashboard.AVG,
    Dashboard.members.
  rewrite !tally_counted
    by (eapply Qle_trans; [apply weight_filter|assumption]).
  destruct (tally_defined
              (map (fun r => Server.DisciplineCols.minutes_invested
                               (Sql.cols r))
                   (filter (fun r => Dashboard.same_group
                                       (fst (Sql.key r)) g) logs)))
    as [[s [|n]] Hs].
  { apply forallb_forall. intros v Hv.
    apply in_map_iff in Hv as [r [<- Hr]].
    apply filter_In in Hr as [Hr _]. apply (Hc r Hr). }
  all: destruct (tally_defined
              (map (fun r => Server.DisciplineCols.focus_level
                               (Sql.cols r))
                   (filter (fun r => Dashboard.same_group
                                       (fst (Sql.key r)) g) logs)))
    as [[a [|k]] Ha];
    try (apply forallb_forall; intros v Hv;
         apply in_map_iff in Hv as [r [<- Hr]];
         apply filter_In in Hr as [Hr _]; apply (Hc r Hr));
    rewrite Hs, Ha; eexists; reflexivity.
Qed.

Lemma same_group_leb (a b : Sql.val) :
  Dashboard.same_group a b = true -> Sql.leb a b = true.
Proof.
  destruct a, b; simpl; try discriminate; try reflexivity.
  - intros H. apply Qeq_bool_eq in H. apply Qle_bool_iff.
    rewrite H. apply Qle_refl.
  - intros H. apply String.eqb_eq in H. subst.
    destruct (String.leb_total s0 s0); assumption.
Qed.

(** X16.  The discipline part of GET /api/dashboard.  It is defined as
    soon as every [minutes_invested] and [focus_level] of the table is
    NULL or an integer and their magnitudes add up to at most 2^53.
    Whenever it is defined, it has one entry for each date of the table,
    at most 30 of them, latest date first; an entry holds the SUM of the
    minutes and the AVG of the focus levels of the logs of its date, so
    that with numbers in every log the total is the sum of that day's
    minutes; as soon as the table has a log the first entry is the one
    of the greatest date; and with at most 30 dates every date is
    there. *)
Theorem discipline_aggregate_per_date :
  forall (db : Server.Db),
    let logs := Sql.rows (Server.discipline_logs db) in
    let dates := map (fun r : Dashboard.log => fst (Sql.key r)) logs in
    ((forall log,
         In log logs ->
         Dashboard.countable
           (Server.DisciplineCols.minutes_invested (Sql.cols log)) = true
         /\ Dashboard.countable
              (Server.DisciplineCols.focus_level (Sql.cols log)) = true) ->
     Dashboard.weight
       (map (fun r => Server.DisciplineCols.minutes_invested (Sql.cols r))
            logs) <= Dashboard.safe ->
     Dashboard.weight
       (map (fun r => Server.DisciplineCols.focus_level (Sql.cols r))
            logs) <= Dashboard.safe ->
     exists days, Dashboard.discipline db = Some days)
    /\ forall days,
        Dashboard.discipline db = Some days ->
        (List.length days <= 30)%nat
        /\ Sorted.StronglySorted
             (fun x y =>
                Sql.leb (Dashboard.date y) (Dashboard.date x) = true)
             days
        /\ (forall g,
              (List.length
                 (filter
                    (fun d => Dashboard.same_group (Dashboard.date d) g)
                    days) <= 1)%nat)
        /\ (forall d,
              In d days ->
              In (Dashboard.date d) dates
              /\ Dashboard.day logs (Dashboard.date d) = Some d)
        /\ (forall d qs,
              In d days ->
              map (fun r =>
                     Server.DisciplineCols.minutes_invested (Sql.cols r))
                  (Dashboard.members (Dashboard.date d) logs)
              = map Sql.Num qs ->
              Dashboard.total_minutes d
              = Sql.Num (fold_right Qplus 0 qs))
        /\ (forall log,
              In log logs ->
              exists latest rest,
                days = latest :: rest
                /\ Sql.leb (fst (Sql.key log)) (Dashboard.date latest)
                   = true)
        /\ ((List.length (Dashboard.groups dates) <= 30)%nat ->
            forall log,
              In log logs ->
              exists d,
                In d days
                /\ Dashboard.same_group (fst (Sql.key log))
                                        (Dashboard.date d) = true).
Proof.
  intros db logs dates. split.
  { intros Hc Hm Hf.
    destruct (all_defined _ _ (Dashboard.day logs) (Dashboard.groups dates))
      as [days0 H0].
    { intros g _. apply day_defined; assumption. }
    exists (firstn 30 (Dashboard.order_by_date_desc days0)).
    change (option_map
              (fun l => firstn 30 (Dashboard.order_by_date_desc l))
              (Dashboard.all (Dashboard.day logs) (Dashboard.groups dates))
            = Some (firstn 30 (Dashboard.order_by_date_desc days0))).
    rewrite H0. reflexivity. }
  intros days Hdays.
  change (option_map
            (fun l => firstn 30 (Dashboard.order_by_date_desc l))
            (Dashboard.all (Dashboard.day logs) (Dashboard.groups dates))
          = Some days) in Hdays.
  destruct (Dashboard.all (Dashboard.day logs) (Dashboard.groups dates))
    as [days0|] eqn:Hall; [|discriminate].
  unfold option_map in Hdays.
  assert (firstn 30 (Dashboard.order_by_date_desc days0) = days) as Heq
      by congruence.
  clear Hdays. subst days.
  pose proof (days_dates _ _ _ Hall) as Hdates.
  pose proof (order_days_perm days0) as Hperm.
  pose proof (order_days_sorted days0) as Hsorted.
  assert (forall d, In d days0 ->
                    In (Dashboard.date d) dates
                    /\ Dashboard.day logs (Dashboard.date d) = Some d)
    as Hday0.
  { intros d Hd. apply all_forall2 in Hall.
    assert (exists g, In g (Dashboard.groups dates)
                      /\ Dashboard.day logs g = Some d) as [g [Hg Hgd]].
    { clear Hdates Hperm Hsorted.
      induction Hall as [|g d' gs ds Hgd _ IH]; [destruct Hd|].
      destruct Hd as [->|Hd].
      - exists g. split; [left; reflexivity|exact Hgd].
      - destruct (IH Hd) as [g' [Hg' Hgd']].
        exists g'. split; [right; exact Hg'|exact Hgd']. }
    rewrite (day_date _ _ _ Hgd).
    split; [apply groups_in, Hg|exact Hgd]. }
  assert (forall d, In d (firstn 30 (Dashboard.order_by_date_desc days0)) ->
                    In d days0) as Hsub.
  { intros d Hd. apply in_firstn in Hd.
    apply (Permutation.Permutation_in _ Hperm), Hd. }
  split; [rewrite length_firstn; apply Nat.le_min_l|].
  split; [apply sorted_firstn, Hsorted|].
  split; [|split; [|split; [|split]]].
  - intros g.
    eapply Nat.le_trans; [apply filter_length_firstn|].
    rewrite (filter_length_perm _ _ _ _ Hperm).
    rewrite (filter_length_map _ _ Dashboard.date
               (fun x => Dashboard.same_group x g)).
    rewrite Hdates. apply groups_distinct.
  - intros d Hd. apply Hday0, Hsub, Hd.
  - intros d qs Hd Hqs.
    destruct (Hday0 d (Hsub d Hd)) as [Hin Hday].
    unfold Dashboard.day, Dashboard.SUM in Hday.
    rewrite Hqs in Hday.
    destruct (Dashboard.counted (map Sql.Num qs)) as [[s n]|] eqn:Ec;
      [|discriminate].
    apply counted_tally in Ec as [Et _].
    apply tally_numbers in Et as [-> ->].
    destruct qs as [|q qs'].
    + exfalso. apply in_map_iff in Hin as [log [Hlog Hin]].
      assert (In log (Dashboard.members (Dashboard.date d) logs)) as Hm.
      { apply filter_In. split; [exact Hin|].
        rewrite Hlog. apply same_group_refl. }
      destruct (Dashboard.members (Dashboard.date d) logs);
        [destruct Hm|discriminate Hqs].
    + simpl List.length in Hday.
      destruct (Dashboard.AVG _); [|discriminate].
      injection Hday as <-. reflexivity.
  - intros log Hlog.
    destruct (groups_cover dates (fst (Sql.key log))) as [g [Hg Hsame]].
    { apply in_map_iff. exists log. split; [reflexivity|exact Hlog]. }
    assert (exists d, In d days0 /\ Dashboard.date d = g) as [d [Hd Hdg]].
    { rewrite <- Hdates in Hg. apply in_map_iff in Hg as [d [Hdg Hd]].
      exists d. split; assumption. }
    apply (Permutation.Permutation_in _ (Permutation.Permutation_sym Hperm))
      in Hd.
    destruct (Dashboard.order_by_date_desc days0) as [|latest rest] eqn:E;
      [destruct Hd|].
    exists latest, (firstn 29 rest). split; [reflexivity|].
    apply leb_trans with g; [apply same_group_leb, Hsame|].
    rewrite <- Hdg. destruct Hd as [->|Hd]; [apply leb_refl|].
    inversion Hsorted as [|? ? _ Hfa]; subst.
    rewrite Forall_forall in Hfa. apply Hfa, Hd.
  - intros Hsmall log Hlog.
    destruct (groups_cover dates (fst (Sql.key log))) as [g [Hg Hsame]].
    { apply in_map_iff. exists log. split; [reflexivity|exact Hlog]. }
    rewrite <- Hdates in Hg. apply in_map_iff in Hg as [d [Hdg Hd]].
    exists d. split; [|rewrite Hdg; exact Hsame].
    rewrite firstn_all2.
    + apply (Permutation.Permutation_in _
               (Permutation.Permutation_sym Hperm)), Hd.
    + rewrite (Permutation.Permutation_length Hperm).
      rewrite <- (length_map Dashboard.date), Hdates. exact Hsmall.
Qed.

Lemma discipline_aggregate_witness :
  Dashboard.discipline (Server.serve Samples.two_projects Server.empty_db)
  = Some [ {| Dashboard.date := Sql.Text "2024-01-01";
              Dashboard.total_minutes := Sql.Num (60 + (45 + 0));
              Dashboard.avg_focus :=
                Sql.Num (Double.div (3 + (5 + 0))
                                    (inject_Z (Z.of_nat 2))) |} ]
  /\ Dashboard.total_minutes
       {| Dashboard.date := Sql.Text "2024-01-01";
          Dashboard.total_minutes := Sql.Num (60 + (45 + 0));
          Dashboard.avg_focus :=
            Sql.Num (Double.div (3 + (5 + 0)) (inject_Z (Z.of_nat 2))) |}
     = Sql.Num (fold_right Qplus 0 [60; 45]).
Proof.
  destruct (discipline_aggregate_per_date
              (Server.serve Samples.two_projects Server.empty_db))
    as [Hdef Hdays].
  destruct Hdef as [days Hd].
  - intros log [<-|[<-|[]]]; split; reflexivity.
  - vm_compute. discriminate.
  - vm_compute. discriminate.
  - assert (days
            = [ {| Dashboard.date := Sql.Text "2024-01-01";
                   Dashboard.total_minutes := Sql.Num (60 + (45 + 0));
                   Dashboard.avg_focus :=
                     Sql.Num (Double.div (3 + (5 + 0))
                                         (inject_Z (Z.of_nat 2))) |} ])
      as ->.
    { revert Hd. unfold Dashboard.discipline, Server.serve.
      cbn -[Double.div]. intros Hd. injection Hd as <-. reflexivity. }
    split; [exact Hd|].
    destruct (Hdays _ Hd) as [_ [_ [_ [_ [H _]]]]].
    apply H; [left; reflexivity|reflexivity].
Defined.

(** ** Logging a project again *)

Section Relog.

Context {sqlite : Sql.Engine}.

Lemma eqb2_same_date (k1 k2 : Sql.val * Sql.val) (d : Sql.val) :
  Sql.eqb2 k1 k2 = true ->
  Dashboard.same_group (fst k1) d = Dashboard.same_group (fst k2) d.
Proof.
  unfold Sql.eqb2. intros H. apply andb_true_iff in H as [H _].
  assert (Dashboard.same_group (fst k1) (fst k2) = true) as Hs.
  { destruct (fst k1), (fst k2); simpl in *; congruence. }
  rewrite (same_group_sym (fst k1)), (same_group_sym (fst k2)).
  apply same_group_congr, Hs.
Qed.

Lemma members_upsert_same (k : Sql.val * Sql.val) (d : Sql.val)
      (c : Server.DisciplineCols.t) (fresh : Z) (rs : list Dashboard.log) :
  Dashboard.same_group (fst k) d = true ->
  Dashboard.members d (Sql.upsert_rows Sql.eqb2 k c fresh rs)
  = Sql.upsert_rows Sql.eqb2 k c fresh (Dashboard.members d rs).
Proof.
  intros Hk. unfold Dashboard.members.
  induction rs as [|x rest IH]; simpl.
  - rewrite Hk. reflexivity.
  - destruct (Sql.eqb2 (Sql.key x) k) eqn:E; simpl.
    + rewrite (eqb2_same_date _ _ d E), Hk. simpl. rewrite E. reflexivity.
    + destruct (Dashboard.same_group (fst (Sql.key x)) d); simpl.
      * rewrite E, IH. reflexivity.
      * exact IH.
Qed.

Lemma members_upsert_other (k : Sql.val * Sql.val) (d : Sql.val)
      (c : Server.DisciplineCols.t) (fresh : Z) (rs : list Dashboard.log) :
  Dashboard.same_group (fst k) d = false ->
  Dashboard.members d (Sql.upsert_rows Sql.eqb2 k c fresh rs)
  = Dashboard.members d rs.
Proof.
  intros Hk. unfold Dashboard.members.
  induction rs as [|x rest IH]; simpl.
  - rewrite Hk. reflexivity.
  - destruct (Sql.eqb2 (Sql.key x) k) eqn:E; simpl.
    + rewrite (eqb2_same_date _ _ d E), Hk. reflexivity.
    + rewrite IH. reflexivity.
Qed.

Lemma unique_filter (K F : Type) (conflict : K -> K -> bool)
      (P : Sql.row K F -> bool) (rs : list (Sql.row K F)) :
  Sql.unique_keys conflict rs = true ->
  Sql.unique_keys conflict (filter P rs) = true.
Proof.
  induction rs as [|x rest IH]; simpl; intros H; [reflexivity|].
  apply andb_true_iff in H as [Hx Hrest].
  destruct (P x); simpl; [|apply IH, Hrest].
  rewrite (IH Hrest), andb_true_r.
  rewrite forallb_forall in Hx |- *. intros y Hy.
  apply Hx. apply filter_In in Hy as [Hy _]. exact Hy.
Qed.

Lemma filter_others_id (k : Sql.val * Sql.val) (x : Sql.row (Sql.val * Sql.val) Server.DisciplineCols.t)
      (rest : list (Sql.row (Sql.val * Sql.val) Server.DisciplineCols.t)) :
  forallb (fun r' =>
             negb (Sql.eqb2 (Sql.key x) (Sql.key r'))) rest = true ->
  Sql.eqb2 (Sql.key x) k = true ->
  filter (fun r => negb (Sql.eqb2 (Sql.key r) k)) rest
  = rest.
Proof.
  intros Hall Hxk.
  induction rest as [|y l IH]; simpl; [reflexivity|].
  simpl in Hall. apply andb_true_iff in Hall as [Hy Hl].
  assert (Sql.eqb2 (Sql.key y) k = false) as Hyk.
  { destruct (Sql.eqb2 (Sql.key y) k) eqn:Ey; [|reflexivity].
    rewrite eqb2_sym in Ey.
    rewrite (eqb2_trans _ _ _ Hxk Ey) in Hy. discriminate. }
  rewrite Hyk. simpl. rewrite (IH Hl). reflexivity.
Qed.

(** The tally after an upsert: the new value, and the rows of the other
    keys. *)
Lemma tally_upsert (k : Sql.val * Sql.val) (c : Server.DisciplineCols.t)
      (fresh : Z) (rs : list Dashboard.log) (m s : Q) (n : nat) :
  Sql.unique_keys Sql.eqb2 rs = true ->
  Server.DisciplineCols.minutes_invested c = Sql.Num m ->
  Dashboard.integer m = true ->
  Dashboard.tally
    (map (fun r => Server.DisciplineCols.minutes_invested (Sql.cols r))
         (filter (fun r => negb (Sql.eqb2 (Sql.key r) k)) rs))
  = Some (s, n) ->
  exists s',
    Dashboard.tally
      (map (fun r => Server.DisciplineCols.minutes_invested (Sql.cols r))
           (Sql.upsert_rows Sql.eqb2 k c fresh rs))
    = Some (s', S n)
    /\ s' == s + m.
Proof.
  intros Huniq Hm Hint. revert s n.
  induction rs as [|x rest IH]; intros s n Ht.
  - simpl in *. rewrite Hm, Hint. injection Ht as <- <-.
    exists (m + 0). split; [reflexivity|ring].
  - cbn [Sql.unique_keys] in Huniq.
    apply andb_true_iff in Huniq as [Hx Hrest].
    cbn [filter] in Ht. cbn [Sql.upsert_rows].
    destruct (Sql.eqb2 (Sql.key x) k) eqn:E.
    + cbn [negb] in Ht. rewrite (filter_others_id k x rest Hx E) in Ht.
      cbn [map Dashboard.tally Sql.cols]. rewrite Hm, Ht, Hint.
      exists (m + s). split; [reflexivity|ring].
    + cbn [negb map Dashboard.tally] in Ht |- *.
      destruct (Server.DisciplineCols.minutes_invested (Sql.cols x))
        as [|q|t] eqn:Ex.
      * apply (IH Hrest s n Ht).
      * destruct (Dashboard.tally
                    (map (fun r => Server.DisciplineCols.minutes_invested
                                     (Sql.cols r))
                         (filter (fun r => negb (Sql.eqb2 (Sql.key r) k))
                                 rest))) as [[s0 n0]|] eqn:Et;
          [|discriminate].
        destruct (Dashboard.integer q); [|discriminate].
        injection Ht as <- <-.
        destruct (IH Hrest s0 n0 eq_refl) as [s' [Hs' Heq]].
        rewrite Hs'. exists (q + s'). split; [reflexivity|].
        rewrite Heq. ring.
      * discriminate.
Qed.

(** Its weight likewise. *)
Lemma weight_upsert (k : Sql.val * Sql.val) (c : Server.DisciplineCols.t)
      (fresh : Z) (rs : list Dashboard.log) (m : Q) :
  Sql.unique_keys Sql.eqb2 rs = true ->
  Server.DisciplineCols.minutes_invested c = Sql.Num m ->
  Dashboard.weight
    (map (fun r => Server.DisciplineCols.minutes_invested (Sql.cols r))
         (Sql.upsert_rows Sql.eqb2 k c fresh rs))
  == Dashboard.weight
       (map (fun r => Server.DisciplineCols.minutes_invested (Sql.cols r))
            (filter (fun r => negb (Sql.eqb2 (Sql.key r) k)) rs))
     + Qabs m.
Proof.
  intros Huniq Hm.
  induction rs as [|x rest IH].
  - simpl. rewrite Hm. ring.
  - cbn [Sql.unique_keys] in Huniq.
    apply andb_true_iff in Huniq as [Hx Hrest].
    cbn [filter Sql.upsert_rows].
    destruct (Sql.eqb2 (Sql.key x) k) eqn:E.
    + cbn [negb]. rewrite (filter_others_id k x rest Hx E).
      cbn [map Dashboard.weight Sql.cols]. rewrite Hm. ring.
    + cbn [negb map Dashboard.weight].
      destruct (Server.DisciplineCols.minutes_invested (Sql.cols x))
        as [|q|t]; try exact (IH Hrest).
      rewrite (IH Hrest). ring.
Qed.

(** X17.  Logging a project again replaces its minutes in the day's total
    and does not add to them.  On the store reached by any history, after
    an accepted discipline log of [m] minutes for a date and a project,
    [m] an integer, the SUM of that date is the total of the date's other
    projects plus [m], as long as their magnitudes and that of [m] add up
    to at most 2^53; the aggregate of every other date is what it was. *)
Theorem relog_replaces_minutes :
  forall (history : list Server.Request) (r : Server.DisciplineReq.t)
         (d p : Sql.val) (c : Server.DisciplineCols.t) (m : Q),
    Server.discipline_params r = Some ((d, p), c) ->
    Server.DisciplineCols.minutes_invested c = Sql.Num m ->
    Dashboard.integer m = true ->
    let db := Server.serve history Server.empty_db in
    let db' := snd (Server.post_discipline r db) in
    let logs := Sql.rows (Server.discipline_logs db) in
    let logs' := Sql.rows (Server.discipline_logs db') in
    let others :=
      map (fun x => Server.DisciplineCols.minutes_invested (Sql.cols x))
          (filter (fun x => negb (Sql.eqb2 (Sql.key x) (d, p)))
                  (Dashboard.members d logs)) in
    (forall s n,
        Dashboard.tally others = Some (s, n) ->
        Dashboard.weight others + Qabs m <= Dashboard.safe ->
        exists s',
          Dashboard.SUM
            (map (fun x => Server.DisciplineCols.minutes_invested
                             (Sql.cols x))
                 (Dashboard.members d logs'))
          = Some (Sql.Num s')
          /\ s' == s + m)
    /\ (forall d',
          Dashboard.same_group d d' = false ->
          Dashboard.day logs' d' = Dashboard.day logs d').
Proof.
  intros history r d p c m Hp Hm Hint db db' logs logs' others.
  pose proof (well_keyed_reachable history) as Hwk. fold db in Hwk.
  unfold Server.well_keyed in Hwk. rewrite !andb_true_iff in Hwk.
  destruct Hwk as [_ Hd]. fold logs in Hd.
  assert (logs' = Sql.upsert_rows Sql.eqb2 (d, p) c
                    (Sql.seq (Server.discipline_logs db) + 1) logs) as ->.
  { unfold logs', db', Server.post_discipline. rewrite Hp. reflexivity. }
  split.
  - intros s n Ht Hw.
    rewrite members_upsert_same by apply same_group_refl.
    destruct (tally_upsert (d, p) c
                (Sql.seq (Server.discipline_logs db) + 1)
                (Dashboard.members d logs) m s n
                (unique_filter _ _ _ _ _ Hd) Hm Hint Ht) as [s' [Hs' Heq]].
    exists s'. split; [|exact Heq].
    unfold Dashboard.SUM. rewrite tally_counted.
    + rewrite Hs'. reflexivity.
    + pose proof (weight_upsert (d, p) c
                    (Sql.seq (Server.discipline_logs db) + 1)
                    (Dashboard.members d logs) m
                    (unique_filter _ _ _ _ _ Hd) Hm) as Hwu.
      apply Qle_trans with (Dashboard.weight others + Qabs m);
        [|exact Hw].
      unfold others. rewrite Hwu. apply Qle_refl.
  - intros d' Hd'. unfold Dashboard.day.
    rewrite members_upsert_other by exact Hd'. reflexivity.
Qed.

End Relog.

Lemma relog_witness :
  exists s',
    Dashboard.SUM
      (map (fun x => Server.DisciplineCols.minutes_invested (Sql.cols x))
           (Dashboard.members (Sql.Text "2024-01-01")
              (Sql.rows
                 (Server.discipline_logs
                    (snd (Server.post_discipline Samples.relog
                            (Server.serve Samples.two_projects
                               Server.empty_db)))))))
    = Some (Sql.Num s')
    /\ s' == 45 + 0 + 90.
Proof.
  destruct (relog_replaces_minutes Samples.two_projects Samples.relog
              (Sql.Text "2024-01-01") (Sql.Num 1)
              (Server.DisciplineCols.Make (Sql.Num 90) (Sql.Num 2)) 90
              eq_refl eq_refl eq_refl) as [H _].
  apply (H (45 + 0) 1%nat); [reflexivity|].
  vm_compute. discriminate.
Defined.

(** ** From the store to the view *)

Lemma all_length (A B : Type) (f : A -> option B) (l : list A)
      (ys : list B) :
  Dashboard.all f l = Some ys -> List.length ys = List.length l.
Proof.
  intros H. apply all_forall2 in H. symmetry.
  induction H; simpl; congruence.
Qed.

Lemma all_head (A B : Type) (f : A -> option B) (x : A) (rest : list A)
      (ys : list B) :
  Dashboard.all f (x :: rest) = Some ys ->
  exists y ys', ys = y :: ys' /\ f x = Some y.
Proof.
  simpl. destruct (f x) as [y|]; [|discriminate].
  destruct (Dashboard.all f rest) as [ys'|]; [|discriminate].
  intros H. injection H as <-. exists y, ys'. auto.
Qed.

Lemma last30_latest (F : Type) (t : Sql.table Sql.val F)
      (r : Sql.row Sql.val F) :
  In r (Sql.rows t) ->
  exists latest tl,
    Server.last30 t = latest :: tl
    /\ In latest (Sql.rows t)
    /\ Sql.leb (Sql.key r) (Sql.key latest) = true.
Proof.
  intros Hr. unfold Server.last30, Sql.order_by_desc_limit.
  pose proof (order_by_desc_perm _ _ Sql.key (Sql.rows t)) as Hperm.
  pose proof (order_by_desc_sorted _ _ Sql.key (Sql.rows t)) as Hs.
  apply (Permutation.Permutation_in _ (Permutation.Permutation_sym Hperm))
    in Hr.
  destruct (Sql.order_by_desc Sql.key (Sql.rows t)) as [|latest rest];
    [destruct Hr|].
  exists latest, (firstn 29 rest). split; [reflexivity|]. split.
  - apply (Permutation.Permutation_in _ Hperm). left. reflexivity.
  - destruct Hr as [->|Hr]; [apply leb_refl|].
    inversion Hs as [|? ? _ Hall]; subst.
    rewrite Forall_forall in Hall. apply Hall, Hr.
Qed.

Lemma last30_nil (F : Type) (t : Sql.table Sql.val F) :
  Server.last30 t = [] <-> Sql.rows t = [].
Proof.
  split.
  - intros H. destruct (Sql.rows t) as [|r rest] eqn:E; [reflexivity|].
    destruct (last30_latest F t r) as [latest [tl [Hl _]]];
      [rewrite E; left; reflexivity|].
    rewrite H in Hl. discriminate.
  - intros H. unfold Server.last30. rewrite H. reflexivity.
Qed.

Lemma discipline_latest (db : Server.Db) (days : list Dashboard.Day)
      (log : Dashboard.log) :
  Dashboard.discipline db = Some days ->
  In log (Sql.rows (Server.discipline_logs db)) ->
  exists latest rest,
    days = latest :: rest
    /\ Sql.leb (fst (Sql.key log)) (Dashboard.date latest) = true
    /\ Dashboard.day (Sql.rows (Server.discipline_logs db))
                     (Dashboard.date latest) = Some latest.
Proof.
  intros Hdays Hlog.
  set (logs := Sql.rows (Server.discipline_logs db)) in *.
  set (dates := map (fun r : Dashboard.log => fst (Sql.key r)) logs).
  change (option_map
            (fun l => firstn 30 (Dashboard.order_by_date_desc l))
            (Dashboard.all (Dashboard.day logs) (Dashboard.groups dates))
          = Some days) in Hdays.
  destruct (Dashboard.all (Dashboard.day logs) (Dashboard.groups dates))
    as [days0|] eqn:Hall; [|discriminate].
  unfold option_map in Hdays.
  assert (firstn 30 (Dashboard.order_by_date_desc days0) = days) as Heq
      by congruence.
  clear Hdays. subst days.
  pose proof (days_dates _ _ _ Hall) as Hdates.
  pose proof (order_days_perm days0) as Hperm.
  pose proof (order_days_sorted days0) as Hsorted.
  destruct (groups_cover dates (fst (Sql.key log))) as [g [Hg Hsame]].
  { apply in_map_iff. exists log. split; [reflexivity|exact Hlog]. }
  rewrite <- Hdates in Hg. apply in_map_iff in Hg as [d [Hdg Hd]].
  apply (Permutation.Permutation_in _ (Permutation.Permutation_sym Hperm))
    in Hd.
  destruct (Dashboard.order_by_date_desc days0) as [|latest rest] eqn:E;
    [destruct Hd|].
  exists latest, (firstn 29 rest). split; [reflexivity|]. split.
  - apply leb_trans with g; [apply same_group_leb, Hsame|].
    rewrite <- Hdg. destruct Hd as [->|Hd]; [apply leb_refl|].
    inversion Hsorted as [|? ? _ Hfa]; subst.
    rewrite Forall_forall in Hfa. apply Hfa, Hd.
  - assert (In latest days0) as Hin
        by (apply (Permutation.Permutation_in _ Hperm); left; reflexivity).
    apply all_forall2 in Hall. clear - Hall Hin.
    induction Hall as [|g d' gs ds Hgd _ IH]; [destruct Hin|].
    destruct Hin as [->|Hin]; [|apply IH, Hin].
    rewrite (day_date _ _ _ Hgd). exact Hgd.
Qed.

Lemma discipline_nil (db : Server.Db) (days : list Dashboard.Day) :
  Dashboard.discipline db = Some days ->
  (days = [] <-> Sql.rows (Server.discipline_logs db) = []).
Proof.
  intros Hdays. split.
  - intros ->. destruct (Sql.rows (Server.discipline_logs db))
      as [|log rest] eqn:E; [reflexivity|].
    destruct (discipline_latest db [] log Hdays) as [l [r [H _]]];
      [rewrite E; left; reflexivity|discriminate H].
  - intros H. unfold Dashboard.discipline in Hdays. rewrite H in Hdays.
    simpl in Hdays. congruence.
Qed.

Lemma no_data_iff (calculateScore : Q -> Q)
      (getCorrelation : list Q -> list Q -> option Q)
      (data : Types.DashboardData) :
  App.DashboardView calculateScore getCorrelation (Some data) = App.NoData
  <-> Types.body data = [] /\ Types.mind data = []
      /\ Types.finance data = [] /\ Types.discipline data = [].
Proof.
  rewrite <- hasData_false. unfold App.DashboardView.
  destruct (App.hasData data); simpl; split; intros H;
    try reflexivity; discriminate.
Qed.

Lemma payload_parts (db : Server.Db) (data : Types.DashboardData) :
  Dashboard.payload db = Some data ->
  Dashboard.all Dashboard.BodyLog (Server.get_body db)
  = Some (Types.body data)
  /\ Dashboard.all Dashboard.MindLog (Server.get_mind db)
     = Some (Types.mind data)
  /\ Dashboard.all Dashboard.FinanceLog (Server.get_finance db)
     = Some (Types.finance data)
  /\ exists days,
      Dashboard.discipline db = Some days
      /\ Dashboard.all Dashboard.DisciplineDay days
         = Some (Types.discipline data).
Proof.
  unfold Dashboard.payload.
  destruct (Dashboard.all Dashboard.BodyLog _) as [b|]; [|discriminate].
  destruct (Dashboard.all Dashboard.MindLog _) as [m|]; [|discriminate].
  destruct (Dashboard.all Dashboard.FinanceLog _) as [f|]; [|discriminate].
  destruct (Dashboard.discipline db) as [days|]; [|discriminate].
  destruct (Dashboard.all Dashboard.DisciplineDay days) as [d|] eqn:E;
    [|discriminate].
  intros H. injection H as <-. simpl.
  repeat split. exists days. split; [reflexivity|exact E].
Qed.

Lemma all_nil (A B : Type) (f : A -> option B) (l : list A) (ys : list B) :
  Dashboard.all f l = Some ys -> (ys = [] <-> l = []).
Proof.
  intros H. apply all_length in H.
  destruct ys, l; simpl in H; try discriminate; split; congruence.
Qed.

(** X18.  From the store to the view, whenever the payload of
    GET /api/dashboard has the types the client expects.  The view is the
    "no data" placeholder exactly when the four log tables are empty.
    Otherwise the log the body, mind and finance scores are computed from
    is the stored row of greatest date, and the total the discipline
    score is computed from is the sum of the minutes logged on the
    greatest date of the discipline table. *)
Theorem dashboard_reads_the_latest :
  forall (calculateScore : Q -> Q)
         (getCorrelation : list Q -> list Q -> option Q)
         (db : Server.Db) (data : Types.DashboardData),
    Dashboard.payload db = Some data ->
    (App.DashboardView calculateScore getCorrelation (Some data)
     = App.NoData
     <-> Sql.rows (Server.body_logs db) = []
         /\ Sql.rows (Server.mind_logs db) = []
         /\ Sql.rows (Server.finance_logs db) = []
         /\ Sql.rows (Server.discipline_logs db) = [])
    /\ (forall row,
          In row (Sql.rows (Server.body_logs db)) ->
          exists r latestBody rest,
            In r (Sql.rows (Server.body_logs db))
            /\ Sql.leb (Sql.key row) (Sql.key r) = true
            /\ Dashboard.BodyLog r = Some latestBody
            /\ Types.body data = latestBody :: rest)
    /\ (forall row,
          In row (Sql.rows (Server.mind_logs db)) ->
          exists r latestMind rest,
            In r (Sql.rows (Server.mind_logs db))
            /\ Sql.leb (Sql.key row) (Sql.key r) = true
            /\ Dashboard.MindLog r = Some latestMind
            /\ Types.mind data = latestMind :: rest)
    /\ (forall row,
          In row (Sql.rows (Server.finance_logs db)) ->
          exists r latestFinance rest,
            In r (Sql.rows (Server.finance_logs db))
            /\ Sql.leb (Sql.key row) (Sql.key r) = true
            /\ Dashboard.FinanceLog r = Some latestFinance
            /\ Types.finance data = latestFinance :: rest)
    /\ (forall log,
          In log (Sql.rows (Server.discipline_logs db)) ->
          exists latest rest s n,
            Types.discipline data = latest :: rest
            /\ Sql.leb (fst (Sql.key log))
                       (Sql.Text (Types.DisciplineDay.date latest)) = true
            /\ Dashboard.tally
                 (map (fun x => Server.DisciplineCols.minutes_invested
                                  (Sql.cols x))
                      (Dashboard.members
                         (Sql.Text (Types.DisciplineDay.date latest))
                         (Sql.rows (Server.discipline_logs db))))
               = Some (s, S n)
            /\ Types.DisciplineDay.total_minutes latest = s).
Proof.
  intros calculateScore getCorrelation db data Hp.
  destruct (payload_parts db data Hp) as [Hb [Hm [Hf [days [Hdays Hd]]]]].
  split; [|split; [|split; [|split]]].
  - destruct (no_data_iff calculateScore getCorrelation data) as [H1 H2].
    rewrite (all_nil _ _ _ _ _ Hb), (all_nil _ _ _ _ _ Hm),
      (all_nil _ _ _ _ _ Hf), (all_nil _ _ _ _ _ Hd) in H1, H2.
    unfold Server.get_body, Server.get_mind, Server.get_finance in H1, H2.
    rewrite !last30_nil, (discipline_nil db days Hdays) in H1, H2.
    split; assumption.
  - intros row Hrow.
    destruct (last30_latest _ _ row Hrow) as [r [tl [Hw [Hin Hle]]]].
    unfold Server.get_body in Hb. rewrite Hw in Hb.
    destruct (all_head _ _ _ _ _ _ Hb) as [y [ys [Hy Hr]]].
    exists r, y, ys. auto.
  - intros row Hrow.
    destruct (last30_latest _ _ row Hrow) as [r [tl [Hw [Hin Hle]]]].
    unfold Server.get_mind in Hm. rewrite Hw in Hm.
    destruct (all_head _ _ _ _ _ _ Hm) as [y [ys [Hy Hr]]].
    exists r, y, ys. auto.
  - intros row Hrow.
    destruct (last30_latest _ _ row Hrow) as [r [tl [Hw [Hin Hle]]]].
    unfold Server.get_finance in Hf. rewrite Hw in Hf.
    destruct (all_head _ _ _ _ _ _ Hf) as [y [ys [Hy Hr]]].
    exists r, y, ys. auto.
  - intros log Hlog.
    destruct (discipline_latest db days log Hdays Hlog)
      as [latest [rest [-> [Hle Hday]]]].
    destruct (all_head _ _ _ _ _ _ Hd) as [y [ys [Hy Hr]]].
    unfold Dashboard.DisciplineDay in Hr.
    destruct (Dashboard.date latest) as [| |dt] eqn:Edate;
      try discriminate.
    destruct (Dashboard.total_minutes latest) as [|tm|] eqn:Etm;
      try discriminate.
    destruct (Dashboard.avg_focus latest) as [|af|]; try discriminate.
    simpl in Hr. injection Hr as <-.
    unfold Dashboard.day, Dashboard.SUM in Hday.
    destruct (Dashboard.counted
                (map (fun r => Server.DisciplineCols.minutes_invested
                                 (Sql.cols r))
                     (Dashboard.members (Sql.Text dt)
                        (Sql.rows (Server.discipline_logs db)))))
      as [[s [|n]]|] eqn:Ec; try discriminate.
    + destruct (Dashboard.AVG _); [|discriminate].
      injection Hday as Hday. rewrite <- Hday in Etm. discriminate.
    + destruct (Dashboard.AVG _); [|discriminate].
      injection Hday as Hday. rewrite <- Hday in Etm. simpl in Etm.
      assert (s = tm) as -> by congruence.
      apply counted_tally in Ec as [Et _].
      exists (Types.DisciplineDay.Make dt tm af), ys, tm, n.
      split; [exact Hy|]. split; [exact Hle|]. split; [exact Et|].
      reflexivity.
Qed.

Lemma dashboard_reads_witness :
  exists latest rest s n,
    Types.discipline
      {| Types.body := []; Types.mind := []; Types.finance := [];
         Types.discipline :=
           [ Types.DisciplineDay.Make "2024-01-01" (60 + (45 + 0))
               (Double.div (3 + (5 + 0)) (inject_Z (Z.of_nat 2))) ] |}
    = latest :: rest
    /\ Sql.leb (Sql.Text "2024-01-01")
               (Sql.Text (Types.DisciplineDay.date latest)) = true
    /\ Dashboard.tally
         (map (fun x => Server.DisciplineCols.minutes_invested (Sql.cols x))
              (Dashboard.members
                 (Sql.Text (Types.DisciplineDay.date latest))
                 (Sql.rows
                    (Server.discipline_logs
                       (Server.serve Samples.two_projects
                          Server.empty_db)))))
       = Some (s, S n)
    /\ Types.DisciplineDay.total_minutes latest = s.
Proof.
  assert (Dashboard.payload
            (Server.serve Samples.two_projects Server.empty_db)
          = Some {| Types.body := []; Types.mind := []; Types.finance := [];
                    Types.discipline :=
                      [ Types.DisciplineDay.Make "2024-01-01" (60 + (45 + 0))
                          (Double.div (3 + (5 + 0))
                                      (inject_Z (Z.of_nat 2))) ] |}) as Hp
      by (cbn -[Double.div]; reflexivity).
  destruct (dashboard_reads_the_latest (fun x => x) (fun _ _ => None)
              (Server.serve Samples.two_projects Server.empty_db)
              _ Hp) as [_ [_ [_ [_ H]]]].
  apply (H (Sql.Row 1 (Sql.Text "2024-01-01", Sql.Num 1)
              (Server.DisciplineCols.Make (Sql.Num 60) (Sql.Num 3)))).
  simpl. left. reflexivity.
Defined.

(** A finance log submitted without income is stored with a NULL income
    and reaches the view as a log without income, whose debts the guard
    divides by 1. *)
Lemma missing_income_reaches_the_guard :
  exists data,
    Dashboard.payload
      (snd (Server.post_finance Examples.finance_no_income Server.empty_db))
    = Some data
    /\ map Types.FinanceLog.income (Types.finance data) = [None]
    /\ App.financialPressure data = 100%Z
    /\ App.financeScore data = 0%Z.
Proof.
  eexists. split; [vm_compute; reflexivity|].
  vm_compute. repeat split.
Qed.

(** ** The mental inbox *)

Section InboxFacts.

Context {sqlite : Sql.Engine}.

Lemma nodup_map_filter (A B : Type) (f : A -> B) (P : A -> bool)
      (l : list A) :
  NoDup (map f l) -> NoDup (map f (filter P l)).
Proof.
  induction l as [|x rest IH]; simpl; intros H; [constructor|].
  inversion H as [|? ? Hnotin Hrest]; subst.
  destruct (P x); simpl; [|apply IH, Hrest].
  constructor; [|apply IH, Hrest].
  intros Hin. apply Hnotin.
  apply in_map_iff in Hin as [y [Hy Hin]].
  apply filter_In in Hin as [Hin _].
  rewrite <- Hy. apply in_map, Hin.
Qed.

Lemma inbox_post_rows (now : string) (req : Inbox.Req.t) (c : Inbox.Cols.t)
      (t : Inbox.table) :
  Inbox.params now req = Some c ->
  snd (Inbox.post now req t)
  = {| Sql.rows := Sql.rows t ++ [Sql.Row (Sql.seq t + 1) tt c];
       Sql.seq := (Sql.seq t + 1)%Z |}.
Proof.
  intros Hp. unfold Inbox.post. rewrite Hp. simpl.
  unfold Sql.upsert. f_equal.
  apply upsert_rows_append. reflexivity.
Qed.

Lemma inbox_ids_ok_handle (rq : Inbox.Request) (t : Inbox.table) :
  Inv.ids_ok t -> Inv.ids_ok (snd (Inbox.handle rq t)).
Proof.
  intros Hok. destruct rq as [now req|id]; simpl.
  - unfold Inbox.post. destruct (Inbox.params now req); simpl;
      [apply ids_ok_upsert, Hok|exact Hok].
  - destruct Hok as [Hseq [Hall Hnd]]. unfold Inv.ids_ok. simpl.
    split; [exact Hseq|]. split.
    + rewrite Forall_forall in Hall |- *. intros r Hr.
      apply filter_In in Hr as [Hr _]. apply Hall, Hr.
    + apply nodup_map_filter, Hnd.
Qed.

Lemma inbox_seq_handle (rq : Inbox.Request) (t : Inbox.table) :
  (Sql.seq t <= Sql.seq (snd (Inbox.handle rq t)))%Z.
Proof.
  destruct rq as [now req|id]; simpl; [|lia].
  unfold Inbox.post. destruct (Inbox.params now req); simpl; lia.
Qed.

Lemma inbox_old_row_handle (rq : Inbox.Request) (t : Inbox.table)
      (row : Sql.row unit Inbox.Cols.t) :
  In row (Sql.rows (snd (Inbox.handle rq t))) ->
  (Sql.id row <= Sql.seq t)%Z ->
  In row (Sql.rows t).
Proof.
  destruct rq as [now req|id]; simpl.
  - destruct (Inbox.params now req) as [c|] eqn:Hp.
    + rewrite (inbox_post_rows now req c t Hp). simpl.
      intros Hin Hid. apply in_app_iff in Hin as [Hin|[<-|[]]];
        [exact Hin|]. simpl in Hid. lia.
    + unfold Inbox.post. rewrite Hp. simpl. auto.
  - intros Hin _. apply filter_In in Hin as [Hin _]. exact Hin.
Qed.

Lemma inbox_ids_ok_reachable (history : list Inbox.Request) :
  Inv.ids_ok (Inbox.serve history Sql.empty).
Proof.
  unfold Inbox.serve. generalize (ids_ok_empty unit Inbox.Cols.t).
  generalize (@Sql.empty unit Inbox.Cols.t).
  induction history as [|rq rest IH]; simpl; intros x Hx; [exact Hx|].
  apply IH, inbox_ids_ok_handle, Hx.
Qed.

Lemma filter_id_of_all (A : Type) (P : A -> bool) (l : list A) :
  (forall x, In x l -> P x = true) -> filter P l = l.
Proof.
  induction l as [|x rest IH]; simpl; intros H; [reflexivity|].
  rewrite (H x (or_introl eq_refl)), IH; [reflexivity|].
  intros y Hy. apply H. right. exact Hy.
Qed.

(** X19.  Inbox ids are never handed out twice, deletions or not.
    Starting from the empty inbox, after any history of posts and
    deletions the ids are positive, pairwise distinct and bounded by the
    counter; and whatever happens later, a row whose id is not above
    today's counter is one of today's rows, unchanged. *)
Theorem inbox_ids_are_never_reused :
  forall (history more : list Inbox.Request),
    let t := Inbox.serve history Sql.empty in
    let t' := Inbox.serve more t in
    Inv.ids_ok t'
    /\ (Sql.seq t <= Sql.seq t')%Z
    /\ (forall row,
          In row (Sql.rows t') -> (Sql.id row <= Sql.seq t)%Z ->
          In row (Sql.rows t)).
Proof.
  intros history more t t'.
  assert (forall h x, Inv.ids_ok x -> Inv.ids_ok (Inbox.serve h x))
    as Hserve.
  { unfold Inbox.serve. induction h as [|rq rest IH]; simpl; intros x Hx;
      [exact Hx|]. apply IH, inbox_ids_ok_handle, Hx. }
  split; [apply Hserve, Hserve, ids_ok_empty|].
  subst t'. generalize t. clear t.
  unfold Inbox.serve. induction more as [|rq rest IH]; simpl; intros t.
  - split; [lia|auto].
  - destruct (IH (snd (Inbox.handle rq t))) as [Hseq Hrows].
    pose proof (inbox_seq_handle rq t) as Hstep.
    split; [lia|].
    intros row Hin Hid.
    apply (inbox_old_row_handle rq t row); [|exact Hid].
    apply Hrows; [exact Hin|lia].
Qed.

Lemma filter_split_length (A : Type) (P : A -> bool) (l : list A) :
  (List.length (filter P l) + List.length (filter (fun x => negb (P x)) l)
   = List.length l)%nat.
Proof.
  induction l as [|x rest IH]; simpl; [reflexivity|].
  destruct (P x); simpl; lia.
Qed.

Lemma at_most_one_id (K F : Type) (v : Sql.val)
      (rs : list (Sql.row K F)) :
  NoDup (map Sql.id rs) ->
  (List.length
     (filter (fun r => Sql.eqb (Sql.Num (inject_Z (Sql.id r))) v) rs)
   <= 1)%nat.
Proof.
  induction rs as [|p rest IH]; cbn [filter map]; intros Hnd;
    [simpl; lia|].
  inversion Hnd as [|? ? Hnotin Hrest]; subst.
  destruct (Sql.eqb (Sql.Num (inject_Z (Sql.id p))) v) eqn:E;
    [|apply IH, Hrest].
  rewrite filter_none; [simpl; lia|].
  intros q Hq.
  destruct (Sql.eqb (Sql.Num (inject_Z (Sql.id q))) v) eqn:Eq;
    [|reflexivity].
  exfalso. apply Hnotin.
  rewrite eqb_sym in Eq.
  pose proof (eqb_trans _ _ _ E Eq) as H. simpl in H.
  apply inject_Z_eqb in H. rewrite H. apply in_map, Hq.
Qed.

(** X20.  DELETE /api/inbox/:id on the inbox reached by any history.  It
    always answers with success; it removes the rows whose id equals the
    value the parameter compares as, which is one row at most, and leaves
    every other row, in order; repeated, it changes nothing more; and when
    no row has that id the inbox is what it was. *)
Theorem inbox_delete_removes_one :
  forall (history : list Inbox.Request) (id : string),
    let t := Inbox.serve history Sql.empty in
    let t' := snd (Inbox.delete id t) in
    fst (Inbox.delete id t) = Server.Success
    /\ (List.length (Sql.rows t) <= List.length (Sql.rows t') + 1)%nat
    /\ (forall row,
          In row (Sql.rows t') <->
          In row (Sql.rows t)
          /\ Sql.eqb (Sql.Num (inject_Z (Sql.id row)))
                     (Sql.store Sql.INTEGER (Sql.Text id)) = false)
    /\ (forall z row,
          Sql.numeric id = Some (inject_Z z) ->
          (In row (Sql.rows t') <-> In row (Sql.rows t) /\ Sql.id row <> z))
    /\ snd (Inbox.delete id t') = t'
    /\ ((forall row, In row (Sql.rows t) ->
                     Sql.eqb (Sql.Num (inject_Z (Sql.id row)))
                             (Sql.store Sql.INTEGER (Sql.Text id))
                     = false) ->
        Sql.rows t' = Sql.rows t).
Proof.
  intros history id t t'.
  destruct (inbox_ids_ok_reachable history) as [_ [_ Hnd]].
  fold t in Hnd.
  assert (forall row,
             In row (Sql.rows t') <->
             In row (Sql.rows t)
             /\ Sql.eqb (Sql.Num (inject_Z (Sql.id row)))
                        (Sql.store Sql.INTEGER (Sql.Text id))
                = false) as Hin.
  { intros row. unfold t', Inbox.delete. cbn [snd Sql.rows].
    rewrite filter_In, negb_true_iff. reflexivity. }
  split; [reflexivity|]. split; [|split; [exact Hin|split; [|split]]].
  - unfold t', Inbox.delete. cbn [snd Sql.rows].
    pose proof (filter_split_length _
                  (fun r : Sql.row unit Inbox.Cols.t =>
                     Sql.eqb (Sql.Num (inject_Z (Sql.id r)))
                             (Sql.store Sql.INTEGER (Sql.Text id)))
                  (Sql.rows t)) as Hsplit.
    pose proof (at_most_one_id _ _ (Sql.store Sql.INTEGER (Sql.Text id))
                  (Sql.rows t) Hnd) as Hone.
    lia.
  - intros z row Hz. rewrite Hin. unfold Sql.store. rewrite Hz. simpl.
    split; intros [H1 H2]; (split; [exact H1|]).
    + intros <-. rewrite Qeq_bool_refl in H2. discriminate.
    + destruct (Qeq_bool (inject_Z (Sql.id row)) (inject_Z z)) eqn:E;
        [|reflexivity].
      exfalso. apply H2, inject_Z_eqb, E.
  - unfold t', Inbox.delete. cbn [snd Sql.rows Sql.seq]. f_equal.
    apply filter_id_of_all. intros row Hrow.
    apply filter_In in Hrow as [_ Hrow]. exact Hrow.
  - intros Hnone. unfold t', Inbox.delete. cbn [snd Sql.rows].
    apply filter_id_of_all. intros row Hrow.
    rewrite (Hnone row Hrow). reflexivity.
Qed.

End InboxFacts.

Lemma inbox_ids_witness :
  In (Sql.Row 1 tt
        (Inbox.Cols.Make (Sql.Text "comprar pão") (Sql.Text "task")
           (Sql.Text "2024-01-01T08:00:00.000Z")))
     (Sql.rows
        (Inbox.serve
           [ Inbox.Post "2024-01-01T08:00:00.000Z"
               (Inbox.Req.Make (Js.Str "comprar pão") (Js.Str "task")) ]
           Sql.empty)).
Proof.
  destruct (inbox_ids_are_never_reused
              [ Inbox.Post "2024-01-01T08:00:00.000Z"
                  (Inbox.Req.Make (Js.Str "comprar pão") (Js.Str "task")) ]
              [ Inbox.Post "2024-01-01T09:00:00.000Z"
                  (Inbox.Req.Make (Js.Str "e se chover") (Js.Str "worry")) ])
    as [_ [_ H]].
  apply H; [simpl; left; reflexivity|simpl; lia].
Defined.

Lemma inbox_delete_witness :
  In (Sql.Row 2 tt
        (Inbox.Cols.Make (Sql.Text "e se chover") (Sql.Text "worry")
           (Sql.Text "2024-01-01T09:00:00.000Z")))
     (Sql.rows
        (snd (Inbox.delete "1"
                (Inbox.serve Samples.two_thoughts
                   Sql.empty)))).
Proof.
  destruct (inbox_delete_removes_one Samples.two_thoughts "1")
    as [_ [_ [_ [H _]]]].
  apply (H 1%Z); [reflexivity|].
  split; [simpl; right; left; reflexivity|simpl; lia].
Defined.

(** ** The inbox listing *)

Section InboxListing.

Context {sqlite : Sql.Engine}.

Lemma nodup_id_inj (K F : Type) (rs : list (Sql.row K F))
      (a b : Sql.row K F) :
  NoDup (map Sql.id rs) -> In a rs -> In b rs -> Sql.id a = Sql.id b ->
  a = b.
Proof.
  induction rs as [|x rest IH]; simpl; intros Hnd Ha Hb Hid; [destruct Ha|].
  inversion Hnd as [|? ? Hnotin Hrest]; subst.
  destruct Ha as [->|Ha], Hb as [->|Hb].
  - reflexivity.
  - exfalso. apply Hnotin. rewrite Hid. apply in_map, Hb.
  - exfalso. apply Hnotin. rewrite <- Hid. apply in_map, Ha.
  - apply IH; assumption.
Qed.

(** X21.  GET /api/inbox lists every item, latest first.  Deleting with
    the id of a listed item, written in decimal as the client writes it
    and read back by SQLite as that integer, takes that item off the
    listing and no other. *)
Theorem inbox_listing_after_delete :
  forall (history : list Inbox.Request),
    let t := Inbox.serve history Sql.empty in
    Permutation.Permutation (Inbox.get t) (Sql.rows t)
    /\ Sorted.StronglySorted
         (fun x y =>
            Sql.leb (Inbox.Cols.created_at (Sql.cols y))
                    (Inbox.Cols.created_at (Sql.cols x)) = true)
         (Inbox.get t)
    /\ (forall item,
          In item (Inbox.get t) ->
          Sql.numeric (show (Some (Sql.id item)))
          = Some (inject_Z (Sql.id item)) ->
          let t' :=
            snd (Inbox.delete (show (Some (Sql.id item))) t) in
          ~ In item (Inbox.get t')
          /\ forall other,
              In other (Inbox.get t) -> other <> item ->
              In other (Inbox.get t')).
Proof.
  intros history t.
  pose proof (order_by_desc_perm _ _
                (fun r : Sql.row unit Inbox.Cols.t =>
                   Inbox.Cols.created_at (Sql.cols r))) as Hperm.
  split; [apply Hperm|]. split; [apply order_by_desc_sorted|].
  intros item Hitem Hnum t'.
  destruct (inbox_ids_ok_reachable history) as [_ [_ Hnd]].
  fold t in Hnd.
  assert (forall row,
             In row (Inbox.get t') <->
             In row (Sql.rows t) /\ Sql.id row <> Sql.id item) as Hin.
  { intros row. unfold Inbox.get. split.
    - intros H. apply (Permutation.Permutation_in _ (Hperm _)) in H.
      unfold t', Inbox.delete, Sql.store in H. cbn [snd Sql.rows] in H.
      rewrite Hnum in H. apply filter_In in H as [H1 H2].
      split; [exact H1|]. intros Heq. rewrite Heq in H2. simpl in H2.
      rewrite Qeq_bool_refl in H2. discriminate.
    - intros [H1 H2].
      apply (Permutation.Permutation_in _
               (Permutation.Permutation_sym (Hperm _))).
      unfold t', Inbox.delete, Sql.store. cbn [snd Sql.rows].
      rewrite Hnum.
      apply filter_In. split; [exact H1|]. simpl.
      destruct (Qeq_bool (inject_Z (Sql.id row)) (inject_Z (Sql.id item)))
        eqn:E; [|reflexivity].
      exfalso. apply H2, inject_Z_eqb, E. }
  split.
  - intros H. apply Hin in H as [_ H]. apply H. reflexivity.
  - intros other Hother Hneq. apply Hin.
    apply (Permutation.Permutation_in _ (Hperm _)) in Hother, Hitem.
    split; [exact Hother|]. intros Hid. apply Hneq.
    apply (nodup_id_inj _ _ (Sql.rows t)); assumption.
Qed.

End InboxListing.

Lemma inbox_listing_witness :
  ~ In (Sql.Row 1 tt
          (Inbox.Cols.Make (Sql.Text "comprar pão") (Sql.Text "task")
             (Sql.Text "2024-01-01T08:00:00.000Z")))
       (Inbox.get
          (snd (Inbox.delete "1"
                  (Inbox.serve Samples.two_thoughts
                     Sql.empty)))).
Proof.
  destruct (inbox_listing_after_delete Samples.two_thoughts)
    as [_ [_ H]].
  apply (H (Sql.Row 1 tt
              (Inbox.Cols.Make (Sql.Text "comprar pão") (Sql.Text "task")
                 (Sql.Text "2024-01-01T08:00:00.000Z")))).
  - simpl. right. left. reflexivity.
  - reflexivity.
Defined.
